(** * Signal scoring and risk-gated trade execution

    A shallow embedding of the decision logic of the trading bot:
    - [Risk]: the [RiskManager] class of [utils/risk-manager.js];
    - [Signals] and [Monitor]: the signal scorer, the consensus gate and
      the position monitor of [server/signals.js];
    - [Trading]: the momentum indicators, the entry point
      [calculateIndicators] and the position bookkeeping of [trading.js];
    - [ValidateTradeSpec], [ConsensusSpec], [ScorerSpec]: the rules as the
      specification words them, to compare the code with.

    JavaScript numbers are written as rationals ([Q]).  The properties
    below are about comparisons, signs and bounds, which rounding
    respects, or give a value by the expression that computes it.  The
    places where the source can divide by zero are written out with the
    non-finite results of JavaScript ([JS.number]).  Optional fields
    ([undefined] in the source) are [option]s; a thrown exception is the
    [Thrown] case of [Outcome]. *)

From Stdlib Require Import QArith Qabs Qround Lqa.
From stdpp Require Import gmap strings list.

Local Open Scope Q_scope.

(** ** Numbers, truthiness and exceptions *)

Module JS.

Definition leb (x y : Q) : bool := Qle_bool x y.
Definition ltb (x y : Q) : bool := negb (Qle_bool y x).
Definition eqb (x y : Q) : bool := Qeq_bool x y.

(** [Math.min] and [Math.max] on finite numbers. *)
Definition min (x y : Q) : Q := if leb x y then x else y.
Definition max (x y : Q) : Q := if leb x y then y else x.

(** [!x] is false exactly for a number that is present and not zero. *)
Definition truthy (x : option Q) : bool :=
  match x with
  | Some q => negb (eqb q 0)
  | None => false
  end.

(** A non-empty string is truthy. *)
Definition truthyStr (x : option string) : bool :=
  match x with
  | Some s => negb (String.eqb s "")
  | None => false
  end.

(** A number that may not be finite: the result of an unguarded division
    or of [Math.max] on no argument.  Signed zeros are not told apart. *)
Inductive number :=
| Fin (q : Q)
| PosInfinity
| NegInfinity
| NaN.

Definition neg (x : number) : number :=
  match x with
  | Fin q => Fin (- q)
  | PosInfinity => NegInfinity
  | NegInfinity => PosInfinity
  | NaN => NaN
  end.

Definition add (x y : number) : number :=
  match x, y with
  | NaN, _ | _, NaN => NaN
  | Fin a, Fin b => Fin (a + b)
  | PosInfinity, NegInfinity | NegInfinity, PosInfinity => NaN
  | PosInfinity, _ | _, PosInfinity => PosInfinity
  | NegInfinity, _ | _, NegInfinity => NegInfinity
  end.

Definition sub (x y : number) : number := add x (neg y).

(** The infinity of the sign of [q], for [q] not zero. *)
Definition signed (positive : bool) : number :=
  if positive then PosInfinity else NegInfinity.

Definition mul (x y : number) : number :=
  match x, y with
  | NaN, _ | _, NaN => NaN
  | Fin a, Fin b => Fin (a * b)
  | Fin a, PosInfinity | PosInfinity, Fin a =>
      if eqb a 0 then NaN else signed (ltb 0 a)
  | Fin a, NegInfinity | NegInfinity, Fin a =>
      if eqb a 0 then NaN else signed (ltb a 0)
  | PosInfinity, PosInfinity | NegInfinity, NegInfinity => PosInfinity
  | PosInfinity, NegInfinity | NegInfinity, PosInfinity => NegInfinity
  end.

Definition quot (x y : number) : number :=
  match x, y with
  | NaN, _ | _, NaN => NaN
  | Fin a, Fin b =>
      if eqb b 0 then (if eqb a 0 then NaN else signed (ltb 0 a))
      else Fin (a / b)
  | Fin _, _ => Fin 0
  | PosInfinity, Fin b => signed (leb 0 b)
  | NegInfinity, Fin b => signed (ltb b 0)
  | _, _ => NaN
  end.

(** [x < y]: false as soon as one side is [NaN]. *)
Definition lt (x y : number) : bool :=
  match x, y with
  | NaN, _ | _, NaN => false
  | Fin a, Fin b => ltb a b
  | NegInfinity, NegInfinity => false
  | NegInfinity, _ => true
  | _, PosInfinity => match x with PosInfinity => false | _ => true end
  | _, _ => false
  end.

(** [x <= y] *)
Definition le (x y : number) : bool :=
  match x, y with
  | NaN, _ | _, NaN => false
  | _, _ => negb (lt y x)
  end.

Definition isNaN (x : number) : bool :=
  match x with NaN => true | _ => false end.

(** Truthiness of a value that may be [undefined]. *)
Definition truthyNumber (x : option number) : bool :=
  match x with
  | Some (Fin q) => negb (eqb q 0)
  | Some NaN => false
  | Some _ => true
  | None => false
  end.

(** [a / b] for finite [a] and [b]. *)
Definition div (a b : Q) : number := quot (Fin a) (Fin b).

(** [Math.min(x, y)] with [y] finite. *)
Definition minWith (x : number) (y : Q) : number :=
  match x with
  | Fin q => Fin (min q y)
  | PosInfinity => Fin y
  | NegInfinity => NegInfinity
  | NaN => NaN
  end.

(** [Math.max(...l)] and [Math.min(...l)] on finite numbers. *)
Definition maxOf (l : list Q) : number :=
  fold_left (fun acc q => match acc with Fin a => Fin (max a q) | _ => Fin q end)
            l NegInfinity.

Definition minOf (l : list Q) : number :=
  fold_left (fun acc q => match acc with Fin a => Fin (min a q) | _ => Fin q end)
            l PosInfinity.

(** [String.prototype.toLowerCase] on the ASCII letters. *)
Definition lowerAscii (c : Ascii.ascii) : Ascii.ascii :=
  let n := Ascii.nat_of_ascii c in
  if Nat.leb 65 n && Nat.leb n 90 then Ascii.ascii_of_nat (n + 32) else c.

Fixpoint toLowerCase (s : string) : string :=
  match s with
  | EmptyString => EmptyString
  | String c s' => String (lowerAscii c) (toLowerCase s')
  end.

End JS.

(** Exceptions: a computation either returns or throws. *)
Inductive Outcome (E A : Type) : Type :=
| Return (a : A)
| Thrown (e : E).
Arguments Return {E A} a.
Arguments Thrown {E A} e.

Global Instance Outcome_bind {E} : MBind (Outcome E) :=
  fun A B (k : A -> Outcome E B) (m : Outcome E A) =>
    match m with
    | Return a => k a
    | Thrown e => Thrown e
    end.

Global Instance Outcome_ret {E} : MRet (Outcome E) := fun A (a : A) => Return a.

(** [if (c) throw e;] *)
Definition throwIf {E} (c : bool) (e : E) : Outcome E unit :=
  if c then Thrown e else Return tt.

(** ** The risk manager ([utils/risk-manager.js]) *)

Module Risk.

Record Config := {
  maxPositionSize : Q;
  maxDailyLoss : Q;
  maxDrawdown : Q;
  maxOpenPositions : Q;
  minRiskRewardRatio : Q;
  maxLeverage : Q;
  stopLossPercentage : Q;
  takeProfitPercentage : Q;
  cooldownPeriod : Q
}.

(** The argument of the constructor: a key is given or not.  The
    defaults are followed by [...config], so a key that is given wins
    whatever its value. *)
Record ConfigInput := {
  in_maxPositionSize : option Q;
  in_maxDailyLoss : option Q;
  in_maxDrawdown : option Q;
  in_maxOpenPositions : option Q;
  in_minRiskRewardRatio : option Q;
  in_maxLeverage : option Q;
  in_stopLossPercentage : option Q;
  in_takeProfitPercentage : option Q;
  in_cooldownPeriod : option Q
}.

Definition noConfig : ConfigInput :=
  Build_ConfigInput None None None None None None None None None.

Record DailyStats := {
  totalPnL : Q;
  tradesCount : nat;
  winningTrades : nat;
  losingTrades : nat;
  lastResetDate : string
}.

Record Position := {
  id : string;
  symbol : string;
  side : string;
  amount : Q;
  entryPrice : Q;
  stopLoss : option Q;
  takeProfit : option Q;
  openTime : Z;
  unrealizedPnL : Q
}.

Record RiskManager := {
  config : Config;
  dailyStats : DailyStats;
  openPositions : gmap string Position;
  lastTradeTime : gmap string Z;
  portfolioValue : Q;
  initialPortfolioValue : Q;
  peakPortfolioValue : Q
}.

(** What the clock says when a method runs: [Date.now()] and
    [new Date().toDateString()]. *)
Record Clock := {
  now : Z;
  today : string
}.

Record TradeParams := {
  tp_symbol : option string;
  tp_side : option string;
  tp_amount : option Q;
  tp_price : option Q;
  tp_leverage : option Q;
  tp_stopLoss : option Q;
  tp_takeProfit : option Q
}.

Inductive ErrorType := ValidationError | TradingError.

(** The messages of the errors thrown by [validateTrade]; the numbers
    printed in a message are kept as they are. *)
Inductive Message :=
| MissingRequiredParameters
| SymbolInCooldown (symbol : string)
| MaximumOpenPositionsReached (limit : Q)
| DailyLossLimitExceeded
| MaximumDrawdownExceeded (percent : Q)
| PositionSizeExceedsMaximum (percent : Q)
| LeverageExceedsMaximum (limit : Q)
| RiskRewardRatioTooLow (ratio : Q).

Record Error := { errorType : ErrorType; message : Message }.

Inductive ValidationResult :=
| Valid (suggestedSize : JS.number) (riskRewardRatio currentDrawdown : Q)
| Invalid (error : Message) (type : ErrorType).

Definition isValid (r : ValidationResult) : bool :=
  match r with
  | Valid _ _ _ => true
  | Invalid _ _ => false
  end.

Definition constructor (c : ConfigInput) (clk : Clock) : RiskManager :=
  {| config :=
       {| maxPositionSize := default (1 # 10) (in_maxPositionSize c);
          maxDailyLoss := default (2 # 100) (in_maxDailyLoss c);
          maxDrawdown := default (5 # 100) (in_maxDrawdown c);
          maxOpenPositions := default 5 (in_maxOpenPositions c);
          minRiskRewardRatio := default (15 # 10) (in_minRiskRewardRatio c);
          maxLeverage := default 3 (in_maxLeverage c);
          stopLossPercentage := default (2 # 100) (in_stopLossPercentage c);
          takeProfitPercentage := default (4 # 100) (in_takeProfitPercentage c);
          cooldownPeriod := default 300000 (in_cooldownPeriod c) |};
     dailyStats :=
       {| totalPnL := 0; tradesCount := 0; winningTrades := 0;
          losingTrades := 0; lastResetDate := today clk |};
     openPositions := ∅;
     lastTradeTime := ∅;
     portfolioValue := 0;
     initialPortfolioValue := 0;
     peakPortfolioValue := 0 |}.

Definition setDailyStats (rm : RiskManager) (d : DailyStats) : RiskManager :=
  {| config := config rm; dailyStats := d;
     openPositions := openPositions rm; lastTradeTime := lastTradeTime rm;
     portfolioValue := portfolioValue rm;
     initialPortfolioValue := initialPortfolioValue rm;
     peakPortfolioValue := peakPortfolioValue rm |}.

Definition resetDailyStatsIfNewDay (rm : RiskManager) (clk : Clock) : RiskManager :=
  let currentDate := today clk in
  if negb (String.eqb (lastResetDate (dailyStats rm)) currentDate) then
    setDailyStats rm
      {| totalPnL := 0; tradesCount := 0; winningTrades := 0;
         losingTrades := 0; lastResetDate := currentDate |}
  else rm.

Definition isSymbolInCooldown (rm : RiskManager) (clk : Clock) (symbol : string) : bool :=
  match lastTradeTime rm !! symbol with
  | None => false
  | Some last =>
      if Z.eqb last 0 then false
      else JS.ltb (inject_Z (now clk - last)) (cooldownPeriod (config rm))
  end.

Definition calculateDrawdown (rm : RiskManager) : Q :=
  if JS.eqb (peakPortfolioValue rm) 0 then 0
  else (peakPortfolioValue rm - portfolioValue rm) / peakPortfolioValue rm.

Definition calculateRiskRewardRatio
    (entryPrice : Q) (stopLoss takeProfit : option Q) (side : string) : Q :=
  match stopLoss, takeProfit with
  | Some sl, Some tp =>
      if negb (JS.truthy stopLoss) || negb (JS.truthy takeProfit)
         || negb (JS.truthy (Some entryPrice))
      then 0
      else
        let isLong := String.eqb (JS.toLowerCase side) "buy" in
        let risk := if isLong then entryPrice - sl else sl - entryPrice in
        let reward := if isLong then tp - entryPrice else entryPrice - tp in
        if JS.ltb 0 risk then reward / risk else 0
  | _, _ => 0
  end.

Definition calculateOptimalPositionSize
    (rm : RiskManager) (entryPrice : Q) (stopLoss : option Q) (requestedAmount : Q)
    : JS.number :=
  match stopLoss with
  | Some sl =>
      if negb (JS.truthy stopLoss) || negb (JS.truthy (Some entryPrice))
      then JS.Fin requestedAmount
      else
        let riskPerShare := Qabs (entryPrice - sl) in
        let maxRiskAmount := portfolioValue rm * stopLossPercentage (config rm) in
        let optimalSize := JS.div maxRiskAmount riskPerShare in
        JS.minWith optimalSize requestedAmount
  | None => JS.Fin requestedAmount
  end.

(** The body of the [try] block of [validateTrade], after the daily
    statistics have been rolled over. *)
Definition validateTrade_try (rm : RiskManager) (clk : Clock) (t : TradeParams)
    : Outcome Error ValidationResult :=
  let leverage := default 1 (tp_leverage t) in
  let stopLoss := tp_stopLoss t in
  let takeProfit := tp_takeProfit t in
  match tp_symbol t, tp_side t, tp_amount t, tp_price t with
  | Some symbol, Some side, Some amount, Some price =>
      throwIf (negb (JS.truthyStr (Some symbol)) || negb (JS.truthyStr (Some side))
                       || negb (JS.truthy (Some amount)) || negb (JS.truthy (Some price)))
                {| errorType := ValidationError; message := MissingRequiredParameters |} ;;
      throwIf (isSymbolInCooldown rm clk symbol)
                {| errorType := TradingError; message := SymbolInCooldown symbol |} ;;
      throwIf (JS.leb (maxOpenPositions (config rm))
                              (inject_Z (Z.of_nat (size (openPositions rm)))))
                {| errorType := TradingError;
                   message := MaximumOpenPositionsReached (maxOpenPositions (config rm)) |} ;;
      throwIf (JS.leb (totalPnL (dailyStats rm))
                              (- maxDailyLoss (config rm) * portfolioValue rm))
                {| errorType := TradingError; message := DailyLossLimitExceeded |} ;;
      let currentDrawdown := calculateDrawdown rm in
      throwIf (JS.leb (maxDrawdown (config rm)) currentDrawdown)
                {| errorType := TradingError;
                   message := MaximumDrawdownExceeded (currentDrawdown * 100) |} ;;
      let positionValue := amount * price in
      let maxPositionValue := portfolioValue rm * maxPositionSize (config rm) in
      throwIf (JS.ltb maxPositionValue positionValue)
                {| errorType := TradingError;
                   message := PositionSizeExceedsMaximum (maxPositionSize (config rm) * 100) |} ;;
      throwIf (JS.ltb (maxLeverage (config rm)) leverage)
                {| errorType := TradingError;
                   message := LeverageExceedsMaximum (maxLeverage (config rm)) |} ;;
      let riskRewardRatio := calculateRiskRewardRatio price stopLoss takeProfit side in
      throwIf (JS.ltb riskRewardRatio (minRiskRewardRatio (config rm)))
                {| errorType := TradingError;
                   message := RiskRewardRatioTooLow riskRewardRatio |} ;;
      let suggestedSize := calculateOptimalPositionSize rm price stopLoss amount in
      Return (Valid suggestedSize riskRewardRatio currentDrawdown)
  | _, _, _, _ =>
      Thrown {| errorType := ValidationError; message := MissingRequiredParameters |}
  end.

(** [validateTrade]: the roll-over of the daily statistics stays in the
    manager, and whatever the [try] block throws is caught and returned
    as a rejection. *)
Definition validateTrade (rm : RiskManager) (clk : Clock) (t : TradeParams)
    : RiskManager * ValidationResult :=
  let rm' := resetDailyStatsIfNewDay rm clk in
  (rm',
   match validateTrade_try rm' clk t with
   | Return r => r
   | Thrown e => Invalid (message e) (errorType e)
   end).

Definition registerPosition (rm : RiskManager) (clk : Clock) (p : Position) : RiskManager :=
  {| config := config rm; dailyStats := dailyStats rm;
     openPositions :=
       <[id p := {| id := id p; symbol := symbol p; side := side p;
                    amount := amount p; entryPrice := entryPrice p;
                    stopLoss := stopLoss p; takeProfit := takeProfit p;
                    openTime := now clk; unrealizedPnL := 0 |}]> (openPositions rm);
     lastTradeTime := lastTradeTime rm;
     portfolioValue := portfolioValue rm;
     initialPortfolioValue := initialPortfolioValue rm;
     peakPortfolioValue := peakPortfolioValue rm |}.

Definition closePosition
    (rm : RiskManager) (clk : Clock) (positionId : string) (exitPrice realizedPnL : Q)
    : RiskManager :=
  match openPositions rm !! positionId with
  | None => rm
  | Some position =>
      let d := dailyStats rm in
      let won := JS.ltb 0 realizedPnL in
      let value := portfolioValue rm + realizedPnL in
      {| config := config rm;
         dailyStats :=
           {| totalPnL := totalPnL d + realizedPnL;
              tradesCount := S (tradesCount d);
              winningTrades := if won then S (winningTrades d) else winningTrades d;
              losingTrades := if won then losingTrades d else S (losingTrades d);
              lastResetDate := lastResetDate d |};
         openPositions := delete positionId (openPositions rm);
         lastTradeTime := <[symbol position := now clk]> (lastTradeTime rm);
         portfolioValue := value;
         initialPortfolioValue := initialPortfolioValue rm;
         peakPortfolioValue := JS.max (peakPortfolioValue rm) value |}
  end.

Definition updatePortfolioValue (rm : RiskManager) (value : Q) : RiskManager :=
  {| config := config rm; dailyStats := dailyStats rm;
     openPositions := openPositions rm; lastTradeTime := lastTradeTime rm;
     portfolioValue := value;
     initialPortfolioValue :=
       if JS.eqb (initialPortfolioValue rm) 0 then value else initialPortfolioValue rm;
     peakPortfolioValue := JS.max (peakPortfolioValue rm) value |}.

End Risk.

(** ** The signal scorer, the consensus gate and the position monitor
       ([server/signals.js]) *)

Module Signals.

Inductive Direction := BUY | SELL | HOLD.

(** The values of [prediction.direction] and of [sentiment.sentiment]
    (the enumeration of the [Prediction] model). *)
Inductive Outlook := BULLISH | BEARISH | NEUTRAL.

Definition Direction_eqb (a b : Direction) : bool :=
  match a, b with
  | BUY, BUY | SELL, SELL | HOLD, HOLD => true
  | _, _ => false
  end.

(** [SIGNAL_CONFIG] *)
Definition TIMEFRAMES : list string := ["15m"; "1h"; "4h"; "1d"].
Definition ML_PREDICTION : Q := 35 # 100.
Definition RSI : Q := 15 # 100.
Definition MACD : Q := 12 # 100.
Definition MOVING_AVERAGES : Q := 10 # 100.
Definition BOLLINGER_BANDS : Q := 10 # 100.
Definition STOCHASTIC : Q := 8 # 100.
Definition VOLUME : Q := 5 # 100.
Definition SUPPORT_RESISTANCE : Q := 5 # 100.
Definition MIN_SIGNAL_STRENGTH : Q := 65.
Definition STRONG_SIGNAL_THRESHOLD : Q := 75.
Definition CONSENSUS_THRESHOLD : nat := 2.
Definition RSI_OVERSOLD : Q := 30.
Definition RSI_OVERBOUGHT : Q := 70.
Definition STOCH_OVERSOLD : Q := 20.
Definition STOCH_OVERBOUGHT : Q := 80.
Definition VOLUME_SURGE : Q := 15 # 10.

Record Prediction := {
  direction : Outlook;
  confidence : Q;
  priceChangePercent : option Q
}.

Record Macd := { macd : Q; signal : Q; histogram : Q }.
Record Bands := { upper : Q; lower : Q }.
Record Stochastic := { k : Q; d : Q }.
Record Levels := { support : Q; resistance : Q }.

(** The indicator values the scorer reads. *)
Record Indicators := {
  rsi : Q;
  macdOf : Macd;
  sma20 : Q;
  sma50 : Q;
  bollingerBands : Bands;
  stochastic : Stochastic;
  volumeRatio : Q;
  supportResistance : Levels
}.

Record Sentiment := { sentiment : Outlook }.

(** The reasons pushed by the analysers; a number printed in a reason is
    kept as it is. *)
Inductive Reason :=
| AIPredictsIncrease (percent : option Q)
| AIPredictsDecrease (percent : option Q)
| RsiOversold (value : Q)
| RsiOverbought (value : Q)
| MacdBullishCrossover
| MacdBearishCrossover
| PriceAboveMovingAverages
| PriceBelowMovingAverages
| PriceBelowBollingerLowerBand
| PriceAboveBollingerUpperBand
| StochasticOversold
| StochasticOverbought
| VolumeSurge (ratio : Q)
| NearSupportLevel
| NearResistanceLevel.

(** [signalComponents], without its [scores] (kept in [Scores]). *)
Record Components := {
  c_direction : Direction;
  c_strength : Q;
  c_confidence : Q;
  c_indicators : list string;
  c_reasons : list Reason
}.

Record Scores := {
  ml : Q; rsiScore : Q; macdScore : Q; ma : Q; bb : Q; stoch : Q; volume : Q; sr : Q
}.

(** The signal returned by [generateTimeframeSignal]; the random [id], the
    rounded copy of the indicators and the metadata are left out. *)
Record Signal := {
  timeframe : string;
  signalOf : Direction;
  strength : Q;
  s_confidence : Q;
  indicators : list string;
  reasons : list Reason;
  scores : Scores;
  prediction : Prediction
}.

Definition setDirection (c : Components) (dir : Direction) : Components :=
  {| c_direction := dir; c_strength := c_strength c; c_confidence := c_confidence c;
     c_indicators := c_indicators c; c_reasons := c_reasons c |}.

Definition setConfidence (c : Components) (q : Q) : Components :=
  {| c_direction := c_direction c; c_strength := c_strength c; c_confidence := q;
     c_indicators := c_indicators c; c_reasons := c_reasons c |}.

(** [components.indicators.push(tag); components.reasons.push(reason)] *)
Definition push (c : Components) (tag : string) (reason : Reason) : Components :=
  {| c_direction := c_direction c; c_strength := c_strength c;
     c_confidence := c_confidence c;
     c_indicators := c_indicators c ++ [tag]; c_reasons := c_reasons c ++ [reason] |}.

Definition analyzeMlPrediction (p : Prediction) (c : Components) : Q * Components :=
  if JS.ltb 60 (confidence p) then
    let score := (confidence p / 100) * ML_PREDICTION * 100 in
    let c1 :=
      match direction p with
      | BULLISH => push (setDirection c BUY) "ML_BULLISH" (AIPredictsIncrease (priceChangePercent p))
      | BEARISH => push (setDirection c SELL) "ML_BEARISH" (AIPredictsDecrease (priceChangePercent p))
      | NEUTRAL => c
      end in
    (score, setConfidence c1 (JS.max (c_confidence c1) (confidence p)))
  else (0, c).

Definition analyzeRSI (rsi : Q) (c : Components) : Q * Components :=
  if JS.ltb rsi RSI_OVERSOLD then
    let dir := if Direction_eqb (c_direction c) HOLD then BUY else c_direction c in
    (RSI * 100, push (setDirection c dir) "RSI_OVERSOLD" (RsiOversold rsi))
  else if JS.ltb RSI_OVERBOUGHT rsi then
    let dir := if Direction_eqb (c_direction c) HOLD then SELL else c_direction c in
    (RSI * 100, push (setDirection c dir) "RSI_OVERBOUGHT" (RsiOverbought rsi))
  else (0, c).

Definition analyzeMacd (m : Macd) (c : Components) : Q * Components :=
  if JS.ltb 0 (histogram m) && JS.ltb (signal m) (macd m) then
    if Direction_eqb (c_direction c) BUY
    then (MACD * 100, push c "MACD_BULLISH" MacdBullishCrossover)
    else (0, c)
  else if JS.ltb (histogram m) 0 && JS.ltb (macd m) (signal m) then
    if Direction_eqb (c_direction c) SELL
    then (MACD * 100, push c "MACD_BEARISH" MacdBearishCrossover)
    else (0, c)
  else (0, c).

Definition analyzeMovingAverages (i : Indicators) (currentPrice : Q) (c : Components)
    : Q * Components :=
  if JS.ltb (sma20 i) currentPrice && JS.ltb (sma50 i) (sma20 i) then
    if Direction_eqb (c_direction c) BUY
    then (MOVING_AVERAGES * 100, push c "MA_BULLISH" PriceAboveMovingAverages)
    else (0, c)
  else if JS.ltb currentPrice (sma20 i) && JS.ltb (sma20 i) (sma50 i) then
    if Direction_eqb (c_direction c) SELL
    then (MOVING_AVERAGES * 100, push c "MA_BEARISH" PriceBelowMovingAverages)
    else (0, c)
  else (0, c).

Definition analyzeBollingerBands (b : Bands) (currentPrice : Q) (c : Components)
    : Q * Components :=
  if JS.ltb currentPrice (lower b) then
    if Direction_eqb (c_direction c) BUY
    then (BOLLINGER_BANDS * 100, push c "BB_OVERSOLD" PriceBelowBollingerLowerBand)
    else (0, c)
  else if JS.ltb (upper b) currentPrice then
    if Direction_eqb (c_direction c) SELL
    then (BOLLINGER_BANDS * 100, push c "BB_OVERBOUGHT" PriceAboveBollingerUpperBand)
    else (0, c)
  else (0, c).

Definition analyzeStochastic (s : Stochastic) (c : Components) : Q * Components :=
  if JS.ltb (k s) STOCH_OVERSOLD && JS.ltb (d s) STOCH_OVERSOLD then
    if Direction_eqb (c_direction c) BUY
    then (STOCHASTIC * 100, push c "STOCH_OVERSOLD" StochasticOversold)
    else (0, c)
  else if JS.ltb STOCH_OVERBOUGHT (k s) && JS.ltb STOCH_OVERBOUGHT (d s) then
    if Direction_eqb (c_direction c) SELL
    then (STOCHASTIC * 100, push c "STOCH_OVERBOUGHT" StochasticOverbought)
    else (0, c)
  else (0, c).

Definition analyzeVolume (volumeRatio : Q) (c : Components) : Q * Components :=
  if JS.ltb VOLUME_SURGE volumeRatio
  then (VOLUME * 100, push c "VOLUME_SURGE" (VolumeSurge volumeRatio))
  else (0, c).

Definition analyzeSupportResistance (l : Levels) (currentPrice : Q) (c : Components)
    : Q * Components :=
  if JS.leb currentPrice (support l * (102 # 100)) then
    if Direction_eqb (c_direction c) BUY
    then (SUPPORT_RESISTANCE * 100, push c "SUPPORT_LEVEL" NearSupportLevel)
    else (0, c)
  else if JS.leb (resistance l * (98 # 100)) currentPrice then
    if Direction_eqb (c_direction c) SELL
    then (SUPPORT_RESISTANCE * 100, push c "RESISTANCE_LEVEL" NearResistanceLevel)
    else (0, c)
  else (0, c).

(** [Object.values(scores)], in the order the keys were set. *)
Definition values (s : Scores) : list Q :=
  [ml s; rsiScore s; macdScore s; ma s; bb s; stoch s; volume s; sr s].

Definition calculateWeightedStrength (s : Scores) : Q :=
  let totalScore := fold_left Qplus (values s) 0 in
  JS.min 95 (50 + totalScore).

Definition applySentimentConfirmation (s : Sentiment) (dir : Direction) : Q :=
  match sentiment s, dir with
  | BULLISH, BUY => 5
  | BEARISH, SELL => 5
  | _, _ => 0
  end.

Definition initialComponents : Components :=
  {| c_direction := HOLD; c_strength := 50; c_confidence := 0;
     c_indicators := []; c_reasons := [] |}.

Definition generateTimeframeSignal
    (timeframe : string) (indicators : option Indicators) (prediction : option Prediction)
    (sentiment : Sentiment) (currentPrice : Q) : option Signal :=
  match indicators, prediction with
  | Some i, Some p =>
      let c0 := initialComponents in
      let '(mlScore, c1) := analyzeMlPrediction p c0 in
      let '(rsiScore, c2) := analyzeRSI (rsi i) c1 in
      let '(macdScore, c3) := analyzeMacd (macdOf i) c2 in
      let '(maScore, c4) := analyzeMovingAverages i currentPrice c3 in
      let '(bbScore, c5) := analyzeBollingerBands (bollingerBands i) currentPrice c4 in
      let '(stochScore, c6) := analyzeStochastic (stochastic i) c5 in
      let '(volumeScore, c7) := analyzeVolume (volumeRatio i) c6 in
      let '(srScore, c8) := analyzeSupportResistance (supportResistance i) currentPrice c7 in
      let scores :=
        {| ml := mlScore; rsiScore := rsiScore; macdScore := macdScore; ma := maScore;
           bb := bbScore; stoch := stochScore; volume := volumeScore; sr := srScore |} in
      let finalStrength := calculateWeightedStrength scores in
      let sentimentAdjustment := applySentimentConfirmation sentiment (c_direction c8) in
      Some {| timeframe := timeframe;
              signalOf := c_direction c8;
              strength := JS.min 95 (finalStrength + sentimentAdjustment);
              s_confidence := c_confidence c8;
              indicators := c_indicators c8;
              reasons := c_reasons c8;
              scores := scores;
              prediction := p |}
  | _, _ => None
  end.

(** [filterAndRankSignals]: the weak signals are removed and the rest is
    sorted by [strength * 0.7 + confidence * 0.3], highest first
    ([Array.prototype.sort] is stable). *)
Definition rank (s : Signal) : Q := strength s * (7 # 10) + s_confidence s * (3 # 10).

Fixpoint insertRanked (x : Signal) (l : list Signal) : list Signal :=
  match l with
  | [] => [x]
  | y :: l' => if JS.leb (rank y - rank x) 0 then x :: y :: l' else y :: insertRanked x l'
  end.

Definition sortRanked (l : list Signal) : list Signal := foldr insertRanked [] l.

Definition keepSignal (s : Signal) : bool :=
  JS.leb MIN_SIGNAL_STRENGTH (strength s) && JS.leb 50 (s_confidence s)
  && Nat.leb 2 (length (reasons s)).

Definition filterAndRankSignals (signals : list Signal) : list Signal :=
  sortRanked (List.filter keepSignal signals).

(** The part of [botState] read by the signal generator. *)
Record BotState := {
  currentPrice : option Q;
  predictions : gmap string Prediction;
  sentimentData : option Sentiment
}.

Definition validatePrerequisites (b : BotState) : bool :=
  if negb (JS.truthy (currentPrice b))
     || match currentPrice b with Some price => JS.leb price 0 | None => false end
  then false
  else if Nat.eqb (size (predictions b)) 0 then false
  else if negb (match sentimentData b with Some _ => true | None => false end) then false
  else true.

Inductive SignalError := PrerequisitesValidationFailed.

(** [generateTradingSignals]: [technicalData] is what
    [fetchMultiTimeframeData] has fetched, an entry for each timeframe
    with enough candles. *)
Definition generateTradingSignals (b : BotState) (technicalData : gmap string Indicators)
    : Outcome SignalError (list Signal) :=
  if negb (validatePrerequisites b) then Thrown PrerequisitesValidationFailed
  else
    match currentPrice b, sentimentData b with
    | Some price, Some sentimentData =>
        let signals :=
          fold_left
            (fun signals timeframe =>
               match generateTimeframeSignal timeframe (technicalData !! timeframe)
                       (predictions b !! timeframe) sentimentData price with
               | Some signal =>
                   if JS.leb MIN_SIGNAL_STRENGTH (strength signal)
                   then signals ++ [signal] else signals
               | None => signals
               end)
            TIMEFRAMES [] in
        Return (filterAndRankSignals signals)
    | _, _ => Thrown PrerequisitesValidationFailed
    end.

(** One side of the result of [analyzeSignalConsensus]. *)
Record Consensus := {
  count : nat;
  avgStrength : Q;
  avgConfidence : Q;
  signals : list Signal
}.

Definition consensusOf (l : list Signal) : Consensus :=
  {| count := length l;
     avgStrength :=
       if Nat.ltb 0 (length l)
       then fold_left (fun sum s => sum + strength s) l 0 / inject_Z (Z.of_nat (length l))
       else 0;
     avgConfidence :=
       if Nat.ltb 0 (length l)
       then fold_left (fun sum s => sum + s_confidence s) l 0 / inject_Z (Z.of_nat (length l))
       else 0;
     signals := l |}.

Definition analyzeSignalConsensus (signals : list Signal) : Consensus * Consensus :=
  let buySignals :=
    List.filter (fun s => Direction_eqb (signalOf s) BUY
                          && JS.ltb STRONG_SIGNAL_THRESHOLD (strength s)) signals in
  let sellSignals :=
    List.filter (fun s => Direction_eqb (signalOf s) SELL
                          && JS.ltb STRONG_SIGNAL_THRESHOLD (strength s)) signals in
  (consensusOf buySignals, consensusOf sellSignals).

(** The test [analyzeAndExecuteSignals] makes on a side of the consensus
    before it calls the executor of that side:
    [count >= CONSENSUS_THRESHOLD && avgStrength > STRONG_SIGNAL_THRESHOLD]. *)
Definition consensusReached (c : Consensus) : bool :=
  Nat.leb CONSENSUS_THRESHOLD (count c)
  && JS.ltb STRONG_SIGNAL_THRESHOLD (avgStrength c).

End Signals.

(** ** The position monitor ([server/signals.js]) *)

Module Monitor.

(** A monitored position.  [type] is ["BUY"] for a long position; every
    other value takes the short branches.  The time stamps written by
    [updatePositionMetrics] ([lastUpdate], [pnlHistory]) are left out. *)
Record Position := {
  type : string;
  entryPrice : Q;
  size : Q;
  stopLoss : option Q;
  takeProfit : option Q;
  trailingStop : bool;
  trailingStopDistance : option Q;
  currentPrice : Q;
  pnl : Q;
  pnlPercentage : JS.number
}.

Definition isBuy (p : Position) : bool := String.eqb (type p) "BUY".

Definition setStopLoss (p : Position) (s : Q) : Position :=
  {| type := type p; entryPrice := entryPrice p; size := size p;
     stopLoss := Some s; takeProfit := takeProfit p;
     trailingStop := trailingStop p; trailingStopDistance := trailingStopDistance p;
     currentPrice := currentPrice p; pnl := pnl p; pnlPercentage := pnlPercentage p |}.

Definition updatePositionMetrics (p : Position) (currentPrice : Q) : Position :=
  let priceDiff := currentPrice - entryPrice p in
  let pnl := priceDiff * size p in
  let pnlPercentage := JS.mul (JS.div priceDiff (entryPrice p)) (JS.Fin 100) in
  {| type := type p; entryPrice := entryPrice p; size := size p;
     stopLoss := stopLoss p; takeProfit := takeProfit p;
     trailingStop := trailingStop p; trailingStopDistance := trailingStopDistance p;
     currentPrice := currentPrice;
     pnl := if isBuy p then pnl else - pnl;
     pnlPercentage := if isBuy p then pnlPercentage else JS.neg pnlPercentage |}.

Definition shouldTriggerStopLoss (p : Position) (currentPrice : Q) : bool :=
  match stopLoss p with
  | Some s =>
      if negb (JS.truthy (stopLoss p)) then false
      else if isBuy p then JS.leb currentPrice s else JS.leb s currentPrice
  | None => false
  end.

Definition shouldTriggerTakeProfit (p : Position) (currentPrice : Q) : bool :=
  match takeProfit p with
  | Some t =>
      if negb (JS.truthy (takeProfit p)) then false
      else if isBuy p then JS.leb t currentPrice else JS.leb currentPrice t
  | None => false
  end.

(** A comparison with a stop level that is [undefined] is false. *)
Definition shouldUpdateTrailingStop (p : Position) (currentPrice : Q) : bool :=
  match trailingStopDistance p with
  | Some distance =>
      if negb (trailingStop p) || negb (JS.truthy (trailingStopDistance p)) then false
      else if isBuy p then
        let newStopPrice := currentPrice - distance in
        match stopLoss p with Some s => JS.ltb s newStopPrice | None => false end
      else
        let newStopPrice := currentPrice + distance in
        match stopLoss p with Some s => JS.ltb newStopPrice s | None => false end
  | None => false
  end.

(** Called only after [shouldUpdateTrailingStop], so with a distance. *)
Definition updateTrailingStop (p : Position) (currentPrice : Q) : Position :=
  match trailingStopDistance p with
  | Some distance =>
      if isBuy p then setStopLoss p (currentPrice - distance)
      else setStopLoss p (currentPrice + distance)
  | None => p
  end.

Record RiskCheck := { shouldExit : bool; reason : string }.

(** What one pass of [monitorSinglePosition] does besides updating the
    position. *)
Inductive Event :=
| RiskExit (reason : string)
| StopLossTriggered
| TakeProfitTriggered
| TrailingStopUpdated
| NoAction
| MonitoringFailed.

Section WithRiskAssessment.

(** [RiskManager.assessPositionRisk] is not part of the sources: it is
    any function that answers or throws. *)
Variable assessPositionRisk : Position -> Outcome string RiskCheck.

Definition monitorSinglePosition (position : Position) (currentPrice : Q)
    : Position * Event :=
  let position := updatePositionMetrics position currentPrice in
  match assessPositionRisk position with
  | Thrown _ => (position, MonitoringFailed)
  | Return riskCheck =>
      if shouldExit riskCheck then (position, RiskExit (reason riskCheck))
      else if JS.truthy (stopLoss position) && shouldTriggerStopLoss position currentPrice
      then (position, StopLossTriggered)
      else if JS.truthy (takeProfit position) && shouldTriggerTakeProfit position currentPrice
      then (position, TakeProfitTriggered)
      else if trailingStop position && shouldUpdateTrailingStop position currentPrice
      then (updateTrailingStop position currentPrice, TrailingStopUpdated)
      else (position, NoAction)
  end.

(** The position after the monitor has processed the price ticks in order. *)
Definition monitorTicks (position : Position) (ticks : list Q) : Position :=
  fold_left (fun p price => fst (monitorSinglePosition p price)) ticks position.

End WithRiskAssessment.

(** The stop level never moves down: it is unset on both sides, or set on
    both with the later one at least the earlier one. *)
Definition stopNotLowered (before after : option Q) : Prop :=
  match before, after with
  | Some a, Some b => a <= b
  | None, None => True
  | _, _ => False
  end.

Definition stopNotRaised (before after : option Q) : Prop :=
  match before, after with
  | Some a, Some b => b <= a
  | None, None => True
  | _, _ => False
  end.

End Monitor.

(** ** Indicators and position bookkeeping ([trading.js]) *)

Module Trading.

(** [TECHNICAL_INDICATORS] *)
Definition RSI_PERIOD : positive := 14.
Definition MACD_FAST : positive := 12.
Definition MACD_SLOW : positive := 26.
Definition MACD_SIGNAL : positive := 9.
Definition STOCH_PERIOD : positive := 14.
Definition STOCH_SMOOTH : nat := 3.

Definition sum (l : list Q) : Q := fold_left Qplus l 0.

(** [l.slice(from, to)] for [0 <= from]. *)
Definition slice {A} (l : list A) (from to : nat) : list A :=
  take (to - from) (drop from l).

(** [l[l.length - 2]] *)
Definition beforeLast {A} (l : list A) : option A :=
  if Nat.ltb (length l) 2 then None else l !! (length l - 2)%nat.

Definition ofPos (p : positive) : Q := inject_Z (Zpos p).

(** [a > b] when either side may be [undefined]. *)
Definition gt (a b : option Q) : bool :=
  match a, b with
  | Some x, Some y => JS.ltb y x
  | _, _ => false
  end.

Record Rsi := {
  current : option Q;
  previous : option Q;
  rsiTrend : string;
  overbought : option bool;
  oversold : option bool
}.

Definition neutralRsi : Rsi :=
  {| current := Some 50; previous := Some 50; rsiTrend := "neutral";
     overbought := None; oversold := None |}.

(** [closes.slice(1).map((close, i) => close - closes[i])] *)
Fixpoint changesOf (closes : list Q) : list Q :=
  match closes with
  | a :: (b :: _) as rest => (b - a) :: changesOf rest
  | _ => []
  end.

(** The loop of Wilder's smoothing over the gains and losses that follow
    the first [period] ones. *)
Fixpoint wilder (period : Q) (avgGain avgLoss : Q) (rest : list (Q * Q)) : list Q :=
  match rest with
  | [] => []
  | (gain, loss) :: rest' =>
      let avgGain := (avgGain * (period - 1) + gain) / period in
      let avgLoss := (avgLoss * (period - 1) + loss) / period in
      (if JS.eqb avgLoss 0 then 100
       else let rs := avgGain / avgLoss in 100 - 100 / (1 + rs))
      :: wilder period avgGain avgLoss rest'
  end.

(** [calculateRSI]; the [divergence] field of the result is left out. *)
Definition calculateRSI (closes : list Q) (period : positive) : Rsi :=
  let n := Pos.to_nat period in
  if Nat.ltb (length closes) (n + 1) then neutralRsi
  else
    let changes := changesOf closes in
    let gains := map (fun change => if JS.ltb 0 change then change else 0) changes in
    let losses := map (fun change => if JS.ltb change 0 then Qabs change else 0) changes in
    let avgGain := sum (take n gains) / ofPos period in
    let avgLoss := sum (take n losses) / ofPos period in
    let rsiValues :=
      wilder (ofPos period) avgGain avgLoss (zip (drop n gains) (drop n losses)) in
    let current := last rsiValues in
    let previous := if JS.truthy (beforeLast rsiValues) then beforeLast rsiValues else current in
    {| current := current;
       previous := previous;
       rsiTrend := if gt current previous then "rising"
                   else if gt previous current then "falling" else "neutral";
       overbought := Some (gt current (Some 70));
       oversold := Some (gt (Some 30) current) |}.

(** [calculateEMA]; on no data the result is [undefined]. *)
Definition calculateEMA (data : list Q) (period : positive) : option Q :=
  let n := Pos.to_nat period in
  if Nat.ltb (length data) n then last data
  else
    let multiplier := 2 / (ofPos period + 1) in
    Some (fold_left (fun ema x => (x - ema) * multiplier + ema)
                    (drop n data) (sum (take n data) / ofPos period)).

(** The value of [calculateEMA] on data that is not empty.  Past its
    guard [calculateMACD] has at least [slowPeriod] closes, so the
    prefixes it averages and the MACD line are not empty. *)
Definition emaOf (data : list Q) (period : positive) : Q :=
  default 0 (calculateEMA data period).

Record MacdResult := {
  macd : Q;
  signal : Q;
  histogram : Q;
  previousHistogram : option Q;
  macdTrend : string;
  bullishCrossover : option bool;
  bearishCrossover : option bool
}.

Definition neutralMacd : MacdResult :=
  {| macd := 0; signal := 0; histogram := 0; previousHistogram := None;
     macdTrend := "neutral"; bullishCrossover := None; bearishCrossover := None |}.

Definition calculateMACD (closes : list Q) (fastPeriod slowPeriod signalPeriod : positive)
    : MacdResult :=
  let slow := Pos.to_nat slowPeriod in
  if Nat.ltb (length closes) slow then neutralMacd
  else
    let macdLine :=
      map (fun i => emaOf (take (i + 1) closes) fastPeriod
                    - emaOf (take (i + 1) closes) slowPeriod)
          (seq (slow - 1) (length closes - (slow - 1))) in
    let signalLine := emaOf macdLine signalPeriod in
    let macd := default 0 (last macdLine) in
    let signal := signalLine in
    let histogram := macd - signal in
    let previousHistogram :=
      if Nat.ltb 1 (length macdLine)
      then default 0 (beforeLast macdLine)
           - emaOf (take (length macdLine - 1) macdLine) signalPeriod
      else 0 in
    {| macd := macd; signal := signal; histogram := histogram;
       previousHistogram := Some previousHistogram;
       macdTrend := if JS.ltb previousHistogram histogram then "rising" else "falling";
       bullishCrossover := Some (JS.ltb 0 histogram && JS.leb previousHistogram 0);
       bearishCrossover := Some (JS.ltb histogram 0 && JS.leb 0 previousHistogram) |}.

Record StochasticResult := {
  k : JS.number;
  d : JS.number;
  previousK : option JS.number;
  stochTrend : string;
  stochOverbought : option bool;
  stochOversold : option bool;
  stochBullishCrossover : option bool;
  stochBearishCrossover : option bool
}.

Definition neutralStochastic : StochasticResult :=
  {| k := JS.Fin 50; d := JS.Fin 50; previousK := None; stochTrend := "neutral";
     stochOverbought := None; stochOversold := None;
     stochBullishCrossover := None; stochBearishCrossover := None |}.

Definition calculateStochastic (highs lows closes : list Q) (period : positive)
    : StochasticResult :=
  let n := Pos.to_nat period in
  if Nat.ltb (length closes) n then neutralStochastic
  else
    let kValues :=
      map (fun i =>
             let periodHighs := slice highs (i + 1 - n) (i + 1) in
             let periodLows := slice lows (i + 1 - n) (i + 1) in
             let currentClose := default 0 (closes !! i) in
             let highestHigh := JS.maxOf periodHighs in
             let lowestLow := JS.minOf periodLows in
             let k := JS.mul (JS.quot (JS.sub (JS.Fin currentClose) lowestLow)
                                      (JS.sub highestHigh lowestLow)) (JS.Fin 100) in
             if JS.isNaN k then JS.Fin 50 else k)
          (seq (n - 1) (length closes - (n - 1))) in
    let dValues :=
      map (fun i =>
             JS.quot (fold_left JS.add (slice kValues (i + 1 - STOCH_SMOOTH) (i + 1)) (JS.Fin 0))
                     (JS.Fin (inject_Z (Z.of_nat STOCH_SMOOTH))))
          (seq (STOCH_SMOOTH - 1) (length kValues - (STOCH_SMOOTH - 1))) in
    let k := default JS.NaN (last kValues) in
    let d := if JS.truthyNumber (last dValues) then default k (last dValues) else k in
    let previousK :=
      if JS.truthyNumber (beforeLast kValues) then default k (beforeLast kValues) else k in
    {| k := k; d := d; previousK := Some previousK;
       stochTrend := if JS.lt previousK k then "rising" else "falling";
       stochOverbought := Some (JS.lt (JS.Fin 80) k);
       stochOversold := Some (JS.lt k (JS.Fin 20));
       stochBullishCrossover := Some (JS.lt d k && JS.le previousK d);
       stochBearishCrossover := Some (JS.lt k d && JS.le d previousK) |}.

Record Candle := {
  timestamp : Z;
  open : Q;
  high : Q;
  low : Q;
  close : Q;
  candleVolume : Q
}.

(** The periods a caller may override; a period that is not given is the
    default of [TECHNICAL_INDICATORS]. *)
Record Options := {
  rsiPeriod : option positive;
  macdFast : option positive;
  macdSlow : option positive;
  macdSignal : option positive;
  stochPeriod : option positive
}.

Definition noOptions : Options := Build_Options None None None None None.

(** The [momentum] group of the result of [calculateIndicators]. *)
Record Momentum := {
  rsi : Rsi;
  macdResult : MacdResult;
  stochastic : StochasticResult
}.

Inductive Error :=
| ValidationError (message : string)
| TradingError (message : string).

(** [calculateIndicators], as far as the guard on the amount of data and
    the momentum indicators go; the other groups of its result (moving
    averages, volatility, volume, levels, trend, patterns) are not part of
    this development.  The [catch] block logs the error and throws it
    again. *)
Definition calculateIndicators (data : list Candle) (options : Options)
    : Outcome Error Momentum :=
  if Nat.ltb (length data) 20
  then Thrown (ValidationError "Insufficient data for technical analysis")
  else
    let closes := map close data in
    let highs := map high data in
    let lows := map low data in
    Return
      {| rsi := calculateRSI closes (default RSI_PERIOD (rsiPeriod options));
         macdResult := calculateMACD closes (default MACD_FAST (macdFast options))
                         (default MACD_SLOW (macdSlow options))
                         (default MACD_SIGNAL (macdSignal options));
         stochastic := calculateStochastic highs lows closes
                         (default STOCH_PERIOD (stochPeriod options)) |}.

(** *** Positions *)

Record TrailingStop := {
  percentage : Q;
  highestPrice : Q;
  triggerPrice : Q
}.

(** A position of [botState.positions]: [updatePositions] opens one for a
    filled BUY trade only, so every position is long. *)
Record Position := {
  size : Q;
  entryPrice : Q;
  currentPrice : Q;
  pnl : Q;
  pnlPercentage : JS.number;
  stopLoss : option Q;
  takeProfit : option Q;
  trailingStop : option TrailingStop
}.

Record Trade := { tradeSize : Q; price : Q }.

Record Metadata := {
  m_stopLoss : option Q;
  m_takeProfit : option Q;
  m_trailingStop : option Q
}.

Record CONFIG := { stopLossPct : Q; takeProfitPct : Q }.

(** The position pushed by [updatePositions] for a BUY trade. *)
Definition openPosition (trade : Trade) (marketPrice : Q) : Position :=
  {| size := tradeSize trade; entryPrice := price trade; currentPrice := marketPrice;
     pnl := 0; pnlPercentage := JS.Fin 0;
     stopLoss := None; takeProfit := None; trailingStop := None |}.

(** [a || b] on numbers. *)
Definition orElse (a : option Q) (b : Q) : Q :=
  match a with
  | Some x => if JS.truthy a then x else b
  | None => b
  end.

(** [setupTradeManagement] on the position of a BUY trade. *)
Definition setupTradeManagement
    (config : CONFIG) (trade : Trade) (metadata : Metadata) (position : Position)
    : Position :=
  let stopLoss :=
    if JS.truthy (Some (orElse (m_stopLoss metadata) (stopLossPct config)))
    then Some (price trade * (1 - orElse (m_stopLoss metadata) (stopLossPct config)))
    else stopLoss position in
  let takeProfit :=
    if JS.truthy (Some (orElse (m_takeProfit metadata) (takeProfitPct config)))
    then Some (price trade * (1 + orElse (m_takeProfit metadata) (takeProfitPct config)))
    else takeProfit position in
  let trailingStop :=
    match m_trailingStop metadata with
    | Some pct =>
        if JS.truthy (m_trailingStop metadata)
        then Some {| percentage := pct; highestPrice := price trade;
                     triggerPrice := price trade * (1 - pct) |}
        else trailingStop position
    | None => trailingStop position
    end in
  {| size := size position; entryPrice := entryPrice position;
     currentPrice := currentPrice position; pnl := pnl position;
     pnlPercentage := pnlPercentage position;
     stopLoss := stopLoss; takeProfit := takeProfit; trailingStop := trailingStop |}.

(** The reasons of the SELL orders asked for by [updatePositionsPnL]. *)
Inductive SellReason := stop_loss | take_profit | trailing_stop.

(** [executeSmartTrade] throws on every call.  It asks
    [riskManager.validateTrade] and reads the field [approved] of the
    answer; no answer of [validateTrade] has that field (the one it sets
    is [isValid]), so [!validationResult.approved] holds and the trade is
    rejected with a [TradingError], which the [catch] block reports and
    throws again. *)
Definition executeSmartTrade (signal : string) (confidence : Q) : Outcome Error Trade :=
  Thrown (TradingError "Trade rejected: undefined").

(** The ratchet of the trailing stop on one tick. *)
Definition ratchet (t : TrailingStop) (currentPrice : Q) : TrailingStop :=
  if JS.ltb (highestPrice t) currentPrice
  then {| percentage := percentage t; highestPrice := currentPrice;
          triggerPrice := currentPrice * (1 - percentage t) |}
  else t.

(** [position.stopLoss && currentPrice <= position.stopLoss] *)
Definition stopLossHit (position : Position) (currentPrice : Q) : bool :=
  match stopLoss position with
  | Some s => JS.truthy (stopLoss position) && JS.leb currentPrice s
  | None => false
  end.

(** [position.takeProfit && currentPrice >= position.takeProfit] *)
Definition takeProfitHit (position : Position) (currentPrice : Q) : bool :=
  match takeProfit position with
  | Some t => JS.truthy (takeProfit position) && JS.leb t currentPrice
  | None => false
  end.

(** What the body of the loop of [updatePositionsPnL] does to one
    position: the position as it leaves it, the SELL orders it has asked
    of [executeSmartTrade], and the error that ended it, if one did. *)
Record Pass := {
  passPosition : Position;
  passOrders : list SellReason;
  passError : option Error
}.

(** [if (c) await executeSmartTrade('SELL', 100, {reason, ...});] followed
    by the rest of the body.  An error thrown by [executeSmartTrade] is
    not caught in [updatePositionsPnL]: it ends the body, and the loop. *)
Definition sellIf (c : bool) (reason : SellReason) (position : Position)
    (rest : Position -> Pass) : Pass :=
  if c then
    match executeSmartTrade "SELL" 100 with
    | Return _ =>
        let pass := rest position in
        {| passPosition := passPosition pass;
           passOrders := reason :: passOrders pass;
           passError := passError pass |}
    | Thrown error =>
        {| passPosition := position; passOrders := [reason]; passError := Some error |}
    end
  else rest position.

Definition setTrailingStop (position : Position) (t : TrailingStop) : Position :=
  {| size := size position; entryPrice := entryPrice position;
     currentPrice := currentPrice position; pnl := pnl position;
     pnlPercentage := pnlPercentage position;
     stopLoss := stopLoss position; takeProfit := takeProfit position;
     trailingStop := Some t |}.

(** The body of the loop of [updatePositionsPnL] for one position. *)
Definition passOver (position : Position) (currentPrice : Q) : Pass :=
  let priceDiff := currentPrice - entryPrice position in
  let pnl := priceDiff * size position in
  let pnlPercentage :=
    JS.mul (JS.div pnl (entryPrice position * size position)) (JS.Fin 100) in
  let position :=
    {| size := size position; entryPrice := entryPrice position;
       currentPrice := currentPrice; pnl := pnl; pnlPercentage := pnlPercentage;
       stopLoss := stopLoss position; takeProfit := takeProfit position;
       trailingStop := trailingStop position |} in
  let done position := {| passPosition := position; passOrders := []; passError := None |} in
  sellIf (stopLossHit position currentPrice) stop_loss position (fun position =>
  sellIf (takeProfitHit position currentPrice) take_profit position (fun position =>
  match trailingStop position with
  | Some t =>
      let position := setTrailingStop position (ratchet t currentPrice) in
      sellIf (JS.leb currentPrice (triggerPrice (ratchet t currentPrice)))
             trailing_stop position done
  | None => done position
  end)).

(** The position after the body of the loop, and the SELL orders it has
    asked for. *)
Definition updatePositionPnL (position : Position) (currentPrice : Q)
    : Position * list SellReason :=
  (passPosition (passOver position currentPrice),
   passOrders (passOver position currentPrice)).

(** [updatePositionsPnL] on [botState.positions] at [botState.currentPrice]:
    the positions as the call leaves them, and the error it throws, if
    any.  The positions after the one whose body throws are not looked
    at. *)
Fixpoint updatePositionsPnL (positions : list Position) (currentPrice : Q)
    : list Position * option Error :=
  match positions with
  | [] => ([], None)
  | position :: others =>
      let pass := passOver position currentPrice in
      match passError pass with
      | Some error => (passPosition pass :: others, Some error)
      | None =>
          (passPosition pass :: fst (updatePositionsPnL others currentPrice),
           snd (updatePositionsPnL others currentPrice))
      end
  end.

(** The positions after [updatePositionsPnL] has been called at each tick,
    whether the call returned or threw. *)
Definition updateTicks (positions : list Position) (ticks : list Q) : list Position :=
  fold_left (fun positions price => fst (updatePositionsPnL positions price))
            ticks positions.

(** The trigger price may be absent; when set it must not have moved down. *)
Definition triggerNotLowered (before after : option TrailingStop) : Prop :=
  match before, after with
  | Some a, Some b => triggerPrice a <= triggerPrice b
  | None, None => True
  | _, _ => False
  end.

End Trading.

(** ** The checks of [validateTrade] as the specification lists them *)

Module ValidateTradeSpec.
Import Risk.

(** A check looks at the manager (after the roll-over), the clock and the
    trade; it answers [None] when it passes and the error it names when it
    is violated. *)
Definition Check : Type := RiskManager -> Clock -> TradeParams -> option Error.

Definition tradingError (m : Message) : option Error :=
  Some {| errorType := TradingError; message := m |}.

Definition requiredFields : Check := fun _ _ t =>
  if JS.truthyStr (tp_symbol t) && JS.truthyStr (tp_side t)
     && JS.truthy (tp_amount t) && JS.truthy (tp_price t)
  then None
  else Some {| errorType := ValidationError; message := MissingRequiredParameters |}.

Definition symbolCooldown : Check := fun rm clk t =>
  let symbol := default "" (tp_symbol t) in
  if isSymbolInCooldown rm clk symbol then tradingError (SymbolInCooldown symbol) else None.

Definition openPositionsLimit : Check := fun rm _ _ =>
  if JS.leb (maxOpenPositions (config rm)) (inject_Z (Z.of_nat (size (openPositions rm))))
  then tradingError (MaximumOpenPositionsReached (maxOpenPositions (config rm)))
  else None.

Definition dailyLossLimit : Check := fun rm _ _ =>
  if JS.leb (totalPnL (dailyStats rm)) (- maxDailyLoss (config rm) * portfolioValue rm)
  then tradingError DailyLossLimitExceeded
  else None.

Definition drawdownLimit : Check := fun rm _ _ =>
  if JS.leb (maxDrawdown (config rm)) (calculateDrawdown rm)
  then tradingError (MaximumDrawdownExceeded (calculateDrawdown rm * 100))
  else None.

Definition positionValue (t : TradeParams) : Q :=
  default 0 (tp_amount t) * default 0 (tp_price t).

Definition positionSizeLimit : Check := fun rm _ t =>
  if JS.ltb (portfolioValue rm * maxPositionSize (config rm)) (positionValue t)
  then tradingError (PositionSizeExceedsMaximum (maxPositionSize (config rm) * 100))
  else None.

Definition leverageLimit : Check := fun rm _ t =>
  if JS.ltb (maxLeverage (config rm)) (default 1 (tp_leverage t))
  then tradingError (LeverageExceedsMaximum (maxLeverage (config rm)))
  else None.

(** The risk/reward ratio of a trade, from its entry price, stop-loss,
    take-profit and side. *)
Definition tradeRiskReward (t : TradeParams) : Q :=
  calculateRiskRewardRatio (default 0 (tp_price t)) (tp_stopLoss t) (tp_takeProfit t)
                           (default "" (tp_side t)).

Definition riskRewardMinimum : Check := fun rm _ t =>
  if JS.ltb (tradeRiskReward t) (minRiskRewardRatio (config rm))
  then tradingError (RiskRewardRatioTooLow (tradeRiskReward t))
  else None.

(** Steps 2 to 9 of the specification, in its order. *)
Definition checksInOrder : list Check :=
  [requiredFields; symbolCooldown; openPositionsLimit; dailyLossLimit; drawdownLimit;
   positionSizeLimit; leverageLimit; riskRewardMinimum].

(** All of them but the check of the position size. *)
Definition otherChecks : list Check :=
  [requiredFields; symbolCooldown; openPositionsLimit; dailyLossLimit; drawdownLimit;
   leverageLimit; riskRewardMinimum].

(** The first check of the list that is violated, if any. *)
Definition firstViolation (rm : RiskManager) (clk : Clock) (t : TradeParams) : option Error :=
  head (omap (fun check : Check => check rm clk t) checksInOrder).

(** Fail fast: step 1 rolls the day over, then the first violated check
    decides the rejection; a trade that violates none is accepted. *)
Definition failFast (rm : RiskManager) (clk : Clock) (t : TradeParams)
    : RiskManager * ValidationResult :=
  let rm' := resetDailyStatsIfNewDay rm clk in
  (rm',
   match firstViolation rm' clk t with
   | Some e => Invalid (message e) (errorType e)
   | None =>
       Valid (calculateOptimalPositionSize rm' (default 0 (tp_price t)) (tp_stopLoss t)
                                           (default 0 (tp_amount t)))
             (tradeRiskReward t) (calculateDrawdown rm')
   end).

(** The same trade with another amount. *)
Definition withAmount (t : TradeParams) (amount : Q) : TradeParams :=
  {| tp_symbol := tp_symbol t; tp_side := tp_side t; tp_amount := Some amount;
     tp_price := tp_price t; tp_leverage := tp_leverage t;
     tp_stopLoss := tp_stopLoss t; tp_takeProfit := tp_takeProfit t |}.

(** The risk of a trade: the distance from the entry to the stop-loss on
    the losing side, nothing when there is no stop-loss. *)
Definition tradeRisk (t : TradeParams) : Q :=
  match tp_stopLoss t with
  | Some sl =>
      let entry := default 0 (tp_price t) in
      if String.eqb (JS.toLowerCase (default "" (tp_side t))) "buy"
      then entry - sl else sl - entry
  | None => 0
  end.

End ValidateTradeSpec.

(** ** The consensus rule as the specification words it *)

Module ConsensusSpec.
Import Signals.

(** The signals that agree on [dir]: that direction, and a strength
    strictly above the strong threshold. *)
Definition agreeing (dir : Direction) (l : list Signal) : list Signal :=
  List.filter (fun s => Direction_eqb (signalOf s) dir
                        && JS.ltb STRONG_SIGNAL_THRESHOLD (strength s)) l.

Definition totalStrength (l : list Signal) : Q :=
  foldr (fun s total => strength s + total) 0 l.

Definition averageStrength (l : list Signal) : Q :=
  totalStrength l / inject_Z (Z.of_nat (length l)).

(** Enough agreeing signals, and their average strength above the strong
    threshold. *)
Definition eligible (dir : Direction) (l : list Signal) : Prop :=
  (CONSENSUS_THRESHOLD <= length (agreeing dir l))%nat
  /\ STRONG_SIGNAL_THRESHOLD < averageStrength (agreeing dir l).

End ConsensusSpec.

(** ** The votes of the scoring factors *)

Module ScorerSpec.
Import Signals.

(** The direction a factor speaks for, if any. *)
Definition mlVote (p : Prediction) : option Direction :=
  if JS.ltb 60 (confidence p) then
    match direction p with
    | BULLISH => Some BUY
    | BEARISH => Some SELL
    | NEUTRAL => None
    end
  else None.

Definition rsiVote (i : Indicators) : option Direction :=
  if JS.ltb (rsi i) RSI_OVERSOLD then Some BUY
  else if JS.ltb RSI_OVERBOUGHT (rsi i) then Some SELL
  else None.

Definition macdVote (i : Indicators) : option Direction :=
  let m := macdOf i in
  if JS.ltb 0 (histogram m) && JS.ltb (signal m) (macd m) then Some BUY
  else if JS.ltb (histogram m) 0 && JS.ltb (macd m) (signal m) then Some SELL
  else None.

Definition maVote (i : Indicators) (price : Q) : option Direction :=
  if JS.ltb (sma20 i) price && JS.ltb (sma50 i) (sma20 i) then Some BUY
  else if JS.ltb price (sma20 i) && JS.ltb (sma20 i) (sma50 i) then Some SELL
  else None.

Definition bbVote (i : Indicators) (price : Q) : option Direction :=
  if JS.ltb price (lower (bollingerBands i)) then Some BUY
  else if JS.ltb (upper (bollingerBands i)) price then Some SELL
  else None.

Definition stochVote (i : Indicators) : option Direction :=
  let s := stochastic i in
  if JS.ltb (k s) STOCH_OVERSOLD && JS.ltb (d s) STOCH_OVERSOLD then Some BUY
  else if JS.ltb STOCH_OVERBOUGHT (k s) && JS.ltb STOCH_OVERBOUGHT (d s) then Some SELL
  else None.

Definition srVote (i : Indicators) (price : Q) : option Direction :=
  let l := supportResistance i in
  if JS.leb price (support l * (102 # 100)) then Some BUY
  else if JS.leb (resistance l * (98 # 100)) price then Some SELL
  else None.

(** Volume speaks for no direction: there is a surge or there is none. *)
Definition volumeSurge (i : Indicators) : bool := JS.ltb VOLUME_SURGE (volumeRatio i).

(** The votes in the order of evaluation. *)
Definition votes (p : Prediction) (i : Indicators) (price : Q) : list (option Direction) :=
  [mlVote p; rsiVote i; macdVote i; maVote i price; bbVote i price; stochVote i;
   srVote i price].

(** The direction when the first factor to vote fixes it. *)
Definition firstVote (p : Prediction) (i : Indicators) (price : Q) : Direction :=
  default HOLD (head (omap (fun v : option Direction => v) (votes p i price))).

(** The direction when only the prediction and then the RSI can fix it. *)
Definition establishedDirection (p : Prediction) (i : Indicators) : Direction :=
  match mlVote p, rsiVote i with
  | Some dir, _ => dir
  | None, Some dir => dir
  | None, None => HOLD
  end.

Definition agrees (vote : option Direction) (dir : Direction) : bool :=
  match vote with
  | Some v => Direction_eqb v dir
  | None => false
  end.

(** The full weight for a vote that agrees with [dir], nothing otherwise. *)
Definition contribution (weight : Q) (vote : option Direction) (dir : Direction) : Q :=
  if agrees vote dir then weight * 100 else 0.

End ScorerSpec.

(** * Properties *)

Module JSFacts.
Import JS.

Lemma leb_le x y : leb x y = true <-> x <= y.
Proof. apply Qle_bool_iff. Qed.

Lemma ltb_lt x y : ltb x y = true <-> x < y.
Proof.
  unfold ltb. rewrite negb_true_iff, <- not_true_iff_false, Qle_bool_iff.
  split; [apply Qnot_le_lt | apply Qlt_not_le].
Qed.

Lemma leb_nle x y : leb x y = false <-> y < x.
Proof.
  unfold leb. rewrite <- not_true_iff_false, Qle_bool_iff.
  split; [apply Qnot_le_lt | apply Qlt_not_le].
Qed.

Lemma ltb_nlt x y : ltb x y = false <-> y <= x.
Proof. unfold ltb. rewrite negb_false_iff. apply Qle_bool_iff. Qed.

Lemma eqb_eq x y : eqb x y = true <-> x == y.
Proof. apply Qeq_bool_iff. Qed.

Lemma min_le_l x y : min x y <= x.
Proof.
  unfold min. destruct (leb x y) eqn:E.
  - apply Qle_refl.
  - apply leb_nle in E. apply Qlt_le_weak, E.
Qed.

Lemma min_le_r x y : min x y <= y.
Proof.
  unfold min. destruct (leb x y) eqn:E.
  - apply leb_le in E. exact E.
  - apply Qle_refl.
Qed.

Lemma min_glb x y z : z <= x -> z <= y -> z <= min x y.
Proof. unfold min. destruct (leb x y); auto. Qed.

End JSFacts.

(** Turns the boolean comparisons among the hypotheses into inequalities. *)
Ltac js_props :=
  repeat match goal with
  | H : JS.leb _ _ = true |- _ => apply JSFacts.leb_le in H
  | H : JS.leb _ _ = false |- _ => apply JSFacts.leb_nle in H
  | H : JS.ltb _ _ = true |- _ => apply JSFacts.ltb_lt in H
  | H : JS.ltb _ _ = false |- _ => apply JSFacts.ltb_nlt in H
  | H : JS.eqb _ _ = true |- _ => apply JSFacts.eqb_eq in H
  end.

Module RiskFacts.
Import Risk ValidateTradeSpec.

Lemma resetDailyStatsIfNewDay_same_day rm clk :
  lastResetDate (dailyStats rm) = today clk -> resetDailyStatsIfNewDay rm clk = rm.
Proof.
  intros H. unfold resetDailyStatsIfNewDay. rewrite H, String.eqb_refl. reflexivity.
Qed.

Lemma resetDailyStatsIfNewDay_config rm clk :
  config (resetDailyStatsIfNewDay rm clk) = config rm.
Proof. unfold resetDailyStatsIfNewDay. destruct (negb _); reflexivity. Qed.

Lemma resetDailyStatsIfNewDay_portfolioValue rm clk :
  portfolioValue (resetDailyStatsIfNewDay rm clk) = portfolioValue rm.
Proof. unfold resetDailyStatsIfNewDay. destruct (negb _); reflexivity. Qed.

(** The [try] block of [validateTrade] and the first violated check agree. *)
Lemma validateTrade_try_firstViolation rm clk t :
  validateTrade_try rm clk t =
  match firstViolation rm clk t with
  | Some e => Thrown e
  | None =>
      Return (Valid (calculateOptimalPositionSize rm (default 0 (tp_price t)) (tp_stopLoss t)
                                                  (default 0 (tp_amount t)))
                    (tradeRiskReward t) (calculateDrawdown rm))
  end.
Proof.
  unfold validateTrade_try, firstViolation, checksInOrder.
  destruct t as [symbol side amount price leverage stopLoss takeProfit].
  cbn [tp_symbol tp_side tp_amount tp_price tp_leverage tp_stopLoss tp_takeProfit].
  cbn [omap list_omap].
  unfold requiredFields at 1.
  cbn [tp_symbol tp_side tp_amount tp_price].
  destruct symbol as [symbol|], side as [side|], amount as [amount|], price as [price|];
    cbn [JS.truthyStr JS.truthy andb]; try reflexivity;
    try (destruct (negb _); try reflexivity; destruct (negb _); reflexivity).
  all: try (destruct (negb (String.eqb symbol "")); cbn [andb]; try reflexivity;
            destruct (negb (String.eqb side "")); cbn [andb]; try reflexivity;
            destruct (negb (JS.eqb amount 0)); reflexivity).
  destruct (negb (String.eqb symbol "")); cbn [negb orb andb throwIf mbind Outcome_bind head];
    [|reflexivity].
  destruct (negb (String.eqb side "")); cbn [negb orb andb throwIf mbind Outcome_bind head];
    [|reflexivity].
  destruct (negb (JS.eqb amount 0)); cbn [negb orb andb throwIf mbind Outcome_bind head];
    [|reflexivity].
  destruct (negb (JS.eqb price 0)); cbn [negb orb andb throwIf mbind Outcome_bind head];
    [|reflexivity].
  unfold symbolCooldown, openPositionsLimit, dailyLossLimit, drawdownLimit,
    positionSizeLimit, leverageLimit, riskRewardMinimum, tradingError, positionValue,
    tradeRiskReward.
  cbn [tp_symbol tp_side tp_amount tp_price tp_leverage tp_stopLoss tp_takeProfit].
  cbv [default from_option Datatypes.id].
  repeat (match goal with
          | |- context [throwIf ?c _] => destruct c
          end; cbn [throwIf mbind Outcome_bind head]; try reflexivity).
Qed.

Lemma validateTrade_eq_failFast rm clk t : validateTrade rm clk t = failFast rm clk t.
Proof.
  unfold validateTrade, failFast. rewrite validateTrade_try_firstViolation.
  destruct (firstViolation _ _ _); reflexivity.
Qed.

(** A violated check of the list makes [firstViolation] find a violation. *)
Lemma firstViolation_of_check (check : Check) rm clk t e :
  check ∈ checksInOrder -> check rm clk t = Some e ->
  exists e', firstViolation rm clk t = Some e'.
Proof.
  unfold firstViolation. generalize checksInOrder as l.
  induction l as [|c l IH]; intros Hin Hc.
  - inversion Hin.
  - cbn [omap list_omap]. destruct (c rm clk t) as [e0|] eqn:E.
    + exists e0. reflexivity.
    + apply IH; [|exact Hc]. inversion Hin; subst; [congruence | assumption].
Qed.

(** No violation means that every check passes. *)
Lemma firstViolation_None rm clk t :
  firstViolation rm clk t = None <->
  Forall (fun check : Check => check rm clk t = None) checksInOrder.
Proof.
  unfold firstViolation. generalize checksInOrder as l.
  induction l as [|c l IH]; cbn [omap list_omap].
  - split; [constructor | reflexivity].
  - destruct (c rm clk t) as [e0|] eqn:E.
    + split; [discriminate | inversion 1; congruence].
    + rewrite IH. split; [constructor; assumption | inversion 1; assumption].
Qed.

Lemma validateTrade_rejects_of_check (check : Check) rm clk t e :
  check ∈ checksInOrder ->
  check (resetDailyStatsIfNewDay rm clk) clk t = Some e ->
  isValid (snd (validateTrade rm clk t)) = false.
Proof.
  intros Hin Hc. rewrite validateTrade_eq_failFast. unfold failFast. cbn [snd].
  destruct (firstViolation_of_check _ _ _ _ _ Hin Hc) as [e' ->]. reflexivity.
Qed.

(** Sample data: a manager built by the constructor with the default
    configuration and a portfolio of 10000, and a long trade with a
    risk/reward ratio of 2. *)
Definition sampleClock : Clock := {| now := 1700000000000; today := "Tue Nov 14 2023" |}.

Definition sampleManager : RiskManager :=
  updatePortfolioValue (constructor noConfig sampleClock) 10000.

Definition sampleTrade : TradeParams :=
  {| tp_symbol := Some "BTC/USDT"; tp_side := Some "buy"; tp_amount := Some (3 # 100);
     tp_price := Some 50000; tp_leverage := None;
     tp_stopLoss := Some 49000; tp_takeProfit := Some 52000 |}.

(** The same manager after a position in another symbol was opened and
    closed with a loss of 300. *)
Definition managerAfterLoss : RiskManager :=
  closePosition
    (registerPosition sampleManager sampleClock
       {| id := "p1"; symbol := "ETH/USDT"; side := "buy"; amount := 1;
          entryPrice := 2000; stopLoss := Some 1900; takeProfit := Some 2200;
          openTime := 0; unrealizedPnL := 0 |})
    sampleClock "p1" 1700 (- 300).

(** C1. On the same calendar day (no roll-over of the daily statistics),
    a manager whose daily P&L is at most [-maxDailyLoss * portfolioValue]
    rejects every trade, whatever its parameters. *)
Theorem validateTrade_daily_loss_limit_is_absolute rm clk t :
  lastResetDate (dailyStats rm) = today clk ->
  totalPnL (dailyStats rm) <= - maxDailyLoss (config rm) * portfolioValue rm ->
  isValid (snd (validateTrade rm clk t)) = false.
Proof.
  intros Hday Hloss.
  apply (validateTrade_rejects_of_check dailyLossLimit rm clk t
           {| errorType := TradingError; message := DailyLossLimitExceeded |}).
  - apply list_elem_of_In. unfold checksInOrder. cbn [In]. tauto.
  - rewrite (resetDailyStatsIfNewDay_same_day _ _ Hday).
    unfold dailyLossLimit, tradingError.
    apply JSFacts.leb_le in Hloss. rewrite Hloss. reflexivity.
Qed.

Lemma validateTrade_daily_loss_limit_witness :
  isValid (snd (validateTrade managerAfterLoss sampleClock sampleTrade)) = false.
Proof.
  apply validateTrade_daily_loss_limit_is_absolute.
  - reflexivity.
  - apply JSFacts.leb_le. vm_compute. reflexivity.
Defined.

(** The rejection of that trade names the daily loss limit. *)
Example validateTrade_after_loss :
  snd (validateTrade managerAfterLoss sampleClock sampleTrade)
  = Invalid DailyLossLimitExceeded TradingError.
Proof. vm_compute. reflexivity. Qed.

(** C2. [validateTrade] rolls the day over and then runs the checks in the
    fixed order (required fields, symbol cooldown, open positions, daily
    loss, drawdown, position size, leverage, risk/reward): its answer is
    the rejection named by the first violated check, returned as a value
    and not thrown, and an acceptance when no check is violated. *)
Theorem validateTrade_fails_fast_in_order rm clk t :
  validateTrade rm clk t = failFast rm clk t.
Proof. apply validateTrade_eq_failFast. Qed.

(** A trade without a symbol, too large and without a stop-loss is
    rejected for the missing field alone. *)
Example validateTrade_names_first_violation :
  snd (validateTrade sampleManager sampleClock
         {| tp_symbol := None; tp_side := Some "buy"; tp_amount := Some 1;
            tp_price := Some 50000; tp_leverage := Some 10;
            tp_stopLoss := None; tp_takeProfit := None |})
  = Invalid MissingRequiredParameters ValidationError.
Proof. vm_compute. reflexivity. Qed.

(** With the symbol given, the same trade is rejected for its size, the
    next violated check. *)
Example validateTrade_names_next_violation :
  snd (validateTrade sampleManager sampleClock
         {| tp_symbol := Some "BTC/USDT"; tp_side := Some "buy"; tp_amount := Some 1;
            tp_price := Some 50000; tp_leverage := Some 10;
            tp_stopLoss := None; tp_takeProfit := None |})
  = Invalid (PositionSizeExceedsMaximum ((1 # 10) * 100)) TradingError.
Proof. vm_compute. reflexivity. Qed.

Lemma positionSizeLimit_within rm clk t :
  positionValue t <= portfolioValue rm * maxPositionSize (config rm) ->
  positionSizeLimit rm clk t = None.
Proof.
  intros H. unfold positionSizeLimit. apply JSFacts.ltb_nlt in H. rewrite H. reflexivity.
Qed.

Lemma positionSizeLimit_beyond rm clk t :
  portfolioValue rm * maxPositionSize (config rm) < positionValue t ->
  positionSizeLimit rm clk t
  = tradingError (PositionSizeExceedsMaximum (maxPositionSize (config rm) * 100)).
Proof.
  intros H. unfold positionSizeLimit. apply JSFacts.ltb_lt in H. rewrite H. reflexivity.
Qed.

(** The required fields of a trade stay present when its amount is
    replaced by another amount that is not zero. *)
Lemma requiredFields_withAmount rm clk t a b :
  ~ b == 0 ->
  requiredFields rm clk (withAmount t a) = None ->
  requiredFields rm clk (withAmount t b) = None.
Proof.
  intros Hb. unfold requiredFields, withAmount.
  cbn [tp_symbol tp_side tp_amount tp_price JS.truthy].
  destruct (JS.truthyStr (tp_symbol t)), (JS.truthyStr (tp_side t)); cbn [andb];
    try discriminate.
  destruct (JS.eqb b 0) eqn:E; [apply JSFacts.eqb_eq in E; contradiction|].
  destruct (JS.eqb a 0); cbn [negb andb]; [discriminate|]. auto.
Qed.

(** C9. In a manager with a portfolio of 10000 and a maximal position size
    of 0.1, take a trade of position value 900 that passes every other
    check: it is accepted, and the otherwise identical trade of position
    value 1500 is rejected with the reason that the position size exceeds
    the maximum. *)
Theorem validateTrade_position_size_scenario rm clk t price a1500 a900 :
  portfolioValue rm == 10000 ->
  maxPositionSize (config rm) == 1 # 10 ->
  tp_price t = Some price ->
  a1500 * price == 1500 ->
  a900 * price == 900 ->
  Forall (fun check : Check =>
            check (resetDailyStatsIfNewDay rm clk) clk (withAmount t a900) = None)
         otherChecks ->
  snd (validateTrade rm clk (withAmount t a1500))
  = Invalid (PositionSizeExceedsMaximum (maxPositionSize (config rm) * 100)) TradingError
  /\ isValid (snd (validateTrade rm clk (withAmount t a900))) = true.
Proof.
  intros Hpv Hmps Hprice H1500 H900 Hother.
  rewrite !validateTrade_eq_failFast. unfold failFast. cbn [snd].
  set (rm' := resetDailyStatsIfNewDay rm clk) in *.
  assert (Hpv' : portfolioValue rm' * maxPositionSize (config rm') == 1000).
  { unfold rm'. rewrite resetDailyStatsIfNewDay_portfolioValue,
      resetDailyStatsIfNewDay_config, Hpv, Hmps. reflexivity. }
  assert (Hcfg : maxPositionSize (config rm') = maxPositionSize (config rm)).
  { unfold rm'. rewrite resetDailyStatsIfNewDay_config. reflexivity. }
  unfold otherChecks in Hother.
  repeat match goal with
         | H : Forall _ (_ :: _) |- _ => inversion H; clear H; subst
         end.
  match goal with H : requiredFields _ _ _ = None |- _ => rename H into Hreq end.
  assert (Hreq' : requiredFields rm' clk (withAmount t a1500) = None).
  { apply (requiredFields_withAmount rm' clk t a900); [|exact Hreq].
    intros E. rewrite E in H1500. lra. }
  split.
  - unfold firstViolation, checksInOrder. cbn [omap list_omap]. rewrite Hreq'.
    repeat match goal with
           | H : ?c rm' clk (withAmount t a900) = None
             |- context [?c rm' clk (withAmount t a1500)] =>
               change (c rm' clk (withAmount t a1500)) with (c rm' clk (withAmount t a900));
               rewrite H
           end.
    rewrite positionSizeLimit_beyond.
    + cbn [tradingError head message errorType]. rewrite Hcfg. reflexivity.
    + rewrite Hpv'. unfold positionValue, withAmount. cbn [tp_amount tp_price].
      rewrite Hprice. cbn [default from_option]. unfold Datatypes.id. rewrite H1500.
      reflexivity.
  - assert (Hnone : firstViolation rm' clk (withAmount t a900) = None).
    { apply firstViolation_None. unfold checksInOrder.
      repeat (constructor; [first [assumption | idtac]|]); [|constructor].
      apply positionSizeLimit_within. rewrite Hpv'.
      unfold positionValue, withAmount. cbn [tp_amount tp_price].
      rewrite Hprice. cbn [default from_option]. unfold Datatypes.id. rewrite H900.
      discriminate. }
    rewrite Hnone. reflexivity.
Qed.

Lemma validateTrade_position_size_witness :
  snd (validateTrade sampleManager sampleClock (withAmount sampleTrade (3 # 100)))
  = Invalid (PositionSizeExceedsMaximum (maxPositionSize (config sampleManager) * 100))
            TradingError
  /\ isValid (snd (validateTrade sampleManager sampleClock
                     (withAmount sampleTrade (18 # 1000)))) = true.
Proof.
  apply (validateTrade_position_size_scenario sampleManager sampleClock sampleTrade 50000).
  - reflexivity.
  - reflexivity.
  - reflexivity.
  - reflexivity.
  - reflexivity.
  - unfold otherChecks. repeat constructor; vm_compute; reflexivity.
Defined.

(** The ratio is 0 without a stop-loss, without a take-profit, or when the
    stop-loss is not on the losing side of the entry. *)
Lemma tradeRiskReward_zero t :
  JS.truthy (tp_stopLoss t) = false \/ JS.truthy (tp_takeProfit t) = false
  \/ tradeRisk t <= 0 ->
  tradeRiskReward t = 0.
Proof.
  unfold tradeRiskReward, tradeRisk, calculateRiskRewardRatio.
  destruct (tp_stopLoss t) as [sl|], (tp_takeProfit t) as [tp|]; try reflexivity.
  intros [H | [H | H]].
  - rewrite H. reflexivity.
  - rewrite H. rewrite orb_true_r. reflexivity.
  - destruct (_ || _); [reflexivity|].
    destruct (String.eqb _ "buy"); apply JSFacts.ltb_nlt in H; rewrite H; reflexivity.
Qed.

(** C10. When the stop-loss or the take-profit is absent, or the risk is
    not positive, the risk/reward ratio is 0; with a positive
    [minRiskRewardRatio] such a trade is rejected, so no trade passes
    validation without both levels. *)
Theorem validateTrade_needs_stop_loss_and_take_profit rm clk t :
  0 < minRiskRewardRatio (config rm) ->
  JS.truthy (tp_stopLoss t) = false \/ JS.truthy (tp_takeProfit t) = false
  \/ tradeRisk t <= 0 ->
  tradeRiskReward t = 0 /\ isValid (snd (validateTrade rm clk t)) = false.
Proof.
  intros Hmin Hno. pose proof (tradeRiskReward_zero t Hno) as Hzero.
  split; [exact Hzero|].
  apply (validateTrade_rejects_of_check riskRewardMinimum rm clk t
           {| errorType := TradingError; message := RiskRewardRatioTooLow 0 |}).
  - apply list_elem_of_In. unfold checksInOrder. cbn [In]. tauto.
  - unfold riskRewardMinimum, tradingError.
    rewrite Hzero, resetDailyStatsIfNewDay_config.
    apply JSFacts.ltb_lt in Hmin. rewrite Hmin. reflexivity.
Qed.

Definition tradeWithoutStopLoss : TradeParams :=
  {| tp_symbol := Some "BTC/USDT"; tp_side := Some "buy"; tp_amount := Some (18 # 1000);
     tp_price := Some 50000; tp_leverage := None;
     tp_stopLoss := None; tp_takeProfit := Some 52000 |}.

Lemma validateTrade_needs_stop_loss_witness :
  tradeRiskReward tradeWithoutStopLoss = 0
  /\ isValid (snd (validateTrade sampleManager sampleClock tradeWithoutStopLoss)) = false.
Proof.
  apply validateTrade_needs_stop_loss_and_take_profit.
  - reflexivity.
  - left. reflexivity.
Defined.

(** That trade passes every check before the last one. *)
Example validateTrade_without_stop_loss :
  snd (validateTrade sampleManager sampleClock tradeWithoutStopLoss)
  = Invalid (RiskRewardRatioTooLow 0) TradingError.
Proof. vm_compute. reflexivity. Qed.

End RiskFacts.

Module SignalsFacts.
Import Signals ConsensusSpec ScorerSpec.

(** Unfolds an analyser and splits on every test it makes. *)
Ltac analyser_cases :=
  repeat match goal with
         | |- context [if ?c then _ else _] => destruct c eqn:?
         | |- context [match direction ?p with _ => _ end] => destruct (direction p) eqn:?
         end.

(** *** What the analysers leave alone *)

Lemma analyzeRSI_confidence r c : c_confidence (snd (analyzeRSI r c)) = c_confidence c.
Proof. unfold analyzeRSI. analyser_cases; reflexivity. Qed.

Lemma analyzeMacd_unchanged m c :
  c_confidence (snd (analyzeMacd m c)) = c_confidence c
  /\ c_direction (snd (analyzeMacd m c)) = c_direction c.
Proof. unfold analyzeMacd. analyser_cases; split; reflexivity. Qed.

Lemma analyzeMovingAverages_unchanged i price c :
  c_confidence (snd (analyzeMovingAverages i price c)) = c_confidence c
  /\ c_direction (snd (analyzeMovingAverages i price c)) = c_direction c.
Proof. unfold analyzeMovingAverages. analyser_cases; split; reflexivity. Qed.

Lemma analyzeBollingerBands_unchanged b price c :
  c_confidence (snd (analyzeBollingerBands b price c)) = c_confidence c
  /\ c_direction (snd (analyzeBollingerBands b price c)) = c_direction c.
Proof. unfold analyzeBollingerBands. analyser_cases; split; reflexivity. Qed.

Lemma analyzeStochastic_unchanged s c :
  c_confidence (snd (analyzeStochastic s c)) = c_confidence c
  /\ c_direction (snd (analyzeStochastic s c)) = c_direction c.
Proof. unfold analyzeStochastic. analyser_cases; split; reflexivity. Qed.

Lemma analyzeVolume_unchanged v c :
  c_confidence (snd (analyzeVolume v c)) = c_confidence c
  /\ c_direction (snd (analyzeVolume v c)) = c_direction c.
Proof. unfold analyzeVolume. analyser_cases; split; reflexivity. Qed.

Lemma analyzeSupportResistance_unchanged l price c :
  c_confidence (snd (analyzeSupportResistance l price c)) = c_confidence c
  /\ c_direction (snd (analyzeSupportResistance l price c)) = c_direction c.
Proof. unfold analyzeSupportResistance. analyser_cases; split; reflexivity. Qed.

(** *** The signal in terms of the eight analysers *)

(** The components after the first [n] analysers have run. *)
Definition after (n : nat) (i : Indicators) (p : Prediction) (price : Q) : Components :=
  let c1 := snd (analyzeMlPrediction p initialComponents) in
  let c2 := snd (analyzeRSI (rsi i) c1) in
  let c3 := snd (analyzeMacd (macdOf i) c2) in
  let c4 := snd (analyzeMovingAverages i price c3) in
  let c5 := snd (analyzeBollingerBands (bollingerBands i) price c4) in
  let c6 := snd (analyzeStochastic (stochastic i) c5) in
  let c7 := snd (analyzeVolume (volumeRatio i) c6) in
  let c8 := snd (analyzeSupportResistance (supportResistance i) price c7) in
  match n with
  | 0 => initialComponents | 1 => c1 | 2 => c2 | 3 => c3 | 4 => c4
  | 5 => c5 | 6 => c6 | 7 => c7 | _ => c8
  end%nat.
Arguments after : simpl never.

Definition scoresOf (i : Indicators) (p : Prediction) (price : Q) : Scores :=
  {| ml := fst (analyzeMlPrediction p (after 0 i p price));
     rsiScore := fst (analyzeRSI (rsi i) (after 1 i p price));
     macdScore := fst (analyzeMacd (macdOf i) (after 2 i p price));
     ma := fst (analyzeMovingAverages i price (after 3 i p price));
     bb := fst (analyzeBollingerBands (bollingerBands i) price (after 4 i p price));
     stoch := fst (analyzeStochastic (stochastic i) (after 5 i p price));
     volume := fst (analyzeVolume (volumeRatio i) (after 6 i p price));
     sr := fst (analyzeSupportResistance (supportResistance i) price (after 7 i p price)) |}.

Lemma generateTimeframeSignal_Some tf i p sent price :
  generateTimeframeSignal tf (Some i) (Some p) sent price =
  Some {| timeframe := tf;
          signalOf := c_direction (after 8 i p price);
          strength :=
            JS.min 95 (calculateWeightedStrength (scoresOf i p price)
                       + applySentimentConfirmation sent (c_direction (after 8 i p price)));
          s_confidence := c_confidence (after 8 i p price);
          indicators := c_indicators (after 8 i p price);
          reasons := c_reasons (after 8 i p price);
          scores := scoresOf i p price;
          prediction := p |}.
Proof.
  unfold generateTimeframeSignal, scoresOf, after.
  destruct (analyzeMlPrediction p initialComponents) as [s1 c1]; cbn [fst snd].
  destruct (analyzeRSI (rsi i) c1) as [s2 c2]; cbn [fst snd].
  destruct (analyzeMacd (macdOf i) c2) as [s3 c3]; cbn [fst snd].
  destruct (analyzeMovingAverages i price c3) as [s4 c4]; cbn [fst snd].
  destruct (analyzeBollingerBands (bollingerBands i) price c4) as [s5 c5]; cbn [fst snd].
  destruct (analyzeStochastic (stochastic i) c5) as [s6 c6]; cbn [fst snd].
  destruct (analyzeVolume (volumeRatio i) c6) as [s7 c7]; cbn [fst snd].
  destruct (analyzeSupportResistance (supportResistance i) price c7) as [s8 c8]; cbn [fst snd].
  reflexivity.
Qed.

Lemma generateTimeframeSignal_inv tf oi op sent price s :
  generateTimeframeSignal tf oi op sent price = Some s ->
  exists i p, oi = Some i /\ op = Some p
              /\ generateTimeframeSignal tf (Some i) (Some p) sent price = Some s.
Proof.
  destruct oi as [i|], op as [p|]; try discriminate. intros H. exists i, p. auto.
Qed.

(** *** Direction and confidence of a signal *)

Lemma after_confidence i p price :
  c_confidence (after 8 i p price)
  = if JS.ltb 60 (confidence p) then confidence p else 0.
Proof.
  unfold after.
  rewrite (proj1 (analyzeSupportResistance_unchanged _ _ _)),
    (proj1 (analyzeVolume_unchanged _ _)), (proj1 (analyzeStochastic_unchanged _ _)),
    (proj1 (analyzeBollingerBands_unchanged _ _ _)),
    (proj1 (analyzeMovingAverages_unchanged _ _ _)), (proj1 (analyzeMacd_unchanged _ _)),
    analyzeRSI_confidence.
  unfold analyzeMlPrediction.
  destruct (JS.ltb 60 (confidence p)) eqn:E; [|reflexivity].
  assert (Hmax : JS.max 0 (confidence p) = confidence p).
  { unfold JS.max. destruct (JS.leb 0 (confidence p)) eqn:E0; [reflexivity|].
    js_props. lra. }
  destruct (direction p); cbn [snd setConfidence push setDirection c_confidence
                               initialComponents]; exact Hmax.
Qed.

Lemma after_direction i p price :
  c_direction (after 8 i p price) = establishedDirection p i.
Proof.
  unfold after.
  rewrite (proj2 (analyzeSupportResistance_unchanged _ _ _)),
    (proj2 (analyzeVolume_unchanged _ _)), (proj2 (analyzeStochastic_unchanged _ _)),
    (proj2 (analyzeBollingerBands_unchanged _ _ _)),
    (proj2 (analyzeMovingAverages_unchanged _ _ _)), (proj2 (analyzeMacd_unchanged _ _)).
  unfold establishedDirection, mlVote, rsiVote, analyzeRSI, analyzeMlPrediction.
  destruct (JS.ltb 60 (confidence p)); [destruct (direction p)|];
    destruct (JS.ltb (rsi i) RSI_OVERSOLD); try reflexivity;
    destruct (JS.ltb RSI_OVERBOUGHT (rsi i)); reflexivity.
Qed.

(** *** The scores are not negative *)

Lemma analyzeMlPrediction_score p c :
  fst (analyzeMlPrediction p c)
  = if JS.ltb 60 (confidence p) then confidence p / 100 * ML_PREDICTION * 100 else 0.
Proof. unfold analyzeMlPrediction. destruct (JS.ltb 60 (confidence p)); reflexivity. Qed.

Lemma analyzeMlPrediction_nonneg p c : 0 <= fst (analyzeMlPrediction p c).
Proof.
  rewrite analyzeMlPrediction_score. destruct (JS.ltb 60 (confidence p)) eqn:E.
  - js_props. unfold ML_PREDICTION, Qdiv.
    repeat apply Qmult_le_0_compat; try discriminate.
    apply Qlt_le_weak, Qlt_trans with (y := 60); [reflexivity | exact E].
  - apply Qle_refl.
Qed.

Lemma weights_nonneg :
  0 <= RSI * 100 /\ 0 <= MACD * 100 /\ 0 <= MOVING_AVERAGES * 100
  /\ 0 <= BOLLINGER_BANDS * 100 /\ 0 <= STOCHASTIC * 100 /\ 0 <= VOLUME * 100
  /\ 0 <= SUPPORT_RESISTANCE * 100.
Proof. repeat split; discriminate. Qed.

Ltac score_nonneg :=
  analyser_cases; cbn [fst]; first [apply Qle_refl | apply weights_nonneg].

Lemma analyzeRSI_nonneg r c : 0 <= fst (analyzeRSI r c).
Proof. unfold analyzeRSI. score_nonneg. Qed.

Lemma analyzeMacd_nonneg m c : 0 <= fst (analyzeMacd m c).
Proof. unfold analyzeMacd. score_nonneg. Qed.

Lemma analyzeMovingAverages_nonneg i price c : 0 <= fst (analyzeMovingAverages i price c).
Proof. unfold analyzeMovingAverages. score_nonneg. Qed.

Lemma analyzeBollingerBands_nonneg b price c : 0 <= fst (analyzeBollingerBands b price c).
Proof. unfold analyzeBollingerBands. score_nonneg. Qed.

Lemma analyzeStochastic_nonneg s c : 0 <= fst (analyzeStochastic s c).
Proof. unfold analyzeStochastic. score_nonneg. Qed.

Lemma analyzeVolume_nonneg v c : 0 <= fst (analyzeVolume v c).
Proof. unfold analyzeVolume. score_nonneg. Qed.

Lemma analyzeSupportResistance_nonneg l price c :
  0 <= fst (analyzeSupportResistance l price c).
Proof. unfold analyzeSupportResistance. score_nonneg. Qed.

Lemma calculateWeightedStrength_bounds i p price :
  50 <= calculateWeightedStrength (scoresOf i p price) <= 95.
Proof.
  unfold calculateWeightedStrength, values, scoresOf.
  cbn [ml rsiScore macdScore ma bb stoch volume sr fold_left].
  pose proof (analyzeMlPrediction_nonneg p (after 0 i p price)).
  pose proof (analyzeRSI_nonneg (rsi i) (after 1 i p price)).
  pose proof (analyzeMacd_nonneg (macdOf i) (after 2 i p price)).
  pose proof (analyzeMovingAverages_nonneg i price (after 3 i p price)).
  pose proof (analyzeBollingerBands_nonneg (bollingerBands i) price (after 4 i p price)).
  pose proof (analyzeStochastic_nonneg (stochastic i) (after 5 i p price)).
  pose proof (analyzeVolume_nonneg (volumeRatio i) (after 6 i p price)).
  pose proof (analyzeSupportResistance_nonneg (supportResistance i) price (after 7 i p price)).
  split.
  - apply JSFacts.min_glb; lra.
  - apply JSFacts.min_le_l.
Qed.

Lemma applySentimentConfirmation_nonneg sent dir : 0 <= applySentimentConfirmation sent dir.
Proof. unfold applySentimentConfirmation. destruct (sentiment sent), dir; discriminate. Qed.

Lemma strength_bounds tf i p sent price s :
  generateTimeframeSignal tf (Some i) (Some p) sent price = Some s ->
  50 <= strength s <= 95.
Proof.
  rewrite generateTimeframeSignal_Some. intros [= <-]. cbn [strength].
  pose proof (calculateWeightedStrength_bounds i p price).
  pose proof (applySentimentConfirmation_nonneg sent (c_direction (after 8 i p price))).
  split.
  - apply JSFacts.min_glb; lra.
  - apply JSFacts.min_le_l.
Qed.

Lemma confidence_cases tf i p sent price s :
  generateTimeframeSignal tf (Some i) (Some p) sent price = Some s ->
  prediction s = p
  /\ (s_confidence s = 0 \/ (60 < s_confidence s /\ s_confidence s = confidence p)).
Proof.
  rewrite generateTimeframeSignal_Some. intros [= <-]. cbn [s_confidence prediction].
  split; [reflexivity|].
  rewrite after_confidence. destruct (JS.ltb 60 (confidence p)) eqn:E.
  - right. js_props. auto.
  - left. reflexivity.
Qed.

(** *** Filtering and ranking *)

Lemma insertRanked_In x y l : In x (insertRanked y l) <-> x = y \/ In x l.
Proof.
  induction l as [|z l IH]; cbn [insertRanked In].
  - intuition.
  - destruct (JS.leb _ _); cbn [In]; rewrite ?IH; intuition.
Qed.

Lemma sortRanked_In x l : In x (sortRanked l) <-> In x l.
Proof.
  unfold sortRanked. induction l as [|y l IH]; cbn [foldr In]; [reflexivity|].
  rewrite insertRanked_In, IH. intuition.
Qed.

Lemma filterAndRankSignals_In s l :
  In s (filterAndRankSignals l) <-> In s l /\ keepSignal s = true.
Proof. unfold filterAndRankSignals. rewrite sortRanked_In. apply filter_In. Qed.

(** Every signal collected by the loop over the timeframes was generated
    from indicators and a prediction. *)
Lemma collected_generated (b : BotState) (td : gmap string Indicators) sent price tfs acc s :
  let step := fun (signals : list Signal) (timeframe : string) =>
    match generateTimeframeSignal timeframe (td !! timeframe)
            (predictions b !! timeframe) sent price with
    | Some signal =>
        if JS.leb MIN_SIGNAL_STRENGTH (strength signal)
        then signals ++ [signal] else signals
    | None => signals
    end in
  In s (fold_left step tfs acc) ->
  In s acc \/ exists tf i p, generateTimeframeSignal tf (Some i) (Some p) sent price = Some s.
Proof.
  intros step. revert acc. induction tfs as [|tf tfs IH]; intros acc; cbn [fold_left].
  - auto.
  - intros H. apply IH in H. destruct H as [H | H]; [|auto].
    unfold step in H.
    destruct (generateTimeframeSignal tf (td !! tf) (predictions b !! tf) sent price)
      as [signal|] eqn:E; [|auto].
    destruct (JS.leb MIN_SIGNAL_STRENGTH (strength signal)); [|auto].
    apply in_app_or in H. destruct H as [H | [<- | []]]; [auto|].
    right. apply generateTimeframeSignal_inv in E.
    destruct E as (i & p & _ & _ & E). eauto.
Qed.

(** An emitted signal is strong enough, confident enough and has two
    reasons at least. *)
Definition emittable (s : Signal) : Prop :=
  65 <= strength s /\ 60 <= s_confidence s /\ (2 <= length (reasons s))%nat.

(** C4. Every signal of the list emitted by [generateTradingSignals] has a
    strength of 65 at least, a confidence of 60 at least and two reasons
    at least: a generated signal that misses one of the three is
    suppressed.  (The filter asks for a confidence of 50; the confidence
    of a generated signal is 0 or above 60.) *)
Theorem emitted_signals_pass_minimums b technicalData :
  match generateTradingSignals b technicalData with
  | Return emitted => Forall emittable emitted
  | Thrown _ => True
  end.
Proof.
  unfold generateTradingSignals.
  destruct (negb (validatePrerequisites b)); [exact I|].
  destruct (currentPrice b) as [price|]; [|exact I].
  destruct (sentimentData b) as [sent|]; [|exact I].
  apply List.Forall_forall. intros s Hs.
  apply filterAndRankSignals_In in Hs. destruct Hs as [Hs Hkeep].
  apply collected_generated in Hs. destruct Hs as [[] | (tf & i & p & Hgen)].
  unfold keepSignal in Hkeep.
  apply andb_prop in Hkeep. destruct Hkeep as [Hkeep Hreasons].
  apply andb_prop in Hkeep. destruct Hkeep as [Hstrength Hconfidence].
  js_props. unfold MIN_SIGNAL_STRENGTH in Hstrength.
  apply Nat.leb_le in Hreasons.
  destruct (confidence_cases _ _ _ _ _ _ Hgen) as [_ [Hzero | [Hhigh _]]].
  - rewrite Hzero in Hconfidence. exfalso. revert Hconfidence. apply Qlt_not_le. reflexivity.
  - repeat split; [exact Hstrength | lra | exact Hreasons].
Qed.

(** Sample data: every factor but the bands, the stochastic and the levels
    speaks for BUY at a price of 110. *)
Definition sampleIndicators : Indicators :=
  {| rsi := 25;
     macdOf := {| macd := 2; signal := 1; histogram := 1 |};
     sma20 := 105; sma50 := 100;
     bollingerBands := {| upper := 120; lower := 90 |};
     stochastic := {| k := 50; d := 50 |};
     volumeRatio := 2;
     supportResistance := {| support := 80; resistance := 130 |} |}.

Definition certainPrediction : Prediction :=
  {| direction := BULLISH; confidence := 100; priceChangePercent := Some 3 |}.

Definition unsurePrediction : Prediction :=
  {| direction := BULLISH; confidence := 50; priceChangePercent := Some 3 |}.

Definition bullish : Sentiment := {| sentiment := BULLISH |}.

Definition sampleState : BotState :=
  {| currentPrice := Some 110;
     predictions := {[ "1h" := certainPrediction ]};
     sentimentData := Some bullish |}.

(** On the sample data one signal is emitted, with strength 95 and
    confidence 100. *)
Example generateTradingSignals_sample :
  match generateTradingSignals sampleState {[ "1h" := sampleIndicators ]} with
  | Return [s] => signalOf s = BUY /\ strength s == 95 /\ s_confidence s == 100
                  /\ length (reasons s) = 5%nat
  | _ => False
  end.
Proof. vm_compute. repeat split; reflexivity. Qed.

(** The filter alone lets a confidence of 55 through. *)
Example keepSignal_confidence_55 :
  keepSignal {| timeframe := "1h"; signalOf := BUY; strength := 70; s_confidence := 55;
                indicators := ["RSI_OVERSOLD"; "VOLUME_SURGE"];
                reasons := [RsiOversold 25; VolumeSurge 2];
                scores := Build_Scores 0 15 0 0 0 0 5 0;
                prediction := unsurePrediction |} = true.
Proof. vm_compute. reflexivity. Qed.

(** The claim of C7 fails for the confidence: a prediction with confidence
    100 gives a signal with confidence 100, above 95, and one with
    confidence 50 gives a signal with confidence 0, below 10. *)
Lemma generated_confidence_not_clamped :
  (0 <= confidence certainPrediction <= 100
   /\ exists s, generateTimeframeSignal "1h" (Some sampleIndicators) (Some certainPrediction)
                  bullish 110 = Some s
                /\ 95 < s_confidence s)
  /\ (0 <= confidence unsurePrediction <= 100
      /\ exists s, generateTimeframeSignal "1h" (Some sampleIndicators)
                     (Some unsurePrediction) bullish 110 = Some s
                   /\ s_confidence s < 10).
Proof.
  split; (split; [split; discriminate|]);
    (eexists; split; [vm_compute; reflexivity | reflexivity]).
Qed.

Lemma confidence_exact tf i p sent price s :
  generateTimeframeSignal tf (Some i) (Some p) sent price = Some s ->
  prediction s = p
  /\ s_confidence s = (if JS.ltb 60 (confidence p) then confidence p else 0).
Proof.
  rewrite generateTimeframeSignal_Some. intros [= <-]. cbn [s_confidence prediction].
  split; [reflexivity | apply after_confidence].
Qed.

(** C7, amended. The strength of a generated signal lies in [50, 95], so
    in [0, 95].  Its confidence is not clamped: it is 0 when the
    confidence of the prediction is at most 60 and it is the confidence of
    the prediction when that is above 60, so 0 or in (60, 100] for a
    prediction with a confidence in [0, 100]. *)
Theorem generated_strength_and_confidence tf indicators prediction sent price s :
  generateTimeframeSignal tf indicators prediction sent price = Some s ->
  0 <= confidence (Signals.prediction s) <= 100 ->
  (50 <= strength s <= 95)
  /\ (confidence (Signals.prediction s) <= 60 -> s_confidence s = 0)
  /\ (60 < confidence (Signals.prediction s) ->
      s_confidence s = confidence (Signals.prediction s))
  /\ (s_confidence s = 0
      \/ (60 < s_confidence s <= 100 /\ s_confidence s = confidence (Signals.prediction s))).
Proof.
  intros Hgen Hrange. apply generateTimeframeSignal_inv in Hgen.
  destruct Hgen as (i & p & _ & _ & Hgen).
  split; [exact (strength_bounds _ _ _ _ _ _ Hgen)|].
  destruct (confidence_exact _ _ _ _ _ _ Hgen) as [Hp Hexact].
  rewrite Hp in *. rewrite Hexact.
  destruct (JS.ltb 60 (confidence p)) eqn:E; js_props.
  - split; [intros Hlow; lra|]. split; [reflexivity|].
    right. split; [split; [exact E | tauto] | reflexivity].
  - split; [reflexivity|]. split; [intros Hhigh; lra|]. left. reflexivity.
Qed.

Lemma generated_strength_and_confidence_witness :
  exists s,
    generateTimeframeSignal "1h" (Some sampleIndicators) (Some certainPrediction)
      bullish 110 = Some s
    /\ (50 <= strength s <= 95)
    /\ s_confidence s = confidence certainPrediction
    /\ s_confidence s = 100.
Proof.
  eexists. split; [vm_compute; reflexivity|].
  destruct (generated_strength_and_confidence "1h" (Some sampleIndicators)
              (Some certainPrediction) bullish 110 _ eq_refl)
    as (Hstrength & _ & Hhigh & _).
  - split; discriminate.
  - split; [exact Hstrength|]. split; [|reflexivity].
    apply Hhigh. reflexivity.
Defined.

(** *** Who fixes the direction, and who adds to the strength *)

Lemma after_direction_from n i p price :
  (2 <= n)%nat -> c_direction (after n i p price) = establishedDirection p i.
Proof.
  intros Hn. rewrite <- (after_direction i p price).
  do 2 (destruct n as [|n]; [lia|]).
  unfold after.
  do 6 (destruct n as [|n];
          [rewrite ?(proj2 (analyzeSupportResistance_unchanged _ _ _)),
             ?(proj2 (analyzeVolume_unchanged _ _)),
             ?(proj2 (analyzeStochastic_unchanged _ _)),
             ?(proj2 (analyzeBollingerBands_unchanged _ _ _)),
             ?(proj2 (analyzeMovingAverages_unchanged _ _ _)),
             ?(proj2 (analyzeMacd_unchanged _ _)); reflexivity|]).
  reflexivity.
Qed.

Ltac contribution_cases :=
  unfold contribution, agrees;
  match goal with |- context [c_direction ?c] => destruct (c_direction c) end;
  cbn [Direction_eqb];
  repeat (match goal with
          | |- context [if ?c then _ else _] => destruct c
          end; cbn [Direction_eqb fst]);
  reflexivity.

Lemma analyzeMacd_contribution i c :
  fst (analyzeMacd (macdOf i) c) = contribution MACD (macdVote i) (c_direction c).
Proof. unfold analyzeMacd, macdVote. contribution_cases. Qed.

Lemma analyzeMovingAverages_contribution i price c :
  fst (analyzeMovingAverages i price c)
  = contribution MOVING_AVERAGES (maVote i price) (c_direction c).
Proof. unfold analyzeMovingAverages, maVote. contribution_cases. Qed.

Lemma analyzeBollingerBands_contribution i price c :
  fst (analyzeBollingerBands (bollingerBands i) price c)
  = contribution BOLLINGER_BANDS (bbVote i price) (c_direction c).
Proof. unfold analyzeBollingerBands, bbVote. contribution_cases. Qed.

Lemma analyzeStochastic_contribution i c :
  fst (analyzeStochastic (stochastic i) c)
  = contribution STOCHASTIC (stochVote i) (c_direction c).
Proof. unfold analyzeStochastic, stochVote. contribution_cases. Qed.

Lemma analyzeSupportResistance_contribution i price c :
  fst (analyzeSupportResistance (supportResistance i) price c)
  = contribution SUPPORT_RESISTANCE (srVote i price) (c_direction c).
Proof. unfold analyzeSupportResistance, srVote. contribution_cases. Qed.

Lemma analyzeVolume_score i c :
  fst (analyzeVolume (volumeRatio i) c) = if volumeSurge i then VOLUME * 100 else 0.
Proof. unfold analyzeVolume, volumeSurge. destruct (JS.ltb _ _); reflexivity. Qed.

(** The RSI adds its weight when it votes; without a vote it adds nothing. *)
Lemma analyzeRSI_score i c :
  fst (analyzeRSI (rsi i) c)
  = match rsiVote i with Some _ => RSI * 100 | None => 0 end.
Proof. unfold analyzeRSI, rsiVote. analyser_cases; reflexivity. Qed.

Definition macdOnly : Indicators :=
  {| rsi := 50;
     macdOf := {| macd := 2; signal := 1; histogram := 1 |};
     sma20 := 100; sma50 := 100;
     bollingerBands := {| upper := 120; lower := 90 |};
     stochastic := {| k := 50; d := 50 |};
     volumeRatio := 2;
     supportResistance := {| support := 80; resistance := 130 |} |}.

(** The claim of C8 fails: with the prediction and the RSI silent, the
    MACD is the first factor to vote, for BUY; the direction of the signal
    stays HOLD, the MACD adds nothing, and the volume adds its weight
    though no direction is established. *)
Lemma first_vote_does_not_fix_direction :
  votes unsurePrediction macdOnly 110 = [None; None; Some BUY; None; None; None; None]
  /\ firstVote unsurePrediction macdOnly 110 = BUY
  /\ match generateTimeframeSignal "1h" (Some macdOnly) (Some unsurePrediction) bullish 110 with
     | Some s => signalOf s = HOLD
                 /\ signalOf s <> firstVote unsurePrediction macdOnly 110
                 /\ macdScore (scores s) == 0
                 /\ volume (scores s) == 5
     | None => False
     end.
Proof.
  split; [vm_compute; reflexivity|]. split; [vm_compute; reflexivity|].
  vm_compute. repeat split; try reflexivity. discriminate.
Qed.

(** The RSI adds its weight even against the direction fixed by the
    prediction. *)
Example analyzeRSI_against_direction :
  let c := snd (analyzeMlPrediction
                  {| direction := BEARISH; confidence := 80; priceChangePercent := None |}
                  initialComponents) in
  c_direction c = SELL
  /\ c_direction (snd (analyzeRSI 25 c)) = SELL
  /\ fst (analyzeRSI 25 c) == 15.
Proof. vm_compute. repeat split; reflexivity. Qed.

(** C8, amended. Only the prediction and the RSI fix the direction: the
    prediction when it votes, otherwise the RSI when it votes, otherwise
    the direction stays HOLD.  The MACD, the moving averages, the
    Bollinger bands, the stochastic and the support/resistance levels add
    their weight exactly when their vote is the established direction, and
    nothing otherwise.  The prediction adds its score whenever its
    confidence is above 60, the RSI adds its weight when its vote is the
    established direction and nothing when it does not vote, and the
    volume adds its weight on a surge whatever the direction. *)
Theorem scorer_direction_and_contributions tf i p sent price :
  match generateTimeframeSignal tf (Some i) (Some p) sent price with
  | Some s =>
      let dir := signalOf s in
      dir = establishedDirection p i
      /\ ml (scores s)
         = (if JS.ltb 60 (confidence p) then confidence p / 100 * ML_PREDICTION * 100 else 0)
      /\ (agrees (rsiVote i) dir = true -> rsiScore (scores s) = RSI * 100)
      /\ (rsiVote i = None -> rsiScore (scores s) = 0)
      /\ macdScore (scores s) = contribution MACD (macdVote i) dir
      /\ ma (scores s) = contribution MOVING_AVERAGES (maVote i price) dir
      /\ bb (scores s) = contribution BOLLINGER_BANDS (bbVote i price) dir
      /\ stoch (scores s) = contribution STOCHASTIC (stochVote i) dir
      /\ sr (scores s) = contribution SUPPORT_RESISTANCE (srVote i price) dir
      /\ volume (scores s) = (if volumeSurge i then VOLUME * 100 else 0)
  | None => False
  end.
Proof.
  rewrite generateTimeframeSignal_Some.
  cbn [signalOf scores scoresOf ml rsiScore macdScore ma bb stoch sr volume].
  rewrite after_direction.
  rewrite analyzeMlPrediction_score, analyzeRSI_score, analyzeMacd_contribution,
    analyzeMovingAverages_contribution, analyzeBollingerBands_contribution,
    analyzeStochastic_contribution, analyzeSupportResistance_contribution,
    analyzeVolume_score.
  rewrite !after_direction_from by lia.
  repeat split; try reflexivity.
  - unfold agrees. destruct (rsiVote i); [reflexivity | discriminate].
  - intros ->. reflexivity.
Qed.

(** *** The consensus gate *)

Lemma fold_left_strength l acc :
  fold_left (fun sum s => sum + strength s) l acc == acc + totalStrength l.
Proof.
  revert acc. induction l as [|s l IH]; intros acc; cbn [fold_left totalStrength foldr].
  - ring.
  - rewrite IH. fold (totalStrength l). ring.
Qed.

Lemma avgStrength_consensusOf l :
  (0 < length l)%nat -> avgStrength (consensusOf l) == averageStrength l.
Proof.
  intros H. unfold consensusOf, averageStrength. cbn [avgStrength].
  apply Nat.ltb_lt in H. rewrite H. rewrite fold_left_strength.
  apply Qmult_comp; [ring | reflexivity].
Qed.

(** The test made before each executor, in the words of [eligible]. *)
Lemma gate_eligible dir l :
  Nat.leb CONSENSUS_THRESHOLD (count (consensusOf (agreeing dir l)))
  && JS.ltb STRONG_SIGNAL_THRESHOLD (avgStrength (consensusOf (agreeing dir l))) = true
  <-> eligible dir l.
Proof.
  unfold eligible. rewrite andb_true_iff, Nat.leb_le, JSFacts.ltb_lt.
  change (count (consensusOf (agreeing dir l))) with (length (agreeing dir l)).
  split; intros [Hcount Havg]; (split; [exact Hcount|]).
  - rewrite <- avgStrength_consensusOf; [exact Havg | unfold CONSENSUS_THRESHOLD in Hcount; lia].
  - rewrite avgStrength_consensusOf; [exact Havg | unfold CONSENSUS_THRESHOLD in Hcount; lia].
Qed.

Lemma eligible_nil dir : ~ eligible dir [].
Proof. unfold eligible, CONSENSUS_THRESHOLD. cbn. lia. Qed.

Lemma analyzeSignalConsensus_sides l :
  analyzeSignalConsensus l = (consensusOf (agreeing BUY l), consensusOf (agreeing SELL l)).
Proof. reflexivity. Qed.

Lemma consensusReached_eligible dir l :
  consensusReached (consensusOf (agreeing dir l)) = true <-> eligible dir l.
Proof. apply gate_eligible. Qed.

(** The three signals [{BUY,80},{BUY,78},{SELL,90}], whatever their other
    fields are. *)
Lemma agreeing_example dir (s1 s2 s3 : Signal) :
  signalOf s1 = BUY -> strength s1 == 80 ->
  signalOf s2 = BUY -> strength s2 == 78 ->
  signalOf s3 = SELL -> strength s3 == 90 ->
  agreeing dir [s1; s2; s3]
  = match dir with BUY => [s1; s2] | SELL => [s3] | HOLD => [] end.
Proof.
  intros D1 S1 D2 S2 D3 S3. unfold agreeing. cbn [List.filter].
  rewrite D1, D2, D3.
  assert (H1 : JS.ltb STRONG_SIGNAL_THRESHOLD (strength s1) = true).
  { apply JSFacts.ltb_lt. rewrite S1. reflexivity. }
  assert (H2 : JS.ltb STRONG_SIGNAL_THRESHOLD (strength s2) = true).
  { apply JSFacts.ltb_lt. rewrite S2. reflexivity. }
  assert (H3 : JS.ltb STRONG_SIGNAL_THRESHOLD (strength s3) = true).
  { apply JSFacts.ltb_lt. rewrite S3. reflexivity. }
  rewrite H1, H2, H3. destruct dir; reflexivity.
Qed.

(** C3. The test that [analyzeAndExecuteSignals] makes before it calls
    the executor of a BUY (resp. SELL) trade holds of the consensus of
    [analyzeSignalConsensus] if and only if at least 2 signals have that
    direction with a strength above 75 and the average strength of those
    signals is above 75.  For [{BUY,80},{BUY,78},{SELL,90}] BUY is
    eligible and SELL is not. *)
Theorem consensus_gate signals :
  (consensusReached (fst (analyzeSignalConsensus signals)) = true <-> eligible BUY signals)
  /\ (consensusReached (snd (analyzeSignalConsensus signals)) = true
      <-> eligible SELL signals)
  /\ (forall s1 s2 s3 : Signal,
        signalOf s1 = BUY -> strength s1 == 80 ->
        signalOf s2 = BUY -> strength s2 == 78 ->
        signalOf s3 = SELL -> strength s3 == 90 ->
        consensusReached (fst (analyzeSignalConsensus [s1; s2; s3])) = true
        /\ consensusReached (snd (analyzeSignalConsensus [s1; s2; s3])) = false).
Proof.
  rewrite analyzeSignalConsensus_sides. cbn [fst snd].
  split; [apply consensusReached_eligible|].
  split; [apply consensusReached_eligible|].
  intros s1 s2 s3 D1 S1 D2 S2 D3 S3.
  rewrite analyzeSignalConsensus_sides. cbn [fst snd]. split.
  - apply consensusReached_eligible. unfold eligible.
    rewrite (agreeing_example _ s1 s2 s3 D1 S1 D2 S2 D3 S3).
    unfold CONSENSUS_THRESHOLD, STRONG_SIGNAL_THRESHOLD, averageStrength, totalStrength.
    cbn [length foldr]. split; [lia|]. rewrite S1, S2. reflexivity.
  - apply not_true_iff_false. rewrite consensusReached_eligible. unfold eligible.
    rewrite (agreeing_example _ s1 s2 s3 D1 S1 D2 S2 D3 S3).
    unfold CONSENSUS_THRESHOLD. cbn [length]. intros [H _]. lia.
Qed.

Definition sampleSignal (dir : Direction) (strength : Q) : Signal :=
  {| timeframe := "1h"; signalOf := dir; strength := strength; s_confidence := 70;
     indicators := []; reasons := []; scores := Build_Scores 0 0 0 0 0 0 0 0;
     prediction := certainPrediction |}.

(** On the example the BUY side has a count of 2 and an average strength
    of 79, and the SELL side a count of 1. *)
Example analyzeSignalConsensus_example :
  let consensus :=
    analyzeSignalConsensus [sampleSignal BUY 80; sampleSignal BUY 78; sampleSignal SELL 90] in
  count (fst consensus) = 2%nat /\ avgStrength (fst consensus) == 79
  /\ count (snd consensus) = 1%nat
  /\ consensusReached (fst consensus) = true /\ consensusReached (snd consensus) = false.
Proof. vm_compute. repeat split; reflexivity. Qed.

End SignalsFacts.

Module PositionFacts.

(** *** The monitor of [signals.js] *)

Section SignalsMonitor.
Import Monitor.

Variable assessPositionRisk : Position -> Outcome string RiskCheck.

Lemma stopNotLowered_refl s : stopNotLowered s s.
Proof. destruct s; cbn; [apply Qle_refl | exact I]. Qed.

Lemma stopNotLowered_trans a b c :
  stopNotLowered a b -> stopNotLowered b c -> stopNotLowered a c.
Proof.
  destruct a, b, c; cbn; try tauto. intros H1 H2. apply Qle_trans with (y := q0); assumption.
Qed.

Lemma stopNotRaised_refl s : stopNotRaised s s.
Proof. destruct s; cbn; [apply Qle_refl | exact I]. Qed.

Lemma stopNotRaised_trans a b c :
  stopNotRaised a b -> stopNotRaised b c -> stopNotRaised a c.
Proof.
  destruct a, b, c; cbn; try tauto. intros H1 H2. apply Qle_trans with (y := q0); assumption.
Qed.

(** A trailing update of a long position raises the stop; of any other
    position, it lowers the stop. *)
Lemma updateTrailingStop_ratchet p price :
  shouldUpdateTrailingStop p price = true ->
  isBuy (updateTrailingStop p price) = isBuy p
  /\ (if isBuy p
      then stopNotLowered (stopLoss p) (stopLoss (updateTrailingStop p price))
      else stopNotRaised (stopLoss p) (stopLoss (updateTrailingStop p price))).
Proof.
  unfold shouldUpdateTrailingStop, updateTrailingStop.
  destruct (trailingStopDistance p) as [distance|]; [|discriminate].
  destruct (negb (trailingStop p) || _); [discriminate|].
  destruct (isBuy p) eqn:Ebuy; destruct (stopLoss p) as [s|] eqn:Es; try discriminate;
    intros H; js_props; unfold isBuy in *; cbn [setStopLoss type stopLoss];
    rewrite ?Ebuy; (split; [reflexivity|]); cbn; apply Qlt_le_weak; exact H.
Qed.

Lemma monitorSinglePosition_ratchet p price :
  let p' := fst (monitorSinglePosition assessPositionRisk p price) in
  isBuy p' = isBuy p
  /\ (if isBuy p
      then stopNotLowered (stopLoss p) (stopLoss p')
      else stopNotRaised (stopLoss p) (stopLoss p')).
Proof.
  cbn zeta. unfold monitorSinglePosition.
  set (q := updatePositionMetrics p price).
  assert (Hbuy : isBuy q = isBuy p) by reflexivity.
  assert (Hstop : stopLoss q = stopLoss p) by reflexivity.
  assert (Hsame : isBuy q = isBuy p
                  /\ (if isBuy p then stopNotLowered (stopLoss p) (stopLoss q)
                      else stopNotRaised (stopLoss p) (stopLoss q))).
  { split; [exact Hbuy|]. rewrite Hstop.
    destruct (isBuy p); [apply stopNotLowered_refl | apply stopNotRaised_refl]. }
  clearbody q.
  destruct (assessPositionRisk q) as [riskCheck|]; [|exact Hsame].
  destruct (shouldExit riskCheck); [exact Hsame|].
  destruct (JS.truthy (stopLoss q) && _); [exact Hsame|].
  destruct (JS.truthy (takeProfit q) && _); [exact Hsame|].
  destruct (trailingStop q && shouldUpdateTrailingStop q price) eqn:E; [|exact Hsame].
  apply andb_prop in E. destruct E as [_ E].
  destruct (updateTrailingStop_ratchet q price E) as [Hb Hs].
  cbn [fst]. rewrite Hb, Hbuy. split; [reflexivity|].
  rewrite Hbuy, Hstop in Hs. exact Hs.
Qed.

Lemma monitorTicks_ratchet ticks p :
  isBuy (monitorTicks assessPositionRisk p ticks) = isBuy p
  /\ (if isBuy p
      then stopNotLowered (stopLoss p) (stopLoss (monitorTicks assessPositionRisk p ticks))
      else stopNotRaised (stopLoss p) (stopLoss (monitorTicks assessPositionRisk p ticks))).
Proof.
  revert p. induction ticks as [|price ticks IH]; intros p.
  - cbn. split; [reflexivity|].
    destruct (isBuy p); [apply stopNotLowered_refl | apply stopNotRaised_refl].
  - unfold monitorTicks. cbn [fold_left].
    fold (monitorTicks assessPositionRisk
            (fst (monitorSinglePosition assessPositionRisk p price)) ticks).
    destruct (monitorSinglePosition_ratchet p price) as [Hb Hs].
    destruct (IH (fst (monitorSinglePosition assessPositionRisk p price))) as [Hb' Hs'].
    rewrite Hb in Hb', Hs'. split; [exact Hb'|].
    destruct (isBuy p).
    + eapply stopNotLowered_trans; eassumption.
    + eapply stopNotRaised_trans; eassumption.
Qed.

Lemma monitorTicks_app p earlier later :
  monitorTicks assessPositionRisk p (earlier ++ later)
  = monitorTicks assessPositionRisk (monitorTicks assessPositionRisk p earlier) later.
Proof. unfold monitorTicks. apply fold_left_app. Qed.

End SignalsMonitor.

(** *** The trailing stop of [trading.js] *)

Section TradingTrailing.
Import Trading.

(** The trigger follows the highest price at a distance of at most 100%. *)
Definition followsHighest (t : TrailingStop) : Prop :=
  triggerPrice t == highestPrice t * (1 - percentage t) /\ percentage t <= 1.

Definition trailingOk (t : option TrailingStop) : Prop :=
  match t with
  | Some t => followsHighest t
  | None => True
  end.

Lemma triggerNotLowered_refl t : triggerNotLowered t t.
Proof. destruct t; cbn; [apply Qle_refl | exact I]. Qed.

Lemma triggerNotLowered_trans a b c :
  triggerNotLowered a b -> triggerNotLowered b c -> triggerNotLowered a c.
Proof.
  destruct a, b, c; cbn; try tauto. intros H1 H2.
  eapply Qle_trans; eassumption.
Qed.

Lemma ratchet_followsHighest t price :
  followsHighest t ->
  followsHighest (ratchet t price) /\ triggerPrice t <= triggerPrice (ratchet t price).
Proof.
  intros [Htrigger Hpct]. unfold ratchet.
  destruct (JS.ltb (highestPrice t) price) eqn:E.
  - unfold followsHighest. cbn [triggerPrice highestPrice percentage].
    split; [split; [reflexivity | exact Hpct]|].
    rewrite Htrigger. js_props. apply Qmult_le_compat_r; [apply Qlt_le_weak, E | lra].
  - split; [split; assumption | apply Qle_refl].
Qed.

Lemma passOver_trailing p price :
  trailingOk (trailingStop p) ->
  trailingOk (trailingStop (passPosition (passOver p price)))
  /\ triggerNotLowered (trailingStop p) (trailingStop (passPosition (passOver p price))).
Proof.
  intros Hp. unfold passOver, sellIf. cbn [executeSmartTrade trailingStop].
  destruct (stopLossHit _ price); [cbn; split; [exact Hp | apply triggerNotLowered_refl]|].
  destruct (takeProfitHit _ price); [cbn; split; [exact Hp | apply triggerNotLowered_refl]|].
  destruct (trailingStop p) as [t|]; [|cbn; tauto].
  destruct (JS.leb price _); cbn [passPosition setTrailingStop trailingStop trailingOk
                                    triggerNotLowered];
    apply ratchet_followsHighest, Hp.
Qed.

(** No trigger of [before] is above the trigger of the same position in
    [after]. *)
Definition triggersNotLowered (before after : list Position) : Prop :=
  Forall2 (fun a b => triggerNotLowered (trailingStop a) (trailingStop b)) before after.

Definition trailingStopsOk (positions : list Position) : Prop :=
  Forall (fun p => trailingOk (trailingStop p)) positions.

Lemma triggersNotLowered_refl positions : triggersNotLowered positions positions.
Proof.
  induction positions; constructor; [apply triggerNotLowered_refl | assumption].
Qed.

Lemma triggersNotLowered_trans a b c :
  triggersNotLowered a b -> triggersNotLowered b c -> triggersNotLowered a c.
Proof.
  intros Hab. revert c. induction Hab as [|x y a b Hxy _ IH]; intros c Hbc.
  - inversion Hbc. constructor.
  - inversion Hbc as [|? z ? c' Hyz Hrest]; subst.
    constructor; [eapply triggerNotLowered_trans; eassumption | apply IH, Hrest].
Qed.

Lemma updatePositionsPnL_trailing positions price :
  trailingStopsOk positions ->
  trailingStopsOk (fst (updatePositionsPnL positions price))
  /\ triggersNotLowered positions (fst (updatePositionsPnL positions price)).
Proof.
  induction 1 as [|p others Hp Hothers IH]; cbn [updatePositionsPnL].
  - split; constructor.
  - destruct (passOver_trailing p price Hp) as [Hok Hstep].
    destruct IH as [IHok IHstep].
    destruct (passError (passOver p price)); cbn [fst].
    + split; constructor; try assumption. apply triggersNotLowered_refl.
    + split; constructor; assumption.
Qed.

Lemma updateTicks_trailing ticks positions :
  trailingStopsOk positions ->
  trailingStopsOk (updateTicks positions ticks)
  /\ triggersNotLowered positions (updateTicks positions ticks).
Proof.
  revert positions. induction ticks as [|price ticks IH]; intros positions Hp.
  - cbn. split; [exact Hp | apply triggersNotLowered_refl].
  - unfold updateTicks. cbn [fold_left].
    fold (updateTicks (fst (updatePositionsPnL positions price)) ticks).
    destruct (updatePositionsPnL_trailing positions price Hp) as [Hok Hstep].
    destruct (IH _ Hok) as [Hok' Hrest].
    split; [exact Hok'|]. eapply triggersNotLowered_trans; eassumption.
Qed.

Lemma setupTradeManagement_trailing config trade metadata position :
  trailingStop position = None ->
  (forall pct, m_trailingStop metadata = Some pct -> pct <= 1) ->
  trailingOk (trailingStop (setupTradeManagement config trade metadata position)).
Proof.
  intros Hnone Hpct. unfold setupTradeManagement. cbn [trailingStop].
  destruct (m_trailingStop metadata) as [pct|] eqn:E; [|rewrite Hnone; exact I].
  destruct (JS.truthy (Some pct)); [|rewrite Hnone; exact I].
  split; cbn [triggerPrice highestPrice percentage]; [reflexivity | auto].
Qed.

End TradingTrailing.

(** Sample data: a long and a short position with a trailing distance of
    5 and a stop at 95 (resp. 105), a risk assessment that never asks to
    leave, and a BUY trade at 100 with a trailing stop of 5% or of 200%. *)
Definition noRisk (p : Monitor.Position) : Outcome string Monitor.RiskCheck :=
  Return {| Monitor.shouldExit := false; Monitor.reason := "" |}.

Definition longPosition : Monitor.Position :=
  {| Monitor.type := "BUY"; Monitor.entryPrice := 100; Monitor.size := 1;
     Monitor.stopLoss := Some 95; Monitor.takeProfit := Some 200;
     Monitor.trailingStop := true; Monitor.trailingStopDistance := Some 5;
     Monitor.currentPrice := 100; Monitor.pnl := 0; Monitor.pnlPercentage := JS.Fin 0 |}.

Definition shortPosition : Monitor.Position :=
  {| Monitor.type := "SELL"; Monitor.entryPrice := 100; Monitor.size := 1;
     Monitor.stopLoss := Some 105; Monitor.takeProfit := Some 50;
     Monitor.trailingStop := true; Monitor.trailingStopDistance := Some 5;
     Monitor.currentPrice := 100; Monitor.pnl := 0; Monitor.pnlPercentage := JS.Fin 0 |}.

Definition sampleConfig : Trading.CONFIG :=
  {| Trading.stopLossPct := 2 # 100; Trading.takeProfitPct := 4 # 100 |}.

Definition sampleBuy : Trading.Trade := {| Trading.tradeSize := 1; Trading.price := 100 |}.

Definition trailingFivePercent : Trading.Metadata :=
  {| Trading.m_stopLoss := None; Trading.m_takeProfit := None;
     Trading.m_trailingStop := Some (5 # 100) |}.

Definition trailingTwoHundredPercent : Trading.Metadata :=
  {| Trading.m_stopLoss := None; Trading.m_takeProfit := None;
     Trading.m_trailingStop := Some 2 |}.

Definition triggers (positions : list Trading.Position) : list (option Q) :=
  map (fun p => Trading.triggerPrice <$> Trading.trailingStop p) positions.

(** The claim of C5 fails for [updatePositionsPnL] when the trailing
    percentage is above 100%: for a BUY at 100 with a trailing stop of
    200% the trigger is set at -100, and the tick 102, a new high that
    hits neither the stop-loss at 98 nor the take-profit at 104, moves it
    down to -102. *)
Lemma trailing_stop_above_100_percent_moves_down :
  triggers [Trading.setupTradeManagement sampleConfig sampleBuy trailingTwoHundredPercent
              (Trading.openPosition sampleBuy 100)]
  = [Some (100 * (1 - 2))]
  /\ triggers (Trading.updateTicks
                 [Trading.setupTradeManagement sampleConfig sampleBuy
                    trailingTwoHundredPercent (Trading.openPosition sampleBuy 100)]
                 [102])
     = [Some (102 * (1 - 2))]
  /\ 102 * (1 - 2) < 100 * (1 - 2).
Proof. repeat split. Qed.

(** C5, amended. Across any sequence of price ticks the trailing stop only
    ratchets.  In the monitor of [signals.js] the stop-loss level of a
    BUY position never moves down and that of any other position never
    moves up, whatever the risk assessment answers.  In
    [updatePositionsPnL], where every position is long, the trigger price
    of no position moves down, whether the calls return or throw,
    provided each trailing stop has its trigger at its highest price less
    a percentage of at most 100%; that is how [setupTradeManagement] sets
    it for such a percentage. *)
Theorem trailing_stop_is_monotonic
    (assessPositionRisk : Monitor.Position -> Outcome string Monitor.RiskCheck)
    (p : Monitor.Position) (earlier later : list Q)
    (config : Trading.CONFIG) (trade : Trading.Trade) (metadata : Trading.Metadata)
    (position : Trading.Position) (positions : list Trading.Position) :
  (Monitor.type p = "BUY" ->
   Monitor.stopNotLowered
     (Monitor.stopLoss (Monitor.monitorTicks assessPositionRisk p earlier))
     (Monitor.stopLoss (Monitor.monitorTicks assessPositionRisk p (earlier ++ later))))
  /\ (Monitor.type p <> "BUY" ->
      Monitor.stopNotRaised
        (Monitor.stopLoss (Monitor.monitorTicks assessPositionRisk p earlier))
        (Monitor.stopLoss (Monitor.monitorTicks assessPositionRisk p (earlier ++ later))))
  /\ (Trading.trailingStop position = None ->
      (forall pct, Trading.m_trailingStop metadata = Some pct -> pct <= 1) ->
      trailingOk (Trading.trailingStop
                    (Trading.setupTradeManagement config trade metadata position)))
  /\ (trailingStopsOk positions ->
      trailingStopsOk (Trading.updateTicks positions earlier)
      /\ triggersNotLowered (Trading.updateTicks positions earlier)
                            (Trading.updateTicks positions (earlier ++ later))).
Proof.
  rewrite monitorTicks_app.
  destruct (monitorTicks_ratchet assessPositionRisk earlier p) as [Hb _].
  destruct (monitorTicks_ratchet assessPositionRisk later
              (Monitor.monitorTicks assessPositionRisk p earlier)) as [_ Hs].
  rewrite Hb in Hs. unfold Monitor.isBuy in Hs.
  split; [|split; [|split]].
  - intros Hbuy. rewrite Hbuy in Hs. exact Hs.
  - intros Hshort. apply String.eqb_neq in Hshort. rewrite Hshort in Hs. exact Hs.
  - apply setupTradeManagement_trailing.
  - intros Hok. unfold Trading.updateTicks at 3. rewrite fold_left_app.
    fold (Trading.updateTicks positions earlier).
    fold (Trading.updateTicks (Trading.updateTicks positions earlier) later).
    destruct (updateTicks_trailing earlier positions Hok) as [Hok' _].
    split; [exact Hok'|]. apply (updateTicks_trailing later _ Hok').
Qed.

Lemma trailing_stop_witness :
  Monitor.stopNotLowered
    (Monitor.stopLoss (Monitor.monitorTicks noRisk longPosition [100; 110]))
    (Monitor.stopLoss (Monitor.monitorTicks noRisk longPosition ([100; 110] ++ [106; 120])))
  /\ Monitor.stopNotRaised
       (Monitor.stopLoss (Monitor.monitorTicks noRisk shortPosition [100; 90]))
       (Monitor.stopLoss (Monitor.monitorTicks noRisk shortPosition ([100; 90] ++ [94; 80])))
  /\ triggersNotLowered
       (Trading.updateTicks
          [Trading.setupTradeManagement sampleConfig sampleBuy trailingFivePercent
             (Trading.openPosition sampleBuy 100)] [101; 103])
       (Trading.updateTicks
          [Trading.setupTradeManagement sampleConfig sampleBuy trailingFivePercent
             (Trading.openPosition sampleBuy 100)] ([101; 103] ++ [102; 110])).
Proof.
  destruct (trailing_stop_is_monotonic noRisk longPosition [100; 110] [106; 120]
              sampleConfig sampleBuy trailingFivePercent (Trading.openPosition sampleBuy 100)
              [])
    as (Hlong & _ & _ & _).
  destruct (trailing_stop_is_monotonic noRisk shortPosition [100; 90] [94; 80]
              sampleConfig sampleBuy trailingFivePercent (Trading.openPosition sampleBuy 100)
              [])
    as (_ & Hshort & _ & _).
  destruct (trailing_stop_is_monotonic noRisk longPosition [101; 103] [102; 110]
              sampleConfig sampleBuy trailingFivePercent (Trading.openPosition sampleBuy 100)
              [Trading.setupTradeManagement sampleConfig sampleBuy trailingFivePercent
                 (Trading.openPosition sampleBuy 100)])
    as (_ & _ & Hsetup & Hticks).
  split; [|split].
  - apply Hlong. reflexivity.
  - apply Hshort. discriminate.
  - apply Hticks. constructor; [|constructor].
    apply Hsetup.
    + reflexivity.
    + intros pct [= <-]. discriminate.
Defined.

(** The stop of the long position over the ticks 100, 110, 106, 120: it
    stays at 95, moves to 105, stays, and moves to 115. *)
Example monitorTicks_long_stops :
  map (fun n => Monitor.stopLoss (Monitor.monitorTicks noRisk longPosition
                                    (take n [100; 110; 106; 120])))
      [1; 2; 3; 4]%nat
  = [Some 95; Some (110 - 5); Some (110 - 5); Some (120 - 5)].
Proof. reflexivity. Qed.

(** The trigger of the 5% trailing stop of a BUY at 100 over the ticks
    101, 103, 102, 110: 95.95, 97.85, 97.85, and 97.85 again, the tick 110
    being above the take-profit at 104, where [executeSmartTrade] throws
    before the ratchet. *)
Example updateTicks_triggers :
  map (fun n => triggers
                  (Trading.updateTicks
                     [Trading.setupTradeManagement sampleConfig sampleBuy trailingFivePercent
                        (Trading.openPosition sampleBuy 100)]
                     (take n [101; 103; 102; 110])))
      [1; 2; 3; 4]%nat
  = [[Some (101 * (1 - (5 # 100)))]; [Some (103 * (1 - (5 # 100)))];
     [Some (103 * (1 - (5 # 100)))]; [Some (103 * (1 - (5 # 100)))]].
Proof. reflexivity. Qed.

End PositionFacts.

Module TradingFacts.
Import Trading.

Definition flatCandle : Candle :=
  {| timestamp := 0; open := 100; high := 101; low := 99; close := 100; candleVolume := 10 |}.

(** The claim of C6 fails at the entry point: a window of 10 candles is
    shorter than the period of each momentum indicator, and
    [calculateIndicators] throws on it. *)
Lemma calculateIndicators_short_window_throws :
  (length (repeat flatCandle 10) < Pos.to_nat RSI_PERIOD)%nat
  /\ (length (repeat flatCandle 10) < Pos.to_nat MACD_SLOW)%nat
  /\ (length (repeat flatCandle 10) < Pos.to_nat STOCH_PERIOD)%nat
  /\ calculateIndicators (repeat flatCandle 10) noOptions
     = Thrown (ValidationError "Insufficient data for technical analysis").
Proof. repeat split; vm_compute; lia. Qed.

(** C6, amended. Each momentum indicator returns its neutral value on a
    window shorter than its period, and does not throw: the RSI gives 50
    on at most [period] closes, the MACD gives zeros on fewer closes than
    the slow period, the stochastic gives 50/50 on fewer closes than its
    period.  The entry point [calculateIndicators] does not degrade: on
    fewer than 20 candles it throws a [ValidationError]. *)
Theorem short_windows_neutral_or_rejected :
  (forall closes period,
     (length closes < Pos.to_nat period + 1)%nat ->
     calculateRSI closes period = neutralRsi
     /\ current neutralRsi = Some 50 /\ previous neutralRsi = Some 50)
  /\ (forall closes fastPeriod slowPeriod signalPeriod,
        (length closes < Pos.to_nat slowPeriod)%nat ->
        calculateMACD closes fastPeriod slowPeriod signalPeriod = neutralMacd
        /\ macd neutralMacd = 0 /\ signal neutralMacd = 0 /\ histogram neutralMacd = 0)
  /\ (forall highs lows closes period,
        (length closes < Pos.to_nat period)%nat ->
        calculateStochastic highs lows closes period = neutralStochastic
        /\ k neutralStochastic = JS.Fin 50 /\ d neutralStochastic = JS.Fin 50)
  /\ (forall data options,
        (length data < 20)%nat ->
        calculateIndicators data options
        = Thrown (ValidationError "Insufficient data for technical analysis")).
Proof.
  repeat split.
  - unfold calculateRSI. apply Nat.ltb_lt in H. rewrite H. reflexivity.
  - unfold calculateMACD. apply Nat.ltb_lt in H. rewrite H. reflexivity.
  - unfold calculateStochastic. apply Nat.ltb_lt in H. rewrite H. reflexivity.
  - intros data options H. unfold calculateIndicators.
    apply Nat.ltb_lt in H. rewrite H. reflexivity.
Qed.

(** Ten closes: the three indicators are neutral. *)
Example indicators_on_ten_closes :
  let closes := repeat 100 10 in
  calculateRSI closes RSI_PERIOD = neutralRsi
  /\ calculateMACD closes MACD_FAST MACD_SLOW MACD_SIGNAL = neutralMacd
  /\ calculateStochastic (repeat 101 10) (repeat 99 10) closes STOCH_PERIOD
     = neutralStochastic.
Proof. repeat split. Qed.

(** Twenty candles pass the guard; the MACD, whose slow period is 26,
    is still neutral. *)
Example calculateIndicators_twenty_candles :
  macdResult <$> match calculateIndicators (repeat flatCandle 20) noOptions with
                 | Return m => Some m
                 | Thrown _ => None
                 end
  = Some neutralMacd.
Proof. vm_compute. reflexivity. Qed.

End TradingFacts.

(** * The rest of the risk manager *)

Module RiskReports.
Import Risk.

Definition isWithinRiskLimits (rm : RiskManager) : bool :=
  let dailyLossLimit := maxDailyLoss (config rm) * portfolioValue rm in
  let maxDrawdownLimit := maxDrawdown (config rm) in
  let currentDrawdown := calculateDrawdown rm in
  JS.ltb (- dailyLossLimit) (totalPnL (dailyStats rm))
  && JS.ltb currentDrawdown maxDrawdownLimit
  && JS.ltb (inject_Z (Z.of_nat (size (openPositions rm)))) (maxOpenPositions (config rm)).

Record RiskMetrics := {
  m_portfolioValue : Q;
  m_dailyPnL : Q;
  m_dailyPnLPercentage : Q;
  m_drawdown : Q;
  m_openPositions : nat;
  m_maxOpenPositions : Q;
  m_dailyTrades : nat;
  m_winRate : Q;
  m_isWithinRiskLimits : bool
}.

Definition ofNat (n : nat) : Q := inject_Z (Z.of_nat n).

Definition getRiskMetrics (rm : RiskManager) : RiskMetrics :=
  let drawdown := calculateDrawdown rm in
  let winRate :=
    if Nat.ltb 0 (tradesCount (dailyStats rm))
    then ofNat (winningTrades (dailyStats rm)) / ofNat (tradesCount (dailyStats rm))
    else 0 in
  {| m_portfolioValue := portfolioValue rm;
     m_dailyPnL := totalPnL (dailyStats rm);
     m_dailyPnLPercentage :=
       if JS.ltb 0 (portfolioValue rm)
       then totalPnL (dailyStats rm) / portfolioValue rm * 100 else 0;
     m_drawdown := drawdown * 100;
     m_openPositions := size (openPositions rm);
     m_maxOpenPositions := maxOpenPositions (config rm);
     m_dailyTrades := tradesCount (dailyStats rm);
     m_winRate := winRate * 100;
     m_isWithinRiskLimits := isWithinRiskLimits rm |}.

(** The reasons listed by [getEmergencyStopSignal]. *)
Inductive StopReason :=
| DailyLossLimit
| MaximumDrawdown (percent : Q)
| ConsecutiveLosingTrades.

Record EmergencyStop := {
  shouldStop : bool;
  stopReasons : list StopReason;
  riskMetrics : RiskMetrics
}.

Definition getEmergencyStopSignal (rm : RiskManager) : EmergencyStop :=
  let reasons1 :=
    if JS.leb (totalPnL (dailyStats rm)) (- maxDailyLoss (config rm) * portfolioValue rm)
    then [DailyLossLimit] else [] in
  let currentDrawdown := calculateDrawdown rm in
  let reasons2 :=
    if JS.leb (maxDrawdown (config rm)) currentDrawdown
    then reasons1 ++ [MaximumDrawdown (currentDrawdown * 100)] else reasons1 in
  let reasons :=
    if Nat.leb 5 (losingTrades (dailyStats rm)) && Nat.eqb (winningTrades (dailyStats rm)) 0
    then reasons2 ++ [ConsecutiveLosingTrades] else reasons2 in
  {| shouldStop := Nat.ltb 0 (length reasons);
     stopReasons := reasons;
     riskMetrics := getRiskMetrics rm |}.

(** A call of a method that changes the manager. *)
Inductive Call :=
| UpdatePortfolioValue (value : Q)
| RegisterPosition (clk : Clock) (p : Position)
| ClosePosition (clk : Clock) (positionId : string) (exitPrice realizedPnL : Q)
| ValidateTrade (clk : Clock) (t : TradeParams).

Definition perform (rm : RiskManager) (c : Call) : RiskManager :=
  match c with
  | UpdatePortfolioValue value => updatePortfolioValue rm value
  | RegisterPosition clk p => registerPosition rm clk p
  | ClosePosition clk positionId exitPrice realizedPnL =>
      closePosition rm clk positionId exitPrice realizedPnL
  | ValidateTrade clk t => fst (validateTrade rm clk t)
  end.

(** The manager built by the constructor, after the calls in order. *)
Definition after (c : ConfigInput) (clk : Clock) (calls : list Call) : RiskManager :=
  fold_left perform calls (constructor c clk).

End RiskReports.

Module RiskReportsFacts.
Import Risk ValidateTradeSpec RiskReports.

(** *** Limits, emergency stop and validation *)

Lemma isWithinRiskLimits_checks rm clk t :
  isWithinRiskLimits rm = true <->
  openPositionsLimit rm clk t = None /\ dailyLossLimit rm clk t = None
  /\ drawdownLimit rm clk t = None.
Proof.
  unfold isWithinRiskLimits, openPositionsLimit, dailyLossLimit, drawdownLimit, tradingError.
  rewrite !andb_true_iff.
  destruct (JS.leb (maxOpenPositions (config rm)) _) eqn:E1;
    destruct (JS.leb (totalPnL (dailyStats rm)) _) eqn:E2;
    destruct (JS.leb (maxDrawdown (config rm)) _) eqn:E3;
    rewrite !JSFacts.ltb_lt; js_props;
    (split; [intros [[H1 H2] H3] | intros (H1 & H2 & H3)]);
    try discriminate; try (repeat split; reflexivity); lra.
Qed.

(** On the same day a violated check on the state rejects the trade. *)
Lemma state_check_rejects (check : Check) rm clk t e :
  lastResetDate (dailyStats rm) = today clk ->
  check ∈ [openPositionsLimit; dailyLossLimit; drawdownLimit] ->
  check rm clk t = Some e ->
  isValid (snd (validateTrade rm clk t)) = false.
Proof.
  intros Hday Hin He.
  apply (RiskFacts.validateTrade_rejects_of_check check rm clk t e).
  - apply list_elem_of_In. apply list_elem_of_In in Hin.
    unfold checksInOrder. cbn [In] in *. tauto.
  - rewrite (RiskFacts.resetDailyStatsIfNewDay_same_day _ _ Hday). exact He.
Qed.

(** X1. On the same calendar day, a manager that reports itself outside
    its risk limits rejects every trade; one that reports itself within
    them passes the three checks on its state (open positions, daily
    loss, drawdown), whatever the trade. *)
Theorem outside_risk_limits_rejects rm clk t :
  lastResetDate (dailyStats rm) = today clk ->
  (isWithinRiskLimits rm = false -> isValid (snd (validateTrade rm clk t)) = false)
  /\ (isWithinRiskLimits rm = true ->
      openPositionsLimit rm clk t = None /\ dailyLossLimit rm clk t = None
      /\ drawdownLimit rm clk t = None).
Proof.
  intros Hday. split; [|apply isWithinRiskLimits_checks].
  intros Hout.
  destruct (openPositionsLimit rm clk t) as [e|] eqn:E1.
  { apply (state_check_rejects openPositionsLimit rm clk t e Hday); [|exact E1].
    apply list_elem_of_In. cbn [In]. tauto. }
  destruct (dailyLossLimit rm clk t) as [e|] eqn:E2.
  { apply (state_check_rejects dailyLossLimit rm clk t e Hday); [|exact E2].
    apply list_elem_of_In. cbn [In]. tauto. }
  destruct (drawdownLimit rm clk t) as [e|] eqn:E3.
  { apply (state_check_rejects drawdownLimit rm clk t e Hday); [|exact E3].
    apply list_elem_of_In. cbn [In]. tauto. }
  assert (isWithinRiskLimits rm = true)
    by (apply (isWithinRiskLimits_checks rm clk t); rewrite E1, E2, E3; auto).
  congruence.
Qed.

Lemma outside_risk_limits_witness :
  isValid (snd (validateTrade RiskFacts.managerAfterLoss RiskFacts.sampleClock
                  RiskFacts.sampleTrade)) = false.
Proof.
  apply (outside_risk_limits_rejects RiskFacts.managerAfterLoss RiskFacts.sampleClock
           RiskFacts.sampleTrade); [reflexivity | vm_compute; reflexivity].
Defined.

Lemma stopReasons_daily rm :
  In DailyLossLimit (stopReasons (getEmergencyStopSignal rm)) <->
  JS.leb (totalPnL (dailyStats rm)) (- maxDailyLoss (config rm) * portfolioValue rm) = true.
Proof.
  unfold getEmergencyStopSignal. cbn [stopReasons].
  destruct (JS.leb (totalPnL _) _); destruct (JS.leb (maxDrawdown _) _);
    destruct (_ && _); cbn; intuition discriminate.
Qed.

Lemma stopReasons_drawdown rm :
  (exists percent, In (MaximumDrawdown percent) (stopReasons (getEmergencyStopSignal rm))) <->
  JS.leb (maxDrawdown (config rm)) (calculateDrawdown rm) = true.
Proof.
  unfold getEmergencyStopSignal. cbn [stopReasons].
  destruct (JS.leb (totalPnL _) _); destruct (JS.leb (maxDrawdown _) _);
    destruct (_ && _); cbn; split;
    first [ reflexivity | discriminate | solve [eauto]
          | intros [percent H]; intuition discriminate ].
Qed.

(** X2. On the same calendar day, an emergency stop raised for the daily
    loss or for the drawdown goes with the rejection of every trade; and
    when no emergency stop is raised, the daily-loss and the drawdown
    checks of [validateTrade] pass. *)
Theorem emergency_stop_and_validation rm clk t :
  lastResetDate (dailyStats rm) = today clk ->
  ((In DailyLossLimit (stopReasons (getEmergencyStopSignal rm))
    \/ exists percent,
         In (MaximumDrawdown percent) (stopReasons (getEmergencyStopSignal rm))) ->
   isValid (snd (validateTrade rm clk t)) = false)
  /\ (shouldStop (getEmergencyStopSignal rm) = false ->
      dailyLossLimit rm clk t = None /\ drawdownLimit rm clk t = None).
Proof.
  intros Hday. split.
  - intros [Hdaily | Hdrawdown].
    + apply stopReasons_daily in Hdaily.
      apply (state_check_rejects dailyLossLimit rm clk t
               {| errorType := TradingError; message := DailyLossLimitExceeded |} Hday).
      * apply list_elem_of_In. cbn [In]. tauto.
      * unfold dailyLossLimit, tradingError. rewrite Hdaily. reflexivity.
    + apply stopReasons_drawdown in Hdrawdown.
      apply (state_check_rejects drawdownLimit rm clk t
               {| errorType := TradingError;
                  message := MaximumDrawdownExceeded (calculateDrawdown rm * 100) |} Hday).
      * apply list_elem_of_In. cbn [In]. tauto.
      * unfold drawdownLimit, tradingError. rewrite Hdrawdown. reflexivity.
  - unfold getEmergencyStopSignal, dailyLossLimit, drawdownLimit, tradingError.
    cbn [shouldStop].
    destruct (JS.leb (totalPnL _) _); destruct (JS.leb (maxDrawdown _) _);
      destruct (_ && _); cbn; intros H; try discriminate; auto.
Qed.

Lemma emergency_stop_witness :
  isValid (snd (validateTrade RiskFacts.managerAfterLoss RiskFacts.sampleClock
                  RiskFacts.sampleTrade)) = false.
Proof.
  apply (emergency_stop_and_validation RiskFacts.managerAfterLoss RiskFacts.sampleClock
           RiskFacts.sampleTrade); [reflexivity | left; vm_compute; tauto].
Defined.

(** *** What every reachable manager satisfies *)

Lemma eqb_neq x y : JS.eqb x y = false -> ~ x == y.
Proof. intros H E. apply JSFacts.eqb_eq in E. congruence. Qed.

Lemma max_ge_l x y : x <= JS.max x y.
Proof.
  unfold JS.max. destruct (JS.leb x y) eqn:E; js_props; [exact E | apply Qle_refl].
Qed.

Lemma max_ge_r x y : y <= JS.max x y.
Proof.
  unfold JS.max. destruct (JS.leb x y) eqn:E; js_props;
    [apply Qle_refl | apply Qlt_le_weak, E].
Qed.

(** The peak is at least the portfolio value and is not negative; the
    trades of the day are the winning and the losing ones. *)
Definition consistent (rm : RiskManager) : Prop :=
  portfolioValue rm <= peakPortfolioValue rm
  /\ 0 <= peakPortfolioValue rm
  /\ tradesCount (dailyStats rm)
     = (winningTrades (dailyStats rm) + losingTrades (dailyStats rm))%nat.

Lemma constructor_consistent c clk : consistent (constructor c clk).
Proof. repeat split; cbn; try apply Qle_refl. Qed.

Lemma perform_consistent rm call : consistent rm -> consistent (perform rm call).
Proof.
  intros (Hpeak & Hpos & Hcount). destruct call as [value | clk p | clk pid ex pnl | clk t].
  - repeat split; cbn; [apply max_ge_r | | exact Hcount].
    eapply Qle_trans; [exact Hpos | apply max_ge_l].
  - repeat split; assumption.
  - cbn [perform]. unfold closePosition.
    destruct (openPositions rm !! pid); [|repeat split; assumption].
    repeat split; cbn.
    + apply max_ge_r.
    + eapply Qle_trans; [exact Hpos | apply max_ge_l].
    + destruct (JS.ltb 0 pnl); lia.
  - cbn [perform validateTrade fst]. unfold resetDailyStatsIfNewDay.
    destruct (negb _); repeat split; assumption.
Qed.

Lemma after_consistent c clk calls : consistent (after c clk calls).
Proof.
  unfold after. generalize (constructor_consistent c clk).
  generalize (constructor c clk) as rm. induction calls as [|call calls IH]; intros rm H.
  - exact H.
  - cbn [fold_left]. apply IH, perform_consistent, H.
Qed.

(** X3. Whatever methods are called after the constructor, the portfolio
    value never exceeds the recorded peak, and the drawdown is never
    negative; it is at most 1 as long as the portfolio value is not
    negative. *)
Theorem drawdown_is_bounded c clk calls :
  let rm := after c clk calls in
  portfolioValue rm <= peakPortfolioValue rm
  /\ 0 <= calculateDrawdown rm
  /\ (0 <= portfolioValue rm -> calculateDrawdown rm <= 1).
Proof.
  cbn zeta. destruct (after_consistent c clk calls) as (Hpeak & Hpos & _).
  split; [exact Hpeak|].
  unfold calculateDrawdown.
  destruct (JS.eqb (peakPortfolioValue (after c clk calls)) 0) eqn:E.
  - split; [apply Qle_refl | intros _; discriminate].
  - apply eqb_neq in E.
    assert (Hlt : 0 < peakPortfolioValue (after c clk calls)).
    { apply Qle_lteq in Hpos. destruct Hpos as [H | H]; [exact H|].
      exfalso. apply E. symmetry. exact H. }
    split.
    + apply Qle_shift_div_l; [exact Hlt | lra].
    + intros Hvalue. apply Qle_shift_div_r; [exact Hlt | lra].
Qed.

(** X4. Whatever methods are called after the constructor, the trades of
    the day are exactly the winning plus the losing ones, and the win rate
    reported by [getRiskMetrics] lies between 0 and 100. *)
Theorem daily_counters_add_up c clk calls :
  let rm := after c clk calls in
  tradesCount (dailyStats rm)
  = (winningTrades (dailyStats rm) + losingTrades (dailyStats rm))%nat
  /\ 0 <= m_winRate (getRiskMetrics rm) <= 100.
Proof.
  cbn zeta. destruct (after_consistent c clk calls) as (_ & _ & Hcount).
  split; [exact Hcount|].
  unfold getRiskMetrics. cbn [m_winRate].
  set (d := dailyStats (after c clk calls)) in *.
  destruct (Nat.ltb 0 (tradesCount d)) eqn:E; [|split; discriminate].
  apply Nat.ltb_lt in E.
  assert (Ht : 0 < ofNat (tradesCount d)).
  { unfold ofNat. rewrite <- (Zlt_Qlt 0). lia. }
  assert (Hw : 0 <= ofNat (winningTrades d)).
  { unfold ofNat. rewrite <- (Zle_Qle 0). lia. }
  assert (Hwt : ofNat (winningTrades d) <= ofNat (tradesCount d)).
  { unfold ofNat. rewrite <- Zle_Qle. lia. }
  assert (H0 : 0 <= ofNat (winningTrades d) / ofNat (tradesCount d)).
  { apply Qle_shift_div_l; [exact Ht | lra]. }
  assert (H1 : ofNat (winningTrades d) / ofNat (tradesCount d) <= 1).
  { apply Qle_shift_div_r; [exact Ht | lra]. }
  split; lra.
Qed.

(** *** Opening and closing positions *)

Lemma resetDailyStatsIfNewDay_lastTradeTime rm clk :
  lastTradeTime (resetDailyStatsIfNewDay rm clk) = lastTradeTime rm.
Proof. unfold resetDailyStatsIfNewDay. destruct (negb _); reflexivity. Qed.

Lemma closePosition_lastTradeTime rm clk positionId exitPrice realizedPnL position :
  openPositions rm !! positionId = Some position ->
  lastTradeTime (closePosition rm clk positionId exitPrice realizedPnL)
  = <[symbol position := now clk]> (lastTradeTime rm).
Proof. intros H. unfold closePosition. rewrite H. reflexivity. Qed.

(** X5. After a position is closed (at a time stamp that is not 0), a
    trade in the same symbol with its required fields present is rejected
    for the cooldown as long as less than [cooldownPeriod] milliseconds
    have passed; from then on the symbol is no longer in cooldown. *)
Theorem closed_symbol_cools_down
    rm clk positionId exitPrice realizedPnL position clk' t :
  openPositions rm !! positionId = Some position ->
  now clk <> 0%Z ->
  tp_symbol t = Some (symbol position) ->
  requiredFields rm clk' t = None ->
  let closed := closePosition rm clk positionId exitPrice realizedPnL in
  (inject_Z (now clk' - now clk) < cooldownPeriod (config rm) ->
   snd (validateTrade closed clk' t)
   = Invalid (SymbolInCooldown (symbol position)) TradingError)
  /\ (cooldownPeriod (config rm) <= inject_Z (now clk' - now clk) ->
      isSymbolInCooldown closed clk' (symbol position) = false).
Proof.
  intros Hopen Hnow Hsymbol Hreq closed.
  assert (Hcool : forall rm', lastTradeTime rm' = lastTradeTime closed ->
                    config rm' = config rm ->
                    isSymbolInCooldown rm' clk' (symbol position)
                    = JS.ltb (inject_Z (now clk' - now clk)) (cooldownPeriod (config rm))).
  { intros rm' Hlast Hconfig. unfold isSymbolInCooldown. rewrite Hlast. unfold closed.
    rewrite (closePosition_lastTradeTime _ _ _ _ _ _ Hopen), lookup_insert_eq.
    apply Z.eqb_neq in Hnow. rewrite Hnow, Hconfig. reflexivity. }
  assert (Hconfig : config closed = config rm).
  { unfold closed, closePosition. rewrite Hopen. reflexivity. }
  split.
  - intros Hearly. rewrite RiskFacts.validateTrade_eq_failFast. unfold failFast. cbn [snd].
    unfold firstViolation, checksInOrder. cbn [omap list_omap].
    change (requiredFields (resetDailyStatsIfNewDay closed clk') clk' t)
      with (requiredFields rm clk' t).
    rewrite Hreq. unfold symbolCooldown at 1. rewrite Hsymbol. cbn [default from_option].
    unfold Datatypes.id.
    rewrite (Hcool (resetDailyStatsIfNewDay closed clk')).
    + apply JSFacts.ltb_lt in Hearly. rewrite Hearly. reflexivity.
    + apply resetDailyStatsIfNewDay_lastTradeTime.
    + rewrite RiskFacts.resetDailyStatsIfNewDay_config. exact Hconfig.
  - intros Hlate. rewrite (Hcool closed eq_refl Hconfig).
    apply JSFacts.ltb_nlt. exact Hlate.
Qed.

Definition ethPosition : Position :=
  {| id := "p1"; symbol := "ETH/USDT"; side := "buy"; amount := 1;
     entryPrice := 2000; stopLoss := Some 1900; takeProfit := Some 2200;
     openTime := 0; unrealizedPnL := 0 |}.

Definition ethTrade : TradeParams :=
  {| tp_symbol := Some "ETH/USDT"; tp_side := Some "buy"; tp_amount := Some (1 # 10);
     tp_price := Some 2000; tp_leverage := None;
     tp_stopLoss := Some 1900; tp_takeProfit := Some 2200 |}.

Definition oneMinuteLater : Clock :=
  {| now := 1700000060000; today := "Tue Nov 14 2023" |}.

Lemma closed_symbol_cools_down_witness :
  snd (validateTrade
         (closePosition
            (registerPosition RiskFacts.sampleManager RiskFacts.sampleClock ethPosition)
            RiskFacts.sampleClock "p1" 2100 100)
         oneMinuteLater ethTrade)
  = Invalid (SymbolInCooldown "ETH/USDT") TradingError.
Proof.
  apply (closed_symbol_cools_down
           (registerPosition RiskFacts.sampleManager RiskFacts.sampleClock ethPosition)
           RiskFacts.sampleClock "p1" 2100 100
           {| id := "p1"; symbol := "ETH/USDT"; side := "buy"; amount := 1;
              entryPrice := 2000; stopLoss := Some 1900; takeProfit := Some 2200;
              openTime := now RiskFacts.sampleClock; unrealizedPnL := 0 |}
           oneMinuteLater ethTrade).
  - vm_compute. reflexivity.
  - discriminate.
  - reflexivity.
  - reflexivity.
  - reflexivity.
Defined.

(** X6. Closing a position that was just registered under a fresh id
    restores the open positions; the realized P&L is added to the daily
    P&L and to the portfolio value, the trade is counted, and the cooldown
    of its symbol starts at the time of the close. *)
Theorem register_then_close rm clk clk' p exitPrice realizedPnL :
  openPositions rm !! id p = None ->
  let closed := closePosition (registerPosition rm clk p) clk' (id p) exitPrice realizedPnL in
  openPositions closed = openPositions rm
  /\ totalPnL (dailyStats closed) = totalPnL (dailyStats rm) + realizedPnL
  /\ tradesCount (dailyStats closed) = S (tradesCount (dailyStats rm))
  /\ portfolioValue closed = portfolioValue rm + realizedPnL
  /\ lastTradeTime closed !! symbol p = Some (now clk').
Proof.
  intros Hfresh closed. unfold closed, closePosition, registerPosition.
  cbn [openPositions]. rewrite lookup_insert_eq.
  cbn [openPositions dailyStats totalPnL tradesCount portfolioValue lastTradeTime symbol].
  rewrite delete_insert_eq, (delete_id _ _ Hfresh), lookup_insert_eq. repeat split.
Qed.

Lemma register_then_close_witness :
  let closed :=
    closePosition
      (registerPosition RiskFacts.sampleManager RiskFacts.sampleClock ethPosition)
      oneMinuteLater (id ethPosition) 2100 100 in
  openPositions closed = openPositions RiskFacts.sampleManager
  /\ totalPnL (dailyStats closed) = totalPnL (dailyStats RiskFacts.sampleManager) + 100
  /\ tradesCount (dailyStats closed) = S (tradesCount (dailyStats RiskFacts.sampleManager))
  /\ portfolioValue closed = portfolioValue RiskFacts.sampleManager + 100
  /\ lastTradeTime closed !! symbol ethPosition = Some (now oneMinuteLater).
Proof.
  apply (register_then_close RiskFacts.sampleManager RiskFacts.sampleClock oneMinuteLater
           ethPosition 2100 100).
  reflexivity.
Defined.

(** X7. A position cannot be closed twice: a second [closePosition] with
    the same id, and any close of an id that is not open, leaves the whole
    manager as it is, daily statistics and portfolio value included. *)
Theorem closePosition_only_once rm clk clk' positionId exitPrice realizedPnL exitPrice' realizedPnL' :
  let closed := closePosition rm clk positionId exitPrice realizedPnL in
  closePosition closed clk' positionId exitPrice' realizedPnL' = closed.
Proof.
  cbn zeta. unfold closePosition at 1.
  assert (H : openPositions (closePosition rm clk positionId exitPrice realizedPnL)
              !! positionId = None).
  { unfold closePosition. destruct (openPositions rm !! positionId) eqn:E; [|exact E].
    cbn [openPositions]. apply lookup_delete_eq. }
  rewrite H. reflexivity.
Qed.

(** *** Accepted trades *)

(** An accepted trade passes every check, and the answer carries the
    values computed from it. *)
Lemma accepted_passes_all rm clk t :
  isValid (snd (validateTrade rm clk t)) = true ->
  let rm' := resetDailyStatsIfNewDay rm clk in
  Forall (fun check : Check => check rm' clk t = None) checksInOrder
  /\ snd (validateTrade rm clk t)
     = Valid (calculateOptimalPositionSize rm' (default 0 (tp_price t)) (tp_stopLoss t)
                (default 0 (tp_amount t)))
             (tradeRiskReward t) (calculateDrawdown rm').
Proof.
  rewrite RiskFacts.validateTrade_eq_failFast. unfold failFast. cbn [snd].
  destruct (firstViolation _ clk t) eqn:E; [discriminate|]. intros _.
  split; [apply RiskFacts.firstViolation_None, E | reflexivity].
Qed.

(** With a positive minimal ratio, a ratio that reaches it comes from a
    stop-loss on the losing side and a take-profit on the winning side. *)
Lemma calculateRiskRewardRatio_positive entry stopLoss takeProfit side :
  0 < calculateRiskRewardRatio entry stopLoss takeProfit side ->
  exists sl tp,
    stopLoss = Some sl /\ takeProfit = Some tp
    /\ (if String.eqb (JS.toLowerCase side) "buy"
        then sl < entry /\ entry < tp else tp < entry /\ entry < sl).
Proof.
  unfold calculateRiskRewardRatio.
  destruct stopLoss as [sl|], takeProfit as [tp|]; try (intros H; discriminate H).
  destruct (_ || _); [intros H; discriminate H|].
  intros H. exists sl, tp. split; [reflexivity|]. split; [reflexivity|].
  destruct (String.eqb (JS.toLowerCase side) "buy").
  - destruct (JS.ltb 0 (entry - sl)) eqn:E; [|discriminate H]. js_props.
    assert (Hreward : 0 < (tp - entry) / (entry - sl) * (entry - sl))
      by (apply Qmult_lt_0_compat; assumption).
    rewrite Qmult_comm, Qmult_div_r in Hreward by lra. lra.
  - destruct (JS.ltb 0 (sl - entry)) eqn:E; [|discriminate H]. js_props.
    assert (Hreward : 0 < (entry - tp) / (sl - entry) * (sl - entry))
      by (apply Qmult_lt_0_compat; assumption).
    rewrite Qmult_comm, Qmult_div_r in Hreward by lra. lra.
Qed.

Lemma accepted_ratio_positive rm clk t :
  0 < minRiskRewardRatio (config rm) ->
  isValid (snd (validateTrade rm clk t)) = true ->
  0 < tradeRiskReward t.
Proof.
  intros Hmin Hvalid. destruct (accepted_passes_all rm clk t Hvalid) as [Hall _].
  rewrite List.Forall_forall in Hall.
  assert (Hrr : riskRewardMinimum (resetDailyStatsIfNewDay rm clk) clk t = None).
  { apply Hall. unfold checksInOrder. cbn [In]. tauto. }
  unfold riskRewardMinimum in Hrr. rewrite RiskFacts.resetDailyStatsIfNewDay_config in Hrr.
  destruct (JS.ltb (tradeRiskReward t) _) eqn:E; [discriminate|]. js_props. lra.
Qed.

(** X8. With a positive [minRiskRewardRatio], every accepted trade has a
    stop-loss and a take-profit on the right sides of its entry price:
    below and above it for a buy, above and below it for any other side. *)
Theorem accepted_trade_levels rm clk t :
  0 < minRiskRewardRatio (config rm) ->
  isValid (snd (validateTrade rm clk t)) = true ->
  exists sl tp,
    tp_stopLoss t = Some sl /\ tp_takeProfit t = Some tp
    /\ let price := default 0 (tp_price t) in
       if String.eqb (JS.toLowerCase (default "" (tp_side t))) "buy"
       then sl < price /\ price < tp else tp < price /\ price < sl.
Proof.
  intros Hmin Hvalid.
  apply (calculateRiskRewardRatio_positive (default 0 (tp_price t)) (tp_stopLoss t)
           (tp_takeProfit t) (default "" (tp_side t))).
  exact (accepted_ratio_positive rm clk t Hmin Hvalid).
Qed.

Lemma accepted_trade_levels_witness :
  exists sl tp,
    tp_stopLoss RiskFacts.sampleTrade = Some sl /\ tp_takeProfit RiskFacts.sampleTrade = Some tp
    /\ let price := default 0 (tp_price RiskFacts.sampleTrade) in
       if String.eqb (JS.toLowerCase (default "" (tp_side RiskFacts.sampleTrade))) "buy"
       then sl < price /\ price < tp else tp < price /\ price < sl.
Proof.
  apply (accepted_trade_levels RiskFacts.sampleManager RiskFacts.sampleClock
           (withAmount RiskFacts.sampleTrade (18 # 1000))).
  - reflexivity.
  - vm_compute. reflexivity.
Defined.

(** X9. With a positive [minRiskRewardRatio], the size suggested for an
    accepted trade is a finite number.  The trade has a stop-loss at a
    distance from its entry price that is not zero, so the division by
    that distance is defined; the size is the smaller of the requested
    amount and [portfolioValue * stopLossPercentage] divided by the
    distance, and so at most the requested amount. *)
Theorem accepted_trade_size rm clk t :
  0 < minRiskRewardRatio (config rm) ->
  isValid (snd (validateTrade rm clk t)) = true ->
  exists size sl ratio drawdown,
    snd (validateTrade rm clk t) = Valid (JS.Fin size) ratio drawdown
    /\ tp_stopLoss t = Some sl
    /\ 0 < Qabs (default 0 (tp_price t) - sl)
    /\ size = JS.min (portfolioValue rm * stopLossPercentage (config rm)
                      / Qabs (default 0 (tp_price t) - sl))
                     (default 0 (tp_amount t))
    /\ size <= default 0 (tp_amount t).
Proof.
  intros Hmin Hvalid.
  destruct (accepted_passes_all rm clk t Hvalid) as [_ Hresult].
  pose proof (accepted_ratio_positive rm clk t Hmin Hvalid) as Hratio.
  unfold tradeRiskReward in Hratio.
  set (price := default 0 (tp_price t)) in *.
  set (amount := default 0 (tp_amount t)) in *.
  destruct (calculateRiskRewardRatio_positive _ _ _ _ Hratio) as (sl & tp & Hsl & Htp & Hside).
  assert (Hrisk : 0 < Qabs (price - sl)).
  { apply Qabs_case; intros H;
      destruct (String.eqb (JS.toLowerCase (default "" (tp_side t))) "buy"); lra. }
  assert (Hstop : JS.truthy (Some sl) = true /\ JS.truthy (Some price) = true).
  { unfold calculateRiskRewardRatio in Hratio. rewrite Hsl, Htp in Hratio.
    destruct (negb (JS.truthy (Some sl))) eqn:E1; [discriminate Hratio|].
    destruct (negb (JS.truthy (Some tp))) eqn:E2; [discriminate Hratio|].
    destruct (negb (JS.truthy (Some price))) eqn:E3; [discriminate Hratio|].
    apply negb_false_iff in E1, E3. auto. }
  destruct Hstop as [Hsltruthy Hpricetruthy].
  set (budget := portfolioValue rm * stopLossPercentage (config rm)).
  exists (JS.min (budget / Qabs (price - sl)) amount), sl, (tradeRiskReward t),
    (calculateDrawdown (resetDailyStatsIfNewDay rm clk)).
  split; [|split; [exact Hsl|split; [exact Hrisk|split; [reflexivity|]]]].
  - rewrite Hresult. f_equal. unfold calculateOptimalPositionSize.
    rewrite Hsl, Hsltruthy, Hpricetruthy. cbn [negb orb].
    rewrite RiskFacts.resetDailyStatsIfNewDay_portfolioValue,
      RiskFacts.resetDailyStatsIfNewDay_config.
    fold budget. unfold JS.div, JS.quot.
    destruct (JS.eqb (Qabs (price - sl)) 0) eqn:E; [|reflexivity].
    js_props. rewrite E in Hrisk. discriminate Hrisk.
  - apply JSFacts.min_le_r.
Qed.

Lemma accepted_trade_size_witness :
  exists size sl ratio drawdown,
    snd (validateTrade RiskFacts.sampleManager RiskFacts.sampleClock
           (withAmount RiskFacts.sampleTrade (18 # 1000)))
    = Valid (JS.Fin size) ratio drawdown
    /\ tp_stopLoss (withAmount RiskFacts.sampleTrade (18 # 1000)) = Some sl
    /\ 0 < Qabs (default 0 (tp_price (withAmount RiskFacts.sampleTrade (18 # 1000))) - sl)
    /\ size = JS.min (portfolioValue RiskFacts.sampleManager
                      * stopLossPercentage (config RiskFacts.sampleManager)
                      / Qabs (default 0 (tp_price (withAmount RiskFacts.sampleTrade
                                                     (18 # 1000))) - sl))
                     (default 0 (tp_amount (withAmount RiskFacts.sampleTrade (18 # 1000))))
    /\ size <= default 0 (tp_amount (withAmount RiskFacts.sampleTrade (18 # 1000))).
Proof.
  apply (accepted_trade_size RiskFacts.sampleManager RiskFacts.sampleClock
           (withAmount RiskFacts.sampleTrade (18 # 1000))).
  - reflexivity.
  - vm_compute. reflexivity.
Defined.

(** *** Validation and the daily roll-over *)

Lemma resetDailyStatsIfNewDay_idempotent rm clk :
  resetDailyStatsIfNewDay (resetDailyStatsIfNewDay rm clk) clk
  = resetDailyStatsIfNewDay rm clk.
Proof.
  destruct (String.eqb (lastResetDate (dailyStats rm)) (today clk)) eqn:E.
  - apply String.eqb_eq in E.
    rewrite !(RiskFacts.resetDailyStatsIfNewDay_same_day rm clk E). reflexivity.
  - apply RiskFacts.resetDailyStatsIfNewDay_same_day.
    unfold resetDailyStatsIfNewDay. rewrite E. reflexivity.
Qed.

(** X10. [validateTrade] registers nothing: it leaves the configuration,
    the open positions, the cooldowns and the portfolio values as they
    are, and validating the same trade again at the same clock gives the
    same answer and changes nothing more. *)
Theorem validateTrade_only_rolls_over rm clk t :
  let rm' := fst (validateTrade rm clk t) in
  config rm' = config rm
  /\ openPositions rm' = openPositions rm
  /\ lastTradeTime rm' = lastTradeTime rm
  /\ portfolioValue rm' = portfolioValue rm
  /\ peakPortfolioValue rm' = peakPortfolioValue rm
  /\ validateTrade rm' clk t = (rm', snd (validateTrade rm clk t)).
Proof.
  cbn zeta. unfold validateTrade at 1 2 3 4 5 6 7. cbn [fst snd].
  repeat split; try (unfold resetDailyStatsIfNewDay; destruct (negb _); reflexivity).
  unfold validateTrade. rewrite resetDailyStatsIfNewDay_idempotent. reflexivity.
Qed.

(** The rejection for the daily loss comes from the daily-loss check. *)
Lemma daily_loss_message rm clk t e :
  dailyLossLimit rm clk t = None ->
  firstViolation rm clk t = Some e ->
  message e <> DailyLossLimitExceeded.
Proof.
  intros Hnone. unfold firstViolation, checksInOrder. cbn [omap list_omap].
  rewrite Hnone.
  unfold requiredFields, symbolCooldown, openPositionsLimit, drawdownLimit,
    positionSizeLimit, leverageLimit, riskRewardMinimum, tradingError.
  repeat match goal with
         | |- context [if ?c then _ else _] => destruct c
         end; cbn [head]; intros [= <-]; discriminate.
Qed.

(** X11. On a new calendar day the daily-loss lock is lifted: the daily
    P&L restarts at 0, and as long as [maxDailyLoss * portfolioValue] is
    positive the answer of [validateTrade] is not the daily-loss
    rejection, however large yesterday's loss was. *)
Theorem new_day_lifts_daily_loss_lock rm clk t :
  lastResetDate (dailyStats rm) <> today clk ->
  0 < maxDailyLoss (config rm) * portfolioValue rm ->
  totalPnL (dailyStats (fst (validateTrade rm clk t))) = 0
  /\ forall type, snd (validateTrade rm clk t) <> Invalid DailyLossLimitExceeded type.
Proof.
  intros Hday Hlimit. apply String.eqb_neq in Hday.
  assert (Hrm : resetDailyStatsIfNewDay rm clk
                = setDailyStats rm
                    {| totalPnL := 0; tradesCount := 0; winningTrades := 0;
                       losingTrades := 0; lastResetDate := today clk |}).
  { unfold resetDailyStatsIfNewDay. rewrite Hday. reflexivity. }
  split.
  - unfold validateTrade. cbn [fst]. rewrite Hrm. reflexivity.
  - intros type. rewrite RiskFacts.validateTrade_eq_failFast. unfold failFast. cbn [snd].
    destruct (firstViolation _ clk t) as [e|] eqn:E; [|discriminate].
    intros [= Hmessage _]. revert Hmessage.
    apply (daily_loss_message (resetDailyStatsIfNewDay rm clk) clk t e); [|exact E].
    rewrite Hrm. unfold dailyLossLimit. cbn [dailyStats setDailyStats totalPnL config
                                             portfolioValue].
    destruct (JS.leb 0 _) eqn:E0; [|reflexivity]. js_props. lra.
Qed.

Definition nextDay : Clock := {| now := 1700086400000; today := "Wed Nov 15 2023" |}.

Lemma new_day_lifts_daily_loss_lock_witness :
  totalPnL (dailyStats (fst (validateTrade RiskFacts.managerAfterLoss nextDay
                               RiskFacts.sampleTrade))) = 0
  /\ forall type,
       snd (validateTrade RiskFacts.managerAfterLoss nextDay RiskFacts.sampleTrade)
       <> Invalid DailyLossLimitExceeded type.
Proof.
  apply (new_day_lifts_daily_loss_lock RiskFacts.managerAfterLoss nextDay
           RiskFacts.sampleTrade).
  - discriminate.
  - reflexivity.
Defined.

End RiskReportsFacts.

(** * More on the signal generator *)

Module EmittedSignalsFacts.
Import Signals ConsensusSpec ScorerSpec.

(** *** Tags and reasons *)

(** An analyser leaves the tags and the reasons alone or adds one of each. *)
Definition grownBy (n : nat) (c c' : Components) : Prop :=
  length (c_indicators c') = (length (c_indicators c) + n)%nat
  /\ length (c_reasons c') = (length (c_reasons c) + n)%nat.

Definition oneMore (c c' : Components) : Prop := grownBy 0 c c' \/ grownBy 1 c c'.

Ltac grown :=
  unfold oneMore, grownBy;
  repeat match goal with
         | |- context [if ?c then _ else _] => destruct c
         | |- context [match direction ?p with _ => _ end] => destruct (direction p)
         end;
  cbn [snd push setDirection setConfidence c_indicators c_reasons];
  rewrite ?length_app; cbn [length]; lia.

Lemma analyzeMlPrediction_grows p c : oneMore c (snd (analyzeMlPrediction p c)).
Proof. unfold analyzeMlPrediction. grown. Qed.

Lemma analyzeRSI_grows r c : oneMore c (snd (analyzeRSI r c)).
Proof. unfold analyzeRSI. grown. Qed.

Lemma analyzeMacd_grows m c : oneMore c (snd (analyzeMacd m c)).
Proof. unfold analyzeMacd. grown. Qed.

Lemma analyzeMovingAverages_grows i price c :
  oneMore c (snd (analyzeMovingAverages i price c)).
Proof. unfold analyzeMovingAverages. grown. Qed.

Lemma analyzeBollingerBands_grows b price c :
  oneMore c (snd (analyzeBollingerBands b price c)).
Proof. unfold analyzeBollingerBands. grown. Qed.

Lemma analyzeStochastic_grows s c : oneMore c (snd (analyzeStochastic s c)).
Proof. unfold analyzeStochastic. grown. Qed.

Lemma analyzeVolume_grows v c : oneMore c (snd (analyzeVolume v c)).
Proof. unfold analyzeVolume. grown. Qed.

Lemma analyzeSupportResistance_grows l price c :
  oneMore c (snd (analyzeSupportResistance l price c)).
Proof. unfold analyzeSupportResistance. grown. Qed.

(** X12. Every generated signal has as many reasons as indicator tags, one
    pair for each factor that spoke, so at most eight. *)
Theorem reasons_match_indicators tf i p sent price :
  match generateTimeframeSignal tf (Some i) (Some p) sent price with
  | Some s => length (indicators s) = length (reasons s)
              /\ (length (reasons s) <= 8)%nat
  | None => False
  end.
Proof.
  rewrite SignalsFacts.generateTimeframeSignal_Some. cbn [indicators reasons].
  unfold SignalsFacts.after.
  pose proof (analyzeMlPrediction_grows p initialComponents) as H1.
  set (c1 := snd (analyzeMlPrediction p initialComponents)) in *.
  pose proof (analyzeRSI_grows (rsi i) c1) as H2.
  set (c2 := snd (analyzeRSI (rsi i) c1)) in *.
  pose proof (analyzeMacd_grows (macdOf i) c2) as H3.
  set (c3 := snd (analyzeMacd (macdOf i) c2)) in *.
  pose proof (analyzeMovingAverages_grows i price c3) as H4.
  set (c4 := snd (analyzeMovingAverages i price c3)) in *.
  pose proof (analyzeBollingerBands_grows (bollingerBands i) price c4) as H5.
  set (c5 := snd (analyzeBollingerBands (bollingerBands i) price c4)) in *.
  pose proof (analyzeStochastic_grows (stochastic i) c5) as H6.
  set (c6 := snd (analyzeStochastic (stochastic i) c5)) in *.
  pose proof (analyzeVolume_grows (volumeRatio i) c6) as H7.
  set (c7 := snd (analyzeVolume (volumeRatio i) c6)) in *.
  pose proof (analyzeSupportResistance_grows (supportResistance i) price c7) as H8.
  set (c8 := snd (analyzeSupportResistance (supportResistance i) price c7)) in *.
  unfold oneMore, grownBy in *. cbn [initialComponents c_indicators c_reasons length] in H1.
  lia.
Qed.

(** *** A signal without a direction *)

Lemma establishedDirection_HOLD p i :
  establishedDirection p i = HOLD -> mlVote p = None /\ rsiVote i = None.
Proof.
  unfold establishedDirection, mlVote, rsiVote.
  destruct (JS.ltb 60 (confidence p)); [destruct (direction p)|];
    destruct (JS.ltb (rsi i) RSI_OVERSOLD); try discriminate;
    destruct (JS.ltb RSI_OVERBOUGHT (rsi i)); try discriminate; auto.
Qed.

Lemma analyzeMlPrediction_silent p c :
  mlVote p = None ->
  c_reasons (snd (analyzeMlPrediction p c)) = c_reasons c
  /\ c_direction (snd (analyzeMlPrediction p c)) = c_direction c.
Proof.
  unfold mlVote, analyzeMlPrediction.
  destruct (JS.ltb 60 (confidence p)); [|auto].
  destruct (direction p); try discriminate. auto.
Qed.

Lemma analyzeRSI_silent i c : rsiVote i = None -> snd (analyzeRSI (rsi i) c) = c.
Proof.
  unfold rsiVote, analyzeRSI.
  destruct (JS.ltb (rsi i) RSI_OVERSOLD); [discriminate|].
  destruct (JS.ltb RSI_OVERBOUGHT (rsi i)); [discriminate|]. reflexivity.
Qed.

Ltac hold_cases :=
  intros Hhold;
  repeat match goal with
         | |- context [if ?c then _ else _] =>
             lazymatch c with
             | Direction_eqb _ _ => rewrite Hhold; cbn [Direction_eqb]
             | _ => destruct c
             end
         end; reflexivity.

Lemma analyzeMacd_HOLD m c : c_direction c = HOLD -> snd (analyzeMacd m c) = c.
Proof. unfold analyzeMacd. hold_cases. Qed.

Lemma analyzeMovingAverages_HOLD i price c :
  c_direction c = HOLD -> snd (analyzeMovingAverages i price c) = c.
Proof. unfold analyzeMovingAverages. hold_cases. Qed.

Lemma analyzeBollingerBands_HOLD b price c :
  c_direction c = HOLD -> snd (analyzeBollingerBands b price c) = c.
Proof. unfold analyzeBollingerBands. hold_cases. Qed.

Lemma analyzeStochastic_HOLD s c :
  c_direction c = HOLD -> snd (analyzeStochastic s c) = c.
Proof. unfold analyzeStochastic. hold_cases. Qed.

Lemma analyzeSupportResistance_HOLD l price c :
  c_direction c = HOLD -> snd (analyzeSupportResistance l price c) = c.
Proof. unfold analyzeSupportResistance. hold_cases. Qed.

(** A signal that stays at HOLD has at most the reason of the volume. *)
Lemma hold_reasons tf i p sent price s :
  generateTimeframeSignal tf (Some i) (Some p) sent price = Some s ->
  signalOf s = HOLD -> (length (reasons s) <= 1)%nat.
Proof.
  rewrite SignalsFacts.generateTimeframeSignal_Some. intros [= <-].
  cbn [signalOf reasons]. rewrite SignalsFacts.after_direction. intros Hhold.
  destruct (establishedDirection_HOLD p i Hhold) as [Hml Hrsi].
  unfold SignalsFacts.after.
  destruct (analyzeMlPrediction_silent p initialComponents Hml) as [Hr Hd].
  set (c1 := snd (analyzeMlPrediction p initialComponents)) in *.
  cbn [initialComponents c_reasons c_direction] in Hr, Hd.
  rewrite (analyzeRSI_silent i c1 Hrsi).
  rewrite (analyzeMacd_HOLD _ c1 Hd), (analyzeMovingAverages_HOLD _ _ c1 Hd),
    (analyzeBollingerBands_HOLD _ _ c1 Hd), (analyzeStochastic_HOLD _ c1 Hd).
  assert (Hv : c_direction (snd (analyzeVolume (volumeRatio i) c1)) = HOLD).
  { rewrite (proj2 (SignalsFacts.analyzeVolume_unchanged _ _)). exact Hd. }
  rewrite (analyzeSupportResistance_HOLD _ _ _ Hv).
  unfold analyzeVolume. destruct (JS.ltb _ _); cbn [snd push c_reasons];
    rewrite ?length_app, Hr; cbn; lia.
Qed.

(** *** The emitted list *)

(** The loop of [generateTradingSignals] over the timeframes. *)
Definition collect (b : BotState) (td : gmap string Indicators) (sent : Sentiment)
    (price : Q) (tfs : list string) (acc : list Signal) : list Signal :=
  fold_left
    (fun signals timeframe =>
       match generateTimeframeSignal timeframe (td !! timeframe)
               (predictions b !! timeframe) sent price with
       | Some signal =>
           if JS.leb MIN_SIGNAL_STRENGTH (strength signal)
           then signals ++ [signal] else signals
       | None => signals
       end)
    tfs acc.

Lemma generateTradingSignals_Return b td emitted :
  generateTradingSignals b td = Return emitted ->
  exists price sent,
    currentPrice b = Some price /\ sentimentData b = Some sent
    /\ emitted = filterAndRankSignals (collect b td sent price TIMEFRAMES []).
Proof.
  unfold generateTradingSignals.
  destruct (negb (validatePrerequisites b)); [discriminate|].
  destruct (currentPrice b) as [price|]; [|discriminate].
  destruct (sentimentData b) as [sent|]; [|discriminate].
  intros [= <-]. exists price, sent. auto.
Qed.

Lemma timeframe_generated tf i p sent price s :
  generateTimeframeSignal tf (Some i) (Some p) sent price = Some s ->
  timeframe s = tf /\ prediction s = p.
Proof. rewrite SignalsFacts.generateTimeframeSignal_Some. intros [= <-]. auto. Qed.

(** Where a collected signal comes from. *)
Lemma collect_origin b td sent price tfs acc s :
  In s (collect b td sent price tfs acc) ->
  In s acc
  \/ exists i p,
       In (timeframe s) tfs /\ td !! timeframe s = Some i
       /\ predictions b !! timeframe s = Some p
       /\ generateTimeframeSignal (timeframe s) (Some i) (Some p) sent price = Some s.
Proof.
  unfold collect. revert acc. induction tfs as [|tf tfs IH]; intros acc; cbn [fold_left].
  - auto.
  - intros H. apply IH in H. destruct H as [H | (i & p & Hin & H)].
    + destruct (td !! tf) as [i|] eqn:Ei; [|auto].
      destruct (predictions b !! tf) as [p|] eqn:Ep; [|destruct (generateTimeframeSignal _ _ _ _ _) eqn:E; [discriminate E|auto]].
      destruct (generateTimeframeSignal tf (Some i) (Some p) sent price) as [signal|] eqn:E;
        [|auto].
      destruct (JS.leb MIN_SIGNAL_STRENGTH (strength signal)); [|auto].
      apply in_app_or in H. destruct H as [H | [<- | []]]; [auto|].
      right. destruct (timeframe_generated _ _ _ _ _ _ E) as [Htf _].
      exists i, p. rewrite Htf. cbn [In]. auto.
    + right. exists i, p. cbn [In]. tauto.
Qed.

(** The timeframes of the collected signals follow the list of timeframes. *)
Lemma collect_timeframes b td sent price tfs acc :
  exists k, map timeframe (collect b td sent price tfs acc) = map timeframe acc ++ k
            /\ k `sublist_of` tfs.
Proof.
  unfold collect. revert acc. induction tfs as [|tf tfs IH]; intros acc; cbn [fold_left].
  - exists []. rewrite app_nil_r. split; [reflexivity | constructor].
  - destruct (generateTimeframeSignal tf (td !! tf) (predictions b !! tf) sent price)
      as [signal|] eqn:E.
    + destruct (JS.leb MIN_SIGNAL_STRENGTH (strength signal)).
      * destruct (IH (acc ++ [signal])) as (k & Hk & Hsub).
        exists (tf :: k). split; [|apply sublist_skip, Hsub].
        rewrite Hk, map_app, <- app_assoc. cbn [map app].
        apply SignalsFacts.generateTimeframeSignal_inv in E.
        destruct E as (i & p & _ & _ & E).
        destruct (timeframe_generated _ _ _ _ _ _ E) as [-> _]. reflexivity.
      * destruct (IH acc) as (k & Hk & Hsub).
        exists k. split; [exact Hk | apply sublist_cons, Hsub].
    + destruct (IH acc) as (k & Hk & Hsub).
      exists k. split; [exact Hk | apply sublist_cons, Hsub].
Qed.

Lemma insertRanked_Permutation x l : insertRanked x l ≡ₚ x :: l.
Proof.
  induction l as [|y l IH]; cbn [insertRanked]; [reflexivity|].
  destruct (JS.leb _ _); [reflexivity|]. rewrite IH. apply perm_swap.
Qed.

Lemma sortRanked_Permutation l : sortRanked l ≡ₚ l.
Proof.
  unfold sortRanked. induction l as [|x l IH]; cbn [foldr]; [reflexivity|].
  rewrite insertRanked_Permutation, IH. reflexivity.
Qed.

Lemma filter_timeframes_sublist (keep : Signal -> bool) l :
  map timeframe (List.filter keep l) `sublist_of` map timeframe l.
Proof.
  induction l as [|x l IH]; cbn [List.filter map]; [constructor|].
  destruct (keep x); cbn [map]; [apply sublist_skip | apply sublist_cons]; exact IH.
Qed.

(** The emitted signals in decreasing order of rank. *)
Fixpoint descending (l : list Signal) : Prop :=
  match l with
  | x :: (y :: _) as rest => rank y <= rank x /\ descending rest
  | _ => True
  end.

Lemma insertRanked_descending x l : descending l -> descending (insertRanked x l).
Proof.
  induction l as [|y l IH]; cbn [insertRanked]; [auto|].
  intros Hl. destruct (JS.leb (rank y - rank x) 0) eqn:E; js_props.
  - cbn [descending]. split; [lra | exact Hl].
  - destruct l as [|z l].
    + cbn. split; [lra | exact I].
    + cbn [descending] in Hl. destruct Hl as [Hzy Hl].
      specialize (IH Hl). cbn [insertRanked] in *.
      destruct (JS.leb (rank z - rank x) 0) eqn:E'; js_props.
      * cbn [descending]. split; [lra|]. exact IH.
      * cbn [descending]. split; [exact Hzy|]. exact IH.
Qed.

Lemma sortRanked_descending l : descending (sortRanked l).
Proof.
  unfold sortRanked. induction l as [|x l IH]; cbn [foldr]; [exact I|].
  apply insertRanked_descending, IH.
Qed.

Lemma emitted_origin b td emitted s :
  generateTradingSignals b td = Return emitted ->
  In s emitted ->
  keepSignal s = true
  /\ exists price sent i p,
       td !! timeframe s = Some i /\ predictions b !! timeframe s = Some p
       /\ In (timeframe s) TIMEFRAMES
       /\ generateTimeframeSignal (timeframe s) (Some i) (Some p) sent price = Some s.
Proof.
  intros Hgen Hin. destruct (generateTradingSignals_Return _ _ _ Hgen)
    as (price & sent & _ & _ & ->).
  apply SignalsFacts.filterAndRankSignals_In in Hin. destruct Hin as [Hin Hkeep].
  split; [exact Hkeep|].
  apply collect_origin in Hin. destruct Hin as [[] | (i & p & Htf & Hi & Hp & Hs)].
  exists price, sent, i, p. auto.
Qed.

(** X13. No HOLD signal is ever emitted: every signal in the list returned
    by [generateTradingSignals] is a BUY or a SELL. *)
Theorem emitted_signals_have_a_direction b technicalData :
  match generateTradingSignals b technicalData with
  | Return emitted => Forall (fun s => signalOf s = BUY \/ signalOf s = SELL) emitted
  | Thrown _ => True
  end.
Proof.
  destruct (generateTradingSignals b technicalData) as [emitted|] eqn:Hgen; [|exact I].
  apply List.Forall_forall. intros s Hin.
  destruct (emitted_origin _ _ _ _ Hgen Hin) as (Hkeep & price & sent & i & p & _ & _ & _ & Hs).
  destruct (signalOf s) eqn:Hdir; auto.
  pose proof (hold_reasons _ _ _ _ _ _ Hs Hdir) as Hfew.
  unfold keepSignal in Hkeep. apply andb_prop in Hkeep. destruct Hkeep as [_ Hreasons].
  apply Nat.leb_le in Hreasons. lia.
Qed.

(** X14. Every emitted signal rests on the prediction of its timeframe,
    and that prediction has a confidence above 60, which is also the
    confidence of the signal: the indicators alone never get a signal
    emitted. *)
Theorem emitted_signals_rest_on_prediction b technicalData :
  match generateTradingSignals b technicalData with
  | Return emitted =>
      Forall (fun s => predictions b !! timeframe s = Some (prediction s)
                       /\ 60 < confidence (prediction s)
                       /\ s_confidence s = confidence (prediction s)) emitted
  | Thrown _ => True
  end.
Proof.
  destruct (generateTradingSignals b technicalData) as [emitted|] eqn:Hgen; [|exact I].
  apply List.Forall_forall. intros s Hin.
  destruct (emitted_origin _ _ _ _ Hgen Hin) as (Hkeep & price & sent & i & p & _ & Hp & _ & Hs).
  destruct (SignalsFacts.confidence_cases _ _ _ _ _ _ Hs) as [Hpred Hcases].
  rewrite Hpred. split; [exact Hp|].
  unfold keepSignal in Hkeep. apply andb_prop in Hkeep. destruct Hkeep as [Hkeep _].
  apply andb_prop in Hkeep. destruct Hkeep as [_ Hconfidence]. js_props.
  destruct Hcases as [Hzero | [Hhigh Heq]].
  - rewrite Hzero in Hconfidence. exfalso. revert Hconfidence. apply Qlt_not_le. reflexivity.
  - split; [rewrite <- Heq; exact Hhigh | exact Heq].
Qed.

(** X15. The emitted list is ranked: each signal has a rank
    ([strength * 0.7 + confidence * 0.3]) at least as high as the one that
    follows it. *)
Theorem emitted_signals_are_ranked b technicalData :
  match generateTradingSignals b technicalData with
  | Return emitted => descending emitted
  | Thrown _ => True
  end.
Proof.
  destruct (generateTradingSignals b technicalData) as [emitted|] eqn:Hgen; [|exact I].
  destruct (generateTradingSignals_Return _ _ _ Hgen) as (price & sent & _ & _ & ->).
  apply sortRanked_descending.
Qed.

Lemma TIMEFRAMES_NoDup : NoDup TIMEFRAMES.
Proof.
  unfold TIMEFRAMES.
  repeat (apply NoDup_cons; split;
          [intros H; apply list_elem_of_In in H; cbn in H; intuition discriminate|]).
  apply NoDup_nil. trivial.
Qed.

(** X16. At most one signal is emitted for each of the four timeframes:
    the timeframes of the emitted signals are distinct members of
    [TIMEFRAMES], so the list has at most four signals. *)
Theorem emitted_signals_one_per_timeframe b technicalData :
  match generateTradingSignals b technicalData with
  | Return emitted =>
      NoDup (map timeframe emitted)
      /\ Forall (fun s => In (timeframe s) TIMEFRAMES) emitted
      /\ (length emitted <= 4)%nat
  | Thrown _ => True
  end.
Proof.
  destruct (generateTradingSignals b technicalData) as [emitted|] eqn:Hgen; [|exact I].
  assert (Hmembers : Forall (fun s => In (timeframe s) TIMEFRAMES) emitted).
  { apply List.Forall_forall. intros s Hin.
    destruct (emitted_origin _ _ _ _ Hgen Hin) as (_ & price & sent & i & p & _ & _ & Htf & _).
    exact Htf. }
  destruct (generateTradingSignals_Return _ _ _ Hgen) as (price & sent & _ & _ & ->).
  destruct (collect_timeframes b technicalData sent price TIMEFRAMES []) as (k & Hk & Hsub).
  cbn [map app] in Hk.
  assert (Hsubl : map timeframe (List.filter keepSignal
                                   (collect b technicalData sent price TIMEFRAMES []))
                  `sublist_of` TIMEFRAMES).
  { etransitivity; [apply filter_timeframes_sublist|]. rewrite Hk. exact Hsub. }
  assert (Hperm : map timeframe (filterAndRankSignals
                                   (collect b technicalData sent price TIMEFRAMES []))
                  ≡ₚ map timeframe (List.filter keepSignal
                                      (collect b technicalData sent price TIMEFRAMES []))).
  { unfold filterAndRankSignals. apply Permutation_map, sortRanked_Permutation. }
  split; [|split; [exact Hmembers|]].
  - rewrite Hperm. exact (sublist_NoDup _ _ TIMEFRAMES_NoDup Hsubl).
  - rewrite <- (length_map timeframe). rewrite (Permutation_length Hperm).
    apply sublist_length in Hsubl. exact Hsubl.
Qed.

(** *** The consensus gate *)

Lemma length_succ_Q {A} (x : A) (l : list A) :
  inject_Z (Z.of_nat (length (x :: l))) == inject_Z (Z.of_nat (length l)) + 1.
Proof.
  cbn [length]. rewrite Nat2Z.inj_succ, <- Z.add_1_r, inject_Z_plus. reflexivity.
Qed.

Lemma totalStrength_at_least l :
  Forall (fun s => STRONG_SIGNAL_THRESHOLD < strength s) l ->
  STRONG_SIGNAL_THRESHOLD * inject_Z (Z.of_nat (length l)) <= totalStrength l.
Proof.
  unfold STRONG_SIGNAL_THRESHOLD. induction 1 as [|s l Hs Hl IH].
  - cbn. discriminate.
  - rewrite length_succ_Q. cbn [totalStrength foldr]. fold (totalStrength l). lra.
Qed.

Lemma totalStrength_above l :
  Forall (fun s => STRONG_SIGNAL_THRESHOLD < strength s) l -> l <> [] ->
  STRONG_SIGNAL_THRESHOLD * inject_Z (Z.of_nat (length l)) < totalStrength l.
Proof.
  intros Hall Hne. destruct l as [|s l]; [congruence|].
  inversion Hall as [|? ? Hs Hl]; subst.
  pose proof (totalStrength_at_least l Hl) as Hrest.
  unfold STRONG_SIGNAL_THRESHOLD in *.
  rewrite length_succ_Q. cbn [totalStrength foldr]. fold (totalStrength l). lra.
Qed.

Lemma agreeing_strong dir l :
  Forall (fun s => STRONG_SIGNAL_THRESHOLD < strength s) (agreeing dir l).
Proof.
  apply List.Forall_forall. intros s Hin. unfold agreeing in Hin.
  apply filter_In in Hin. destruct Hin as [_ H].
  apply andb_prop in H. destruct H as [_ H]. js_props. exact H.
Qed.

Lemma consensus_average_above dir signals :
  (0 < length (agreeing dir signals))%nat ->
  STRONG_SIGNAL_THRESHOLD < avgStrength (consensusOf (agreeing dir signals)).
Proof.
  intros Hcount. rewrite SignalsFacts.avgStrength_consensusOf by exact Hcount.
  unfold averageStrength. apply Qlt_shift_div_l.
  - rewrite <- (Zlt_Qlt 0). lia.
  - apply totalStrength_above; [apply agreeing_strong|].
    destruct (agreeing dir signals); [cbn in Hcount; lia | discriminate].
Qed.

Lemma consensusReached_count dir signals :
  consensusReached (consensusOf (agreeing dir signals)) = true
  <-> (2 <= count (consensusOf (agreeing dir signals)))%nat.
Proof.
  unfold consensusReached, CONSENSUS_THRESHOLD.
  rewrite andb_true_iff, Nat.leb_le, JSFacts.ltb_lt. split; [tauto|].
  intros Hcount. split; [exact Hcount|].
  apply consensus_average_above. cbn [count consensusOf] in Hcount. lia.
Qed.

(** X17. The test on the average strength never decides the consensus
    gate.  The signals that [analyzeSignalConsensus] counts on a side all
    have a strength above 75, so their average is above 75 as soon as
    there is one; the test made before an executor therefore holds
    exactly when the count of its side is at least two. *)
Theorem consensus_gate_counts_only (signals : list Signal) :
  ((0 < count (fst (analyzeSignalConsensus signals)))%nat ->
   75 < avgStrength (fst (analyzeSignalConsensus signals)))
  /\ ((0 < count (snd (analyzeSignalConsensus signals)))%nat ->
      75 < avgStrength (snd (analyzeSignalConsensus signals)))
  /\ (consensusReached (fst (analyzeSignalConsensus signals)) = true
      <-> (2 <= count (fst (analyzeSignalConsensus signals)))%nat)
  /\ (consensusReached (snd (analyzeSignalConsensus signals)) = true
      <-> (2 <= count (snd (analyzeSignalConsensus signals)))%nat).
Proof.
  rewrite SignalsFacts.analyzeSignalConsensus_sides. cbn [fst snd].
  split; [apply consensus_average_above|].
  split; [apply consensus_average_above|].
  split; apply consensusReached_count.
Qed.

Lemma consensus_gate_counts_only_witness :
  75 < avgStrength
         (fst (analyzeSignalConsensus
                 [SignalsFacts.sampleSignal BUY 80; SignalsFacts.sampleSignal BUY 78;
                  SignalsFacts.sampleSignal SELL 90]))
  /\ 75 < avgStrength
            (snd (analyzeSignalConsensus
                    [SignalsFacts.sampleSignal BUY 80; SignalsFacts.sampleSignal BUY 78;
                     SignalsFacts.sampleSignal SELL 90])).
Proof.
  destruct (consensus_gate_counts_only
              [SignalsFacts.sampleSignal BUY 80; SignalsFacts.sampleSignal BUY 78;
               SignalsFacts.sampleSignal SELL 90]) as (Hbuy & Hsell & _).
  split; [apply Hbuy | apply Hsell]; vm_compute; lia.
Defined.

End EmittedSignalsFacts.

(** * More on positions *)

Module TicksFacts.

(** X18. A trailing update never leaves a position with a stop that is
    already hit: after the monitor has moved the stop of a position with
    a positive trailing distance, the stop-loss test at the same price is
    false, for a long and for a short position. *)
Theorem trailing_update_is_not_triggered
    (assessPositionRisk : Monitor.Position -> Outcome string Monitor.RiskCheck)
    (p : Monitor.Position) (price distance : Q) :
  Monitor.trailingStopDistance p = Some distance ->
  0 < distance ->
  snd (Monitor.monitorSinglePosition assessPositionRisk p price) = Monitor.TrailingStopUpdated ->
  Monitor.shouldTriggerStopLoss
    (fst (Monitor.monitorSinglePosition assessPositionRisk p price)) price = false.
Proof.
  intros Hdistance Hpositive. unfold Monitor.monitorSinglePosition.
  set (q := Monitor.updatePositionMetrics p price).
  assert (Hq : Monitor.trailingStopDistance q = Some distance) by exact Hdistance.
  clearbody q.
  destruct (assessPositionRisk q) as [riskCheck|]; [|discriminate].
  destruct (Monitor.shouldExit riskCheck); [discriminate|].
  destruct (JS.truthy (Monitor.stopLoss q) && _); [discriminate|].
  destruct (JS.truthy (Monitor.takeProfit q) && _); [discriminate|].
  destruct (Monitor.trailingStop q && _); [|discriminate].
  intros _. cbn [fst]. unfold Monitor.updateTrailingStop, Monitor.shouldTriggerStopLoss.
  rewrite Hq. unfold Monitor.isBuy.
  destruct (String.eqb (Monitor.type q) "BUY") eqn:E;
    cbn [Monitor.setStopLoss Monitor.stopLoss Monitor.type]; rewrite E;
    destruct (negb _); try reflexivity; [apply JSFacts.leb_nle | apply JSFacts.leb_nle]; lra.
Qed.

Lemma trailing_update_is_not_triggered_witness :
  Monitor.shouldTriggerStopLoss
    (fst (Monitor.monitorSinglePosition PositionFacts.noRisk PositionFacts.longPosition 110))
    110 = false.
Proof.
  apply (trailing_update_is_not_triggered PositionFacts.noRisk PositionFacts.longPosition
           110 5); reflexivity.
Defined.

End TicksFacts.

(** * The indicators of [trading.js] on windows that are long enough *)

Module IndicatorFacts.
Import Trading.

Definition within (lo hi x : Q) : Prop := lo <= x <= hi.

Lemma ofPos_ge_1 period : 1 <= ofPos period.
Proof. unfold ofPos. change 1 with (inject_Z 1). rewrite <- Zle_Qle. lia. Qed.

Lemma fold_sum_nonneg l a :
  Forall (Qle 0) l -> 0 <= a -> 0 <= fold_left Qplus l a.
Proof.
  intros H. revert a. induction H as [|x l Hx _ IH]; intros a Ha; cbn; [exact Ha|].
  apply IH. lra.
Qed.

Lemma last_within {A} (P : A -> Prop) l x : Forall P l -> last l = Some x -> P x.
Proof.
  intros H Hlast. apply last_Some in Hlast as [l' ->].
  apply Forall_app in H as [_ H]. inversion H; assumption.
Qed.

(** On data that is not empty the exponential moving average is a number. *)
Lemma calculateEMA_on_data data period :
  data <> [] -> exists v, calculateEMA data period = Some v.
Proof.
  intros Hdata. unfold calculateEMA.
  destruct (Nat.ltb (length data) (Pos.to_nat period)); [|eexists; reflexivity].
  destruct (last data) as [v|] eqn:Hlast; [exists v; reflexivity|].
  apply last_None in Hlast. contradiction.
Qed.

Lemma emaOf_on_data data period :
  data <> [] -> calculateEMA data period = Some (emaOf data period).
Proof.
  intros Hdata. unfold emaOf.
  destruct (calculateEMA_on_data data period Hdata) as [v ->]. reflexivity.
Qed.

(** *** RSI *)

Lemma wilder_within period avgGain avgLoss rest :
  1 <= period -> 0 <= avgGain -> 0 <= avgLoss ->
  Forall (fun gl => 0 <= fst gl /\ 0 <= snd gl) rest ->
  Forall (within 0 100) (wilder period avgGain avgLoss rest).
Proof.
  intros Hp Hg Hl H. revert avgGain avgLoss Hg Hl.
  induction H as [|[gain loss] rest [Hgain Hloss] _ IH]; intros avgGain avgLoss Hg Hl;
    cbn [wilder]; [constructor|].
  cbn [fst snd] in Hgain, Hloss.
  assert (Hg' : 0 <= (avgGain * (period - 1) + gain) / period).
  { apply Qle_shift_div_l; [lra|].
    assert (0 <= avgGain * (period - 1)) by (apply Qmult_le_0_compat; lra). lra. }
  assert (Hl' : 0 <= (avgLoss * (period - 1) + loss) / period).
  { apply Qle_shift_div_l; [lra|].
    assert (0 <= avgLoss * (period - 1)) by (apply Qmult_le_0_compat; lra). lra. }
  constructor; [|apply IH; assumption].
  set (g := (avgGain * (period - 1) + gain) / period) in *.
  set (l := (avgLoss * (period - 1) + loss) / period) in *.
  destruct (JS.eqb l 0) eqn:E; [split; lra|].
  apply Qeq_bool_neq in E.
  assert (Hpos : 0 < l) by (apply Qle_lteq in Hl' as [?|Heq]; [assumption | symmetry in Heq; contradiction]).
  assert (Hrs : 0 <= g / l) by (apply Qle_shift_div_l; lra).
  assert (H1 : 0 <= 100 / (1 + g / l)) by (apply Qle_shift_div_l; lra).
  assert (H2 : 100 / (1 + g / l) <= 100) by (apply Qle_shift_div_r; lra).
  split; lra.
Qed.

Lemma Forall_zip_nonneg (l1 l2 : list Q) :
  Forall (Qle 0) l1 -> Forall (Qle 0) l2 ->
  Forall (fun gl => 0 <= fst gl /\ 0 <= snd gl) (zip l1 l2).
Proof.
  intros H1. revert l2. induction H1 as [|x l1 Hx _ IH]; intros l2 H2; [constructor|].
  destruct H2 as [|y l2 Hy H2]; cbn; constructor; auto.
Qed.

Lemma gains_nonneg changes :
  Forall (Qle 0) (map (fun change => if JS.ltb 0 change then change else 0) changes).
Proof.
  apply Forall_map, Forall_forall. intros change _. cbn.
  destruct (JS.ltb 0 change) eqn:E; js_props; lra.
Qed.

Lemma losses_nonneg changes :
  Forall (Qle 0) (map (fun change => if JS.ltb change 0 then Qabs change else 0) changes).
Proof.
  apply Forall_map, Forall_forall. intros change _. cbn.
  destruct (JS.ltb change 0); [apply Qabs_nonneg | lra].
Qed.

Lemma rsiValues_within closes period :
  Forall (within 0 100)
    (wilder (ofPos period)
       (sum (take (Pos.to_nat period)
               (map (fun change => if JS.ltb 0 change then change else 0) (changesOf closes)))
        / ofPos period)
       (sum (take (Pos.to_nat period)
               (map (fun change => if JS.ltb change 0 then Qabs change else 0)
                    (changesOf closes)))
        / ofPos period)
       (zip (drop (Pos.to_nat period)
               (map (fun change => if JS.ltb 0 change then change else 0) (changesOf closes)))
            (drop (Pos.to_nat period)
               (map (fun change => if JS.ltb change 0 then Qabs change else 0)
                    (changesOf closes))))).
Proof.
  pose proof (ofPos_ge_1 period) as Hp.
  apply wilder_within; [exact Hp | | |].
  - apply Qle_shift_div_l; [lra|]. rewrite Qmult_0_l.
    apply fold_sum_nonneg; [apply Forall_take, gains_nonneg | lra].
  - apply Qle_shift_div_l; [lra|]. rewrite Qmult_0_l.
    apply fold_sum_nonneg; [apply Forall_take, losses_nonneg | lra].
  - apply Forall_zip_nonneg; apply Forall_drop; [apply gains_nonneg | apply losses_nonneg].
Qed.

Lemma beforeLast_within {A} (P : A -> Prop) l x :
  Forall P l -> beforeLast l = Some x -> P x.
Proof.
  intros H. unfold beforeLast. destruct (Nat.ltb (length l) 2); [discriminate|].
  intros Hx. eapply Forall_lookup_1; eassumption.
Qed.

(** X20. Whatever the closes, the RSI that [calculateRSI] reports, current
    and previous, lies between 0 and 100 whenever it is a number. *)
Theorem calculateRSI_between_0_and_100 (closes : list Q) (period : positive) :
  (forall v, current (calculateRSI closes period) = Some v -> 0 <= v <= 100)
  /\ (forall v, previous (calculateRSI closes period) = Some v -> 0 <= v <= 100).
Proof.
  unfold calculateRSI.
  destruct (Nat.ltb (length closes) (Pos.to_nat period + 1)).
  - cbn. split; intros v [= <-]; lra.
  - pose proof (rsiValues_within closes period) as H. cbv zeta.
    cbn [current previous].
    set (rsiValues := wilder _ _ _ _) in *.
    assert (Hcurrent : forall v, last rsiValues = Some v -> 0 <= v <= 100).
    { intros v Hv. exact (last_within _ _ _ H Hv). }
    split; [exact Hcurrent|]. intros v.
    destruct (JS.truthy (beforeLast rsiValues)); [|apply Hcurrent].
    intros Hv. exact (beforeLast_within _ _ _ H Hv).
Qed.

Lemma length_changesOf closes : length (changesOf closes) = (length closes - 1)%nat.
Proof.
  induction closes as [|a closes IH]; [reflexivity|].
  destruct closes as [|b closes]; [reflexivity|].
  change (changesOf (a :: b :: closes)) with ((b - a) :: changesOf (b :: closes)).
  cbn [length] in *. rewrite IH. lia.
Qed.

Lemma length_wilder period avgGain avgLoss rest :
  length (wilder period avgGain avgLoss rest) = length rest.
Proof.
  revert avgGain avgLoss. induction rest as [|[gain loss] rest IH]; intros; cbn; [|rewrite IH];
    reflexivity.
Qed.

(** X21. The guard of [calculateRSI] lets a window of exactly
    [period + 1] closes through, on which the smoothing loop does not
    run: the RSI is then undefined, not the neutral 50, its trend is
    neutral and it is neither overbought nor oversold.  From
    [period + 2] closes on the current RSI is a number. *)
Theorem calculateRSI_needs_two_more_closes (closes : list Q) (period : positive) :
  (length closes = (Pos.to_nat period + 1)%nat ->
   current (calculateRSI closes period) = None
   /\ previous (calculateRSI closes period) = None
   /\ rsiTrend (calculateRSI closes period) = "neutral"
   /\ overbought (calculateRSI closes period) = Some false
   /\ oversold (calculateRSI closes period) = Some false)
  /\ ((Pos.to_nat period + 2 <= length closes)%nat ->
      exists v, current (calculateRSI closes period) = Some v).
Proof.
  unfold calculateRSI. split; intros Hlen.
  - assert (E : Nat.ltb (length closes) (Pos.to_nat period + 1) = false)
      by (apply Nat.ltb_ge; lia).
    rewrite E. cbv zeta. cbn [current previous rsiTrend overbought oversold].
    set (rsiValues := wilder _ _ _ _).
    assert (Hnil : rsiValues = []).
    { apply nil_length_inv. unfold rsiValues.
      rewrite length_wilder, length_zip, !length_drop, !length_map, length_changesOf. lia. }
    rewrite Hnil. cbn. repeat split.
  - assert (E : Nat.ltb (length closes) (Pos.to_nat period + 1) = false)
      by (apply Nat.ltb_ge; lia).
    rewrite E. cbv zeta. cbn [current].
    set (rsiValues := wilder _ _ _ _).
    destruct (last rsiValues) as [v|] eqn:Hlast; [exists v; reflexivity|].
    apply last_None in Hlast. apply (f_equal length) in Hlast. unfold rsiValues in Hlast.
    rewrite length_wilder, length_zip, !length_drop, !length_map, length_changesOf in Hlast.
    cbn in Hlast. lia.
Qed.

Lemma calculateRSI_between_0_and_100_witness :
  current (calculateRSI [1; 2; 3; 4] 2) = Some 100 /\ 0 <= 100 <= 100.
Proof.
  split; [reflexivity|].
  destruct (calculateRSI_between_0_and_100 [1; 2; 3; 4] 2) as [H _].
  apply H. reflexivity.
Defined.

Lemma calculateRSI_needs_two_more_closes_witness :
  current (calculateRSI [1; 2; 3] 2) = None
  /\ exists v, current (calculateRSI [1; 2; 3; 4] 2) = Some v.
Proof.
  destruct (calculateRSI_needs_two_more_closes [1; 2; 3] 2) as [Hshort _].
  destruct (calculateRSI_needs_two_more_closes [1; 2; 3; 4] 2) as [_ Hlong].
  split.
  - apply Hshort. reflexivity.
  - apply Hlong. cbn. lia.
Defined.

End IndicatorFacts.

(** * The trailing stop and the exit levels of [trading.js] *)

Module ExitFacts.
Import Trading.

(** The trailing stop [t] carries the highest of the prices [seen] and has
    its trigger [pct] below it. *)
Definition highWater (seen : list Q) (pct : Q) (t : TrailingStop) : Prop :=
  percentage t = pct
  /\ highestPrice t ∈ seen
  /\ Forall (fun price => price <= highestPrice t) seen
  /\ triggerPrice t = highestPrice t * (1 - pct).

Lemma ratchet_highWater seen pct t price :
  highWater seen pct t -> highWater (seen ++ [price]) pct (ratchet t price).
Proof.
  intros (Hpct & Hin & Hall & Htrigger). unfold ratchet.
  destruct (JS.ltb (highestPrice t) price) eqn:E; js_props;
    unfold highWater; cbn [percentage highestPrice triggerPrice].
  - repeat split.
    + exact Hpct.
    + apply elem_of_app. right. apply list_elem_of_singleton. reflexivity.
    + apply Forall_app. split.
      * eapply Forall_impl; [exact Hall|]. cbn. intros x Hx. lra.
      * repeat constructor. apply Qle_refl.
    + rewrite Hpct. reflexivity.
  - repeat split.
    + exact Hpct.
    + apply elem_of_app. left. exact Hin.
    + apply Forall_app. split; [exact Hall | repeat constructor; exact E].
    + exact Htrigger.
Qed.

(** The tick reaches the trailing stop of the position: neither the
    stop-loss nor the take-profit asks for a SELL, on which
    [executeSmartTrade] throws. *)
Definition reachesTrailingStop (position : Position) (price : Q) : bool :=
  negb (stopLossHit position price) && negb (takeProfitHit position price).

(** The first position of [botState.positions] after the ticks: each call
    of [updatePositionsPnL] starts with it. *)
Definition firstAfter (position : Position) (ticks : list Q) : Position :=
  fold_left (fun p price => passPosition (passOver p price)) ticks position.

Lemma updateTicks_first position others ticks :
  exists others', updateTicks (position :: others) ticks = firstAfter position ticks :: others'.
Proof.
  revert position others. induction ticks as [|price ticks IH]; intros position others.
  - exists others. reflexivity.
  - unfold updateTicks, firstAfter. cbn [fold_left updatePositionsPnL].
    destruct (passError (passOver position price)); cbn [fst]; apply IH.
Qed.

Lemma passOver_levels position price :
  stopLoss (passPosition (passOver position price)) = stopLoss position
  /\ takeProfit (passPosition (passOver position price)) = takeProfit position.
Proof.
  unfold passOver, sellIf. cbn [executeSmartTrade trailingStop].
  destruct (stopLossHit _ price); [split; reflexivity|].
  destruct (takeProfitHit _ price); [split; reflexivity|].
  destruct (trailingStop position); [|split; reflexivity].
  destruct (JS.leb price _); split; reflexivity.
Qed.

Lemma reachesTrailingStop_passOver position price tick :
  reachesTrailingStop (passPosition (passOver position price)) tick
  = reachesTrailingStop position tick.
Proof.
  destruct (passOver_levels position price) as [Hstop Hprofit].
  unfold reachesTrailingStop, stopLossHit, takeProfitHit. rewrite Hstop, Hprofit.
  reflexivity.
Qed.

Lemma passOver_highWater seen pct position t price :
  trailingStop position = Some t ->
  highWater seen pct t ->
  exists t', trailingStop (passPosition (passOver position price)) = Some t'
             /\ highWater (seen ++ (if reachesTrailingStop position price
                                    then [price] else [])) pct t'.
Proof.
  intros Hposition Ht. unfold reachesTrailingStop.
  change (stopLossHit position price)
    with (stopLossHit {| size := size position; entryPrice := entryPrice position;
                         currentPrice := price;
                         pnl := (price - entryPrice position) * size position;
                         pnlPercentage :=
                           JS.mul (JS.div ((price - entryPrice position) * size position)
                                          (entryPrice position * size position)) (JS.Fin 100);
                         stopLoss := stopLoss position; takeProfit := takeProfit position;
                         trailingStop := trailingStop position |} price).
  change (takeProfitHit position price)
    with (takeProfitHit {| size := size position; entryPrice := entryPrice position;
                           currentPrice := price;
                           pnl := (price - entryPrice position) * size position;
                           pnlPercentage :=
                             JS.mul (JS.div ((price - entryPrice position) * size position)
                                            (entryPrice position * size position)) (JS.Fin 100);
                           stopLoss := stopLoss position; takeProfit := takeProfit position;
                           trailingStop := trailingStop position |} price).
  unfold passOver, sellIf. cbn [executeSmartTrade trailingStop].
  destruct (stopLossHit _ price);
    [exists t; rewrite app_nil_r; split; [exact Hposition | exact Ht]|].
  destruct (takeProfitHit _ price);
    [exists t; rewrite app_nil_r; split; [exact Hposition | exact Ht]|].
  rewrite Hposition. cbn [negb andb].
  exists (ratchet t price). split; [|apply ratchet_highWater, Ht].
  destruct (JS.leb price _); reflexivity.
Qed.

Lemma firstAfter_highWater ticks seen pct position t :
  trailingStop position = Some t ->
  highWater seen pct t ->
  exists t', trailingStop (firstAfter position ticks) = Some t'
             /\ highWater (seen ++ List.filter (reachesTrailingStop position) ticks) pct t'.
Proof.
  revert seen position t. induction ticks as [|price ticks IH]; intros seen position t Hp Ht.
  - exists t. cbn. rewrite app_nil_r. split; assumption.
  - unfold firstAfter. cbn [fold_left List.filter].
    fold (firstAfter (passPosition (passOver position price)) ticks).
    destruct (passOver_highWater seen pct position t price Hp Ht) as (t1 & Ht1 & Hhigh1).
    destruct (IH _ _ _ Ht1 Hhigh1) as (t' & Ht' & Hhigh).
    exists t'. split; [exact Ht'|].
    assert (Hsame : List.filter (reachesTrailingStop (passPosition (passOver position price)))
                      ticks
                    = List.filter (reachesTrailingStop position) ticks).
    { apply filter_ext. intros tick. apply reachesTrailingStop_passOver. }
    rewrite Hsame in Hhigh.
    destruct (reachesTrailingStop position price).
    + rewrite <- app_assoc in Hhigh. exact Hhigh.
    + rewrite app_nil_r in Hhigh. exact Hhigh.
Qed.

(** X24. A trailing stop is a high-water mark.  After a BUY trade has been
    set up with a trailing percentage and [updatePositionsPnL] has been
    called at any ticks, the first open position still has its trailing
    stop with the same percentage; its highest price is the greatest of
    the fill price and the ticks that reached the trailing stop, those on
    which neither the stop-loss nor the take-profit asked for a SELL; and
    its trigger is exactly that price times one minus the percentage. *)
Theorem trailing_stop_is_high_water_mark
    (config : CONFIG) (trade : Trade) (metadata : Metadata) (position : Position)
    (others : list Position) (ticks : list Q) (pct : Q) :
  m_trailingStop metadata = Some pct ->
  ~ pct == 0 ->
  exists first others' t,
    updateTicks (setupTradeManagement config trade metadata position :: others) ticks
    = first :: others'
    /\ trailingStop first = Some t
    /\ percentage t = pct
    /\ highestPrice t
       ∈ price trade
         :: List.filter
              (reachesTrailingStop (setupTradeManagement config trade metadata position))
              ticks
    /\ Forall (fun seen => seen <= highestPrice t)
         (price trade
          :: List.filter
               (reachesTrailingStop (setupTradeManagement config trade metadata position))
               ticks)
    /\ triggerPrice t = highestPrice t * (1 - pct).
Proof.
  intros Hpct Hnonzero.
  destruct (updateTicks_first (setupTradeManagement config trade metadata position)
              others ticks) as (others' & Hfirst).
  destruct (firstAfter_highWater ticks [price trade] pct
              (setupTradeManagement config trade metadata position)
              {| percentage := pct; highestPrice := price trade;
                 triggerPrice := price trade * (1 - pct) |})
    as (t & Ht & Hhigh).
  - unfold setupTradeManagement. cbn [trailingStop]. rewrite Hpct.
    assert (E : JS.truthy (Some pct) = true).
    { cbn. apply negb_true_iff. apply not_true_iff_false. intros H. js_props. contradiction. }
    rewrite E. reflexivity.
  - unfold highWater. cbn [percentage highestPrice triggerPrice]. repeat split.
    + apply list_elem_of_singleton. reflexivity.
    + repeat constructor. apply Qle_refl.
  - exists (firstAfter (setupTradeManagement config trade metadata position) ticks), others', t.
    split; [exact Hfirst|]. split; [exact Ht|]. exact Hhigh.
Qed.

Lemma trailing_stop_is_high_water_mark_witness :
  exists first others' t,
    updateTicks
      [setupTradeManagement PositionFacts.sampleConfig PositionFacts.sampleBuy
         PositionFacts.trailingFivePercent (openPosition PositionFacts.sampleBuy 100)]
      [101; 103; 102; 110]
    = first :: others'
    /\ trailingStop first = Some t
    /\ percentage t = 5 # 100
    /\ highestPrice t
       ∈ price PositionFacts.sampleBuy
         :: List.filter
              (reachesTrailingStop
                 (setupTradeManagement PositionFacts.sampleConfig PositionFacts.sampleBuy
                    PositionFacts.trailingFivePercent
                    (openPosition PositionFacts.sampleBuy 100)))
              [101; 103; 102; 110]
    /\ Forall (fun seen => seen <= highestPrice t)
         (price PositionFacts.sampleBuy
          :: List.filter
               (reachesTrailingStop
                  (setupTradeManagement PositionFacts.sampleConfig PositionFacts.sampleBuy
                     PositionFacts.trailingFivePercent
                     (openPosition PositionFacts.sampleBuy 100)))
               [101; 103; 102; 110])
    /\ triggerPrice t = highestPrice t * (1 - (5 # 100)).
Proof.
  apply (trailing_stop_is_high_water_mark PositionFacts.sampleConfig PositionFacts.sampleBuy
           PositionFacts.trailingFivePercent (openPosition PositionFacts.sampleBuy 100)
           [] [101; 103; 102; 110] (5 # 100)).
  - reflexivity.
  - intros H. vm_compute in H. discriminate H.
Defined.

(** On the ticks 101, 103, 102, 110 the highest price of that trailing
    stop is 103: the tick 110 is above the take-profit at 104. *)
Example firstAfter_highest :
  highestPrice <$>
    trailingStop
      (firstAfter
         (setupTradeManagement PositionFacts.sampleConfig PositionFacts.sampleBuy
            PositionFacts.trailingFivePercent (openPosition PositionFacts.sampleBuy 100))
         [101; 103; 102; 110])
  = Some 103.
Proof. reflexivity. Qed.



Lemma passOver_no_order position price :
  stopLossHit position price = false ->
  takeProfitHit position price = false ->
  (forall t, trailingStop position = Some t ->
             JS.leb price (triggerPrice (ratchet t price)) = false) ->
  passOrders (passOver position price) = [].
Proof.
  intros Hstop Hprofit Htrailing. unfold passOver, sellIf.
  cbn [executeSmartTrade trailingStop].
  change (stopLossHit _ price) with (stopLossHit position price).
  change (takeProfitHit _ price) with (takeProfitHit position price).
  rewrite Hstop, Hprofit.
  destruct (trailingStop position) as [t|]; [|reflexivity].
  rewrite (Htrailing t eq_refl). reflexivity.
Qed.

Lemma truthy_positive x : 0 <= x -> JS.truthy (Some x) = true -> 0 < x.
Proof.
  cbn. intros Hx H. apply negb_true_iff in H. apply Qeq_bool_neq in H.
  apply Qle_lteq in Hx as [Hx|Hx]; [exact Hx | symmetry in Hx; contradiction].
Qed.

(** X26. A position does not sell at its own entry price.  When the
    stop-loss, take-profit and trailing percentages in force are not
    negative and the fill price is positive, the position that
    [setupTradeManagement] has prepared for a BUY trade asks for no SELL
    on a tick at the fill price. *)
Theorem no_exit_at_entry_price
    (config : CONFIG) (trade : Trade) (metadata : Metadata) (marketPrice : Q) :
  0 < price trade ->
  0 <= orElse (m_stopLoss metadata) (stopLossPct config) ->
  0 <= orElse (m_takeProfit metadata) (takeProfitPct config) ->
  0 <= orElse (m_trailingStop metadata) 0 ->
  snd (updatePositionPnL
         (setupTradeManagement config trade metadata (openPosition trade marketPrice))
         (price trade)) = [].
Proof.
  intros Hprice Hstop Hprofit Htrailing.
  unfold updatePositionPnL. cbn [snd]. apply passOver_no_order.
  - unfold stopLossHit, setupTradeManagement. cbn [stopLoss openPosition].
    destruct (JS.truthy (Some (orElse (m_stopLoss metadata) (stopLossPct config)))) eqn:E;
      [|reflexivity].
    apply truthy_positive in E; [|exact Hstop].
    assert (0 < price trade * orElse (m_stopLoss metadata) (stopLossPct config))
      by (apply Qmult_lt_0_compat; assumption).
    apply andb_false_iff. right. apply JSFacts.leb_nle. lra.
  - unfold takeProfitHit, setupTradeManagement. cbn [takeProfit openPosition].
    destruct (JS.truthy (Some (orElse (m_takeProfit metadata) (takeProfitPct config))))
      eqn:E; [|reflexivity].
    apply truthy_positive in E; [|exact Hprofit].
    assert (0 < price trade * orElse (m_takeProfit metadata) (takeProfitPct config))
      by (apply Qmult_lt_0_compat; assumption).
    apply andb_false_iff. right. apply JSFacts.leb_nle. lra.
  - intros t. unfold setupTradeManagement. cbn [trailingStop openPosition].
    destruct (m_trailingStop metadata) as [pct|] eqn:Hpct; [|discriminate].
    destruct (JS.truthy (Some pct)) eqn:E; [|discriminate].
    intros [= <-]. unfold ratchet. cbn [highestPrice].
    assert (E1 : JS.ltb (price trade) (price trade) = false)
      by (apply JSFacts.ltb_nlt; apply Qle_refl).
    rewrite E1. cbn [triggerPrice]. apply JSFacts.leb_nle.
    unfold orElse in Htrailing. rewrite E in Htrailing.
    apply truthy_positive in E; [|exact Htrailing].
    assert (0 < price trade * pct) by (apply Qmult_lt_0_compat; assumption).
    lra.
Qed.

Lemma no_exit_at_entry_price_witness :
  snd (updatePositionPnL
         (setupTradeManagement PositionFacts.sampleConfig PositionFacts.sampleBuy
            PositionFacts.trailingFivePercent (openPosition PositionFacts.sampleBuy 101))
         (price PositionFacts.sampleBuy)) = [].
Proof.
  apply (no_exit_at_entry_price PositionFacts.sampleConfig PositionFacts.sampleBuy
           PositionFacts.trailingFivePercent 101); vm_compute;
    first [reflexivity | discriminate].
Defined.

End ExitFacts.

(** * More of [trading.js]: volatility, market structure, trend and signals *)

Module Analysis.
Import Trading.

(** [l.slice(-k)] for [k >= 1]: the last [k] elements, or all of [l] when
    it has fewer. *)
Definition lastN {A} (k : nat) (l : list A) : list A := drop (length l - k) l.

(** The true range at index [i]; it is [NaN] when one of the arrays has no
    such index. *)
Definition trueRange (highs lows closes : list Q) (i : nat) : JS.number :=
  match highs !! i, lows !! i, closes !! (i - 1)%nat with
  | Some h, Some l, Some c =>
      JS.Fin (JS.max (JS.max (h - l) (Qabs (h - c))) (Qabs (l - c)))
  | _, _, _ => JS.NaN
  end.

(** [calculateATR] *)
Definition calculateATR (highs lows closes : list Q) (period : positive) : JS.number :=
  let n := Pos.to_nat period in
  if Nat.ltb (length closes) (n + 1) then JS.Fin 0
  else
    let trueRanges := map (trueRange highs lows closes) (seq 1 (length closes - 1)) in
    JS.quot (fold_left JS.add (lastN n trueRanges) (JS.Fin 0)) (JS.Fin (ofPos period)).

(** *** Market structure *)

Record Counts := {
  higherHighs : nat;
  higherLows : nat;
  lowerHighs : nat;
  lowerLows : nat
}.

Record MarketStructure := {
  structure : string;
  counts : Counts;
  strength : JS.number
}.

(** One turn of the loop of [analyzeMarketStructure]. *)
Definition compare (recentHighs recentLows : list Q) (c : Counts) (i : nat) : Counts :=
  let higherHigh := gt (recentHighs !! i) (recentHighs !! (i - 1)%nat) in
  let higherLow := gt (recentLows !! i) (recentLows !! (i - 1)%nat) in
  {| higherHighs := if higherHigh then S (higherHighs c) else higherHighs c;
     lowerHighs := if higherHigh then lowerHighs c else S (lowerHighs c);
     higherLows := if higherLow then S (higherLows c) else higherLows c;
     lowerLows := if higherLow then lowerLows c else S (lowerLows c) |}.

Definition ofInt (z : Z) : Q := inject_Z z.

(** [analyzeMarketStructure]; the closes are passed and not used. *)
Definition analyzeMarketStructure (highs lows closes : list Q) : MarketStructure :=
  let recentHighs := lastN 10 highs in
  let recentLows := lastN 10 lows in
  let c := fold_left (compare recentHighs recentLows)
                     (seq 1 (length recentHighs - 1))
                     {| higherHighs := 0; higherLows := 0; lowerHighs := 0; lowerLows := 0 |} in
  {| structure :=
       if Nat.ltb (lowerHighs c) (higherHighs c) && Nat.ltb (lowerLows c) (higherLows c)
       then "uptrend"
       else if Nat.ltb (higherHighs c) (lowerHighs c) && Nat.ltb (higherLows c) (lowerLows c)
       then "downtrend"
       else "sideways";
     counts := c;
     strength :=
       JS.div (ofInt (Z.of_nat (Nat.max (higherHighs c + higherLows c)
                                        (lowerHighs c + lowerLows c))))
              (ofInt (Z.of_nat (length recentHighs) - 1)) |}.

(** *** Moving averages and trend *)

Definition MA_PERIODS : list positive := [7; 14; 21; 50; 100; 200]%positive.

(** The objects [sma] and [ema], keyed by the period, in the order the keys
    were set. *)
Record MovingAverages := {
  sma : list (positive * Q);
  ema : list (positive * option Q)
}.

Definition calculateMovingAverages (closes : list Q) : MovingAverages :=
  let periods :=
    List.filter (fun period => Nat.leb (Pos.to_nat period) (length closes)) MA_PERIODS in
  {| sma := map (fun period =>
                   (period, sum (lastN (Pos.to_nat period) closes) / ofPos period)) periods;
     ema := map (fun period => (period, calculateEMA closes period)) periods |}.

(** [Math.round] *)
Definition round (x : Q) : Z := Qfloor (x + (1 # 2)).

Record TrendAnalysis := {
  trend : string;
  trendStrength : Z;
  shortTerm : string;
  maScore : Z;
  maxScore : nat
}.

(** [calculateTrendAnalysis] *)
Definition calculateTrendAnalysis (closes : list Q) (movingAverages : MovingAverages)
    : TrendAnalysis :=
  let currentPrice := last closes in
  let previousPrice := beforeLast closes in
  let maComparisons :=
    map (fun entry => if gt currentPrice (Some (snd entry)) then 1%Z else (-1)%Z)
        (List.filter (fun entry => JS.truthy (Some (snd entry))) (sma movingAverages)) in
  let maScore := fold_left Z.add maComparisons 0%Z in
  let maxScore := length maComparisons in
  let result :=
    if Nat.ltb 0 maxScore then
      if Z.ltb 0 maScore
      then ("bullish", ofInt maScore / ofInt (Z.of_nat maxScore) * 100)
      else if Z.ltb maScore 0
      then ("bearish", ofInt (Z.abs maScore) / ofInt (Z.of_nat maxScore) * 100)
      else ("neutral", 0)
    else ("neutral", 0) in
  {| trend := fst result;
     trendStrength := round (snd result);
     shortTerm := if gt currentPrice previousPrice then "bullish" else "bearish";
     maScore := maScore;
     maxScore := maxScore |}.

(** *** Signals from the indicators *)

Record BollingerBands := { position : JS.number; squeeze : option bool }.

Record VolumeAnalysis := { highVolume : option bool }.

(** What [generateTradingSignals] reads of its argument. *)
Record Indicators := {
  i_rsi : Rsi;
  i_macd : MacdResult;
  i_bollingerBands : BollingerBands;
  i_stochastic : StochasticResult;
  i_volumeAnalysis : VolumeAnalysis;
  i_trendAnalysis : TrendAnalysis
}.

Inductive Action := BUY | SELL | HOLD.

Definition Action_eqb (a b : Action) : bool :=
  match a, b with
  | BUY, BUY | SELL, SELL | HOLD, HOLD => true
  | _, _ => false
  end.

Record Individual := {
  type : string;
  action : Action;
  individualStrength : Z
}.

(** A flag that may be [undefined]. *)
Definition flag (b : option bool) : bool := default false b.

(** [if (c) signals.push(s)] *)
Definition pushIf (c : bool) (s : Individual) : list Individual := if c then [s] else [].

(** [if (signal.strength < 5) signal.strength += 1] *)
Definition confirm (s : Individual) : Individual :=
  if Z.ltb (individualStrength s) 5
  then {| type := type s; action := action s; individualStrength := individualStrength s + 1 |}
  else s.

Definition confirmSide (side : Action) (signals : list Individual) : list Individual :=
  map (fun s => if Action_eqb (action s) side then confirm s else s) signals.

Definition strengthOf (side : Action) (signals : list Individual) : Z :=
  fold_left (fun sum s => (sum + individualStrength s)%Z)
            (List.filter (fun s => Action_eqb (action s) side) signals) 0%Z.

Record TradingSignals := {
  overall : Action;
  confidence : Z;
  individual : list Individual;
  buyStrength : Z;
  sellStrength : Z;
  signalCount : nat
}.

(** [generateTradingSignals(indicators)] of [trading.js]. *)
Definition generateTradingSignals (indicators : Indicators) : TradingSignals :=
  let rsi := i_rsi indicators in
  let macd := i_macd indicators in
  let bands := i_bollingerBands indicators in
  let stoch := i_stochastic indicators in
  let pushed :=
    pushIf (flag (oversold rsi) && String.eqb (rsiTrend rsi) "rising")
           {| type := "RSI_OVERSOLD_REVERSAL"; action := BUY; individualStrength := 3 |}
    ++ pushIf (flag (overbought rsi) && String.eqb (rsiTrend rsi) "falling")
           {| type := "RSI_OVERBOUGHT_REVERSAL"; action := SELL; individualStrength := 3 |}
    ++ pushIf (flag (bullishCrossover macd))
           {| type := "MACD_BULLISH_CROSSOVER"; action := BUY; individualStrength := 4 |}
    ++ pushIf (flag (bearishCrossover macd))
           {| type := "MACD_BEARISH_CROSSOVER"; action := SELL; individualStrength := 4 |}
    ++ pushIf (JS.lt (position bands) (JS.Fin (1 # 10)) && flag (squeeze bands))
           {| type := "BB_SQUEEZE_OVERSOLD"; action := BUY; individualStrength := 3 |}
    ++ pushIf (JS.lt (JS.Fin (9 # 10)) (position bands) && flag (squeeze bands))
           {| type := "BB_SQUEEZE_OVERBOUGHT"; action := SELL; individualStrength := 3 |}
    ++ pushIf (flag (stochBullishCrossover stoch) && flag (stochOversold stoch))
           {| type := "STOCH_BULLISH_CROSSOVER"; action := BUY; individualStrength := 2 |}
    ++ pushIf (flag (stochBearishCrossover stoch) && flag (stochOverbought stoch))
           {| type := "STOCH_BEARISH_CROSSOVER"; action := SELL; individualStrength := 2 |} in
  let withVolume :=
    if flag (highVolume (i_volumeAnalysis indicators)) then map confirm pushed else pushed in
  let signals :=
    if String.eqb (trend (i_trendAnalysis indicators)) "bullish"
    then confirmSide BUY withVolume
    else if String.eqb (trend (i_trendAnalysis indicators)) "bearish"
    then confirmSide SELL withVolume
    else withVolume in
  let buyStrength := strengthOf BUY signals in
  let sellStrength := strengthOf SELL signals in
  let decision :=
    if Z.ltb sellStrength buyStrength && Z.leb 5 buyStrength
    then (BUY, JS.min (ofInt buyStrength / 15 * 100) 100)
    else if Z.ltb buyStrength sellStrength && Z.leb 5 sellStrength
    then (SELL, JS.min (ofInt sellStrength / 15 * 100) 100)
    else (HOLD, 0) in
  {| overall := fst decision;
     confidence := round (snd decision);
     individual := signals;
     buyStrength := buyStrength;
     sellStrength := sellStrength;
     signalCount := length signals |}.

End Analysis.

Module AnalysisFacts.
Import Trading Analysis.

Lemma lookup_map {A B} (f : A -> B) (l : list A) (i : nat) :
  map f l !! i = f <$> (l !! i).
Proof.
  revert i. induction l as [|x l IH]; intros [|i]; cbn; try reflexivity. apply IH.
Qed.

Definition nonNegative (x : JS.number) : Prop := exists v, x = JS.Fin v /\ 0 <= v.

Lemma trueRange_candles (data : list Candle) (i : nat) :
  (1 <= i < length data)%nat ->
  nonNegative (trueRange (map high data) (map low data) (map close data) i).
Proof.
  intros Hi. unfold trueRange. rewrite !lookup_map.
  destruct (lookup_lt_is_Some_2 data i) as [candle ->]; [lia|].
  destruct (lookup_lt_is_Some_2 data (i - 1)) as [before ->]; [lia|].
  cbn. eexists. split; [reflexivity|].
  eapply Qle_trans; [apply (Qabs_nonneg (low candle - close before))|].
  apply RiskReportsFacts.max_ge_r.
Qed.

Lemma sum_nonNegative (l : list JS.number) (a : Q) :
  Forall nonNegative l -> 0 <= a -> nonNegative (fold_left JS.add l (JS.Fin a)).
Proof.
  intros H. revert a. induction H as [|x l (v & -> & Hv) _ IH]; intros a Ha; cbn [fold_left].
  - exists a. split; [reflexivity | exact Ha].
  - cbn [JS.add]. apply IH. lra.
Qed.

(** X27. On candles, the average true range is a number and is never
    negative, whatever the highs, lows and closes are (a high below the
    low included), for every period. *)
Theorem calculateATR_is_never_negative (data : list Candle) (period : positive) :
  exists v,
    calculateATR (map high data) (map low data) (map close data) period = JS.Fin v
    /\ 0 <= v.
Proof.
  unfold calculateATR.
  destruct (Nat.ltb (length (map close data)) (Pos.to_nat period + 1)).
  - exists 0. split; [reflexivity | lra].
  - cbv zeta.
    set (trueRanges := map _ _).
    assert (Hall : Forall nonNegative trueRanges).
    { apply Forall_map, Forall_forall. intros i Hi. cbn.
      apply list_elem_of_In, in_seq in Hi. rewrite length_map in Hi.
      apply trueRange_candles. lia. }
    destruct (sum_nonNegative (lastN (Pos.to_nat period) trueRanges) 0) as (total & -> & Htotal).
    + apply Forall_drop, Hall.
    + lra.
    + pose proof (IndicatorFacts.ofPos_ge_1 period) as Hperiod.
      cbn [JS.quot].
      assert (E : JS.eqb (ofPos period) 0 = false).
      { apply not_true_iff_false. intros H. js_props. lra. }
      rewrite E. eexists. split; [reflexivity|].
      apply Qle_shift_div_l; lra.
Qed.

(** *** Market structure *)

Lemma compare_counts recentHighs recentLows (indices : list nat) (c : Counts) :
  let c' := fold_left (compare recentHighs recentLows) indices c in
  (higherHighs c' + lowerHighs c' = higherHighs c + lowerHighs c + length indices)%nat
  /\ (higherLows c' + lowerLows c' = higherLows c + lowerLows c + length indices)%nat.
Proof.
  revert c. induction indices as [|i indices IH]; intros c; cbn [fold_left length].
  - cbn. lia.
  - specialize (IH (compare recentHighs recentLows c i)). cbv zeta in IH.
    destruct IH as [IH1 IH2]. cbv zeta. rewrite IH1, IH2. unfold compare.
    cbn [higherHighs lowerHighs higherLows lowerLows].
    destruct (gt (recentHighs !! i) _), (gt (recentLows !! i) _); lia.
Qed.

Lemma length_lastN {A} (k : nat) (l : list A) : length (lastN k l) = Nat.min k (length l).
Proof. unfold lastN. rewrite length_drop. lia. Qed.

(** X28. In the result of [analyzeMarketStructure] the higher and the
    lower highs add up to the number of comparisons, which is one less
    than the highs looked at (at most ten) and none when there is no
    high, and so do the higher and lower lows.  Its [strength] depends on
    the number of highs: with two highs or more it lies between 1 and 2,
    with a single high it is not a number, and with no highs it is
    zero. *)
Theorem analyzeMarketStructure_counts_and_strength (highs lows closes : list Q) :
  (higherHighs (counts (analyzeMarketStructure highs lows closes))
   + lowerHighs (counts (analyzeMarketStructure highs lows closes))
   = Nat.min 10 (length highs) - 1)%nat
  /\ (higherLows (counts (analyzeMarketStructure highs lows closes))
      + lowerLows (counts (analyzeMarketStructure highs lows closes))
      = Nat.min 10 (length highs) - 1)%nat
  /\ ((2 <= length highs)%nat ->
      exists s, strength (analyzeMarketStructure highs lows closes) = JS.Fin s
                /\ 1 <= s <= 2)
  /\ (length highs = 1%nat ->
      strength (analyzeMarketStructure highs lows closes) = JS.NaN)
  /\ (length highs = 0%nat ->
      exists s, strength (analyzeMarketStructure highs lows closes) = JS.Fin s /\ s == 0).
Proof.
  unfold analyzeMarketStructure. cbv zeta. cbn [counts strength].
  pose proof (compare_counts (lastN 10 highs) (lastN 10 lows)
                (seq 1 (length (lastN 10 highs) - 1))
                {| higherHighs := 0; higherLows := 0; lowerHighs := 0; lowerLows := 0 |})
    as Hcounts.
  cbv zeta in Hcounts. cbn [higherHighs lowerHighs higherLows lowerLows] in Hcounts.
  rewrite length_seq, length_lastN in Hcounts. rewrite length_lastN.
  set (c := fold_left _ _ _) in *. destruct Hcounts as [Hhighs Hlows].
  split; [lia|]. split; [lia|]. split; [|split].
  - intros Hlen. unfold JS.div, JS.quot, ofInt.
    set (top := Nat.max (higherHighs c + higherLows c) (lowerHighs c + lowerLows c)).
    set (n := Nat.min 10 (length highs)) in *.
    assert (Hn : (1 <= Z.of_nat n - 1)%Z) by lia.
    assert (Hlow : (Z.of_nat n - 1 <= Z.of_nat top)%Z) by lia.
    assert (Hhigh : (Z.of_nat top <= 2 * (Z.of_nat n - 1))%Z) by lia.
    rewrite Zle_Qle in Hn, Hlow, Hhigh. rewrite inject_Z_mult in Hhigh.
    change (inject_Z 1) with 1 in Hn. change (inject_Z 2) with 2 in Hhigh.
    assert (E : JS.eqb (inject_Z (Z.of_nat n - 1)) 0 = false).
    { apply not_true_iff_false. intros H. js_props. lra. }
    rewrite E. eexists. split; [reflexivity|]. split.
    + apply Qle_shift_div_l; lra.
    + apply Qle_shift_div_r; lra.
  - intros Hlen. clearbody c. rewrite Hlen in Hhighs, Hlows |- *.
    change (Nat.min 10 1 - 1)%nat with 0%nat in Hhighs, Hlows.
    assert (higherHighs c = 0 /\ lowerHighs c = 0 /\ higherLows c = 0 /\ lowerLows c = 0)%nat
      as (-> & -> & -> & ->) by lia.
    reflexivity.
  - intros Hlen. clearbody c. rewrite Hlen in Hhighs, Hlows |- *.
    change (Nat.min 10 0 - 1)%nat with 0%nat in Hhighs, Hlows.
    assert (higherHighs c = 0 /\ lowerHighs c = 0 /\ higherLows c = 0 /\ lowerLows c = 0)%nat
      as (-> & -> & -> & ->) by lia.
    eexists. split; [reflexivity|]. reflexivity.
Qed.

Lemma analyzeMarketStructure_counts_and_strength_witness :
  (exists s, strength (analyzeMarketStructure [1; 2; 3; 2; 5] [1; 2; 1; 0; 3] []) = JS.Fin s
             /\ 1 <= s <= 2)
  /\ strength (analyzeMarketStructure [1] [1] []) = JS.NaN
  /\ (exists s, strength (analyzeMarketStructure [] [] []) = JS.Fin s /\ s == 0).
Proof.
  destruct (analyzeMarketStructure_counts_and_strength [1; 2; 3; 2; 5] [1; 2; 1; 0; 3] [])
    as (_ & _ & Hmany & _).
  destruct (analyzeMarketStructure_counts_and_strength [1] [1] [])
    as (_ & _ & _ & Hone & _).
  destruct (analyzeMarketStructure_counts_and_strength [] [] [])
    as (_ & _ & _ & _ & Hnone).
  split; [|split].
  - apply Hmany. cbn. lia.
  - apply Hone. reflexivity.
  - apply Hnone. reflexivity.
Defined.

(** *** Rounding *)

Lemma round_between (x : Q) (lo hi : Z) :
  inject_Z lo <= x + (1 # 2) -> x + (1 # 2) < inject_Z (hi + 1) -> (lo <= round x <= hi)%Z.
Proof.
  intros Hlo Hhi. unfold round.
  pose proof (Qfloor_le (x + (1 # 2))) as H1.
  pose proof (Qlt_floor (x + (1 # 2))) as H2.
  assert (Hbelow : inject_Z lo < inject_Z (Qfloor (x + (1 # 2)) + 1)) by lra.
  assert (Habove : inject_Z (Qfloor (x + (1 # 2))) < inject_Z (hi + 1)) by lra.
  rewrite <- Zlt_Qlt in Hbelow, Habove. lia.
Qed.

(** *** Trend *)

Lemma score_bounded (comparisons : list Z) (start : Z) :
  Forall (fun c => c = 1 \/ c = -1)%Z comparisons ->
  (Z.abs (fold_left Z.add comparisons start - start) <= Z.of_nat (length comparisons))%Z.
Proof.
  intros H. revert start. induction H as [|c l Hc _ IH]; intros start; cbn [fold_left length].
  - lia.
  - specialize (IH (start + c)%Z). lia.
Qed.

Lemma trend_strength_between (score : Z) (entries : nat) :
  (1 <= score <= Z.of_nat entries)%Z ->
  (entries <= 6)%nat ->
  (17 <= round (ofInt score / ofInt (Z.of_nat entries) * 100) <= 100)%Z.
Proof.
  intros [Hscore Hentries] Hsix. unfold ofInt.
  assert (Hmax : (Z.of_nat entries <= 6)%Z) by lia.
  rewrite Zle_Qle in Hscore, Hentries, Hmax.
  change (inject_Z 1) with 1 in Hscore. change (inject_Z 6) with 6 in Hmax.
  set (m := inject_Z score) in *. set (n := inject_Z (Z.of_nat entries)) in *.
  assert (Hlow : (1 # 6) <= m / n) by (apply Qle_shift_div_l; lra).
  assert (Hhigh : m / n <= 1) by (apply Qle_shift_div_r; lra).
  apply round_between.
  - change (inject_Z 17) with 17. lra.
  - change (inject_Z (100 + 1)) with 101. lra.
Qed.

(** X29. The trend read off the simple moving averages of the same closes
    is neutral with strength 0 when the score is zero, that is when as
    many of the averages compared lie below the last close as do not;
    otherwise it is bullish or bearish by the sign of the score, with a
    strength between 17 and 100.  The score is never beyond the number of
    averages compared, which is at most six. *)
Theorem calculateTrendAnalysis_on_moving_averages (closes : list Q) :
  (Z.abs (maScore (calculateTrendAnalysis closes (calculateMovingAverages closes)))
   <= Z.of_nat (maxScore (calculateTrendAnalysis closes (calculateMovingAverages closes)))
   <= 6)%Z
  /\ ((maScore (calculateTrendAnalysis closes (calculateMovingAverages closes)) = 0%Z
       /\ trend (calculateTrendAnalysis closes (calculateMovingAverages closes)) = "neutral"
       /\ trendStrength (calculateTrendAnalysis closes (calculateMovingAverages closes))
          = 0%Z)
      \/ ((0 < maScore (calculateTrendAnalysis closes (calculateMovingAverages closes)))%Z
          /\ trend (calculateTrendAnalysis closes (calculateMovingAverages closes))
             = "bullish"
          /\ (17 <= trendStrength
                      (calculateTrendAnalysis closes (calculateMovingAverages closes))
              <= 100)%Z)
      \/ ((maScore (calculateTrendAnalysis closes (calculateMovingAverages closes)) < 0)%Z
          /\ trend (calculateTrendAnalysis closes (calculateMovingAverages closes))
             = "bearish"
          /\ (17 <= trendStrength
                      (calculateTrendAnalysis closes (calculateMovingAverages closes))
              <= 100)%Z)).
Proof.
  unfold calculateTrendAnalysis. cbv zeta.
  cbn [maScore maxScore trend trendStrength].
  set (comparisons := map _ (List.filter _ (sma (calculateMovingAverages closes)))).
  assert (Hones : Forall (fun c => c = 1 \/ c = -1)%Z comparisons).
  { apply Forall_map, Forall_forall. intros entry _. cbn.
    destruct (gt (last closes) (Some (snd entry))); auto. }
  assert (Hsix : (length comparisons <= 6)%nat).
  { unfold comparisons. rewrite length_map.
    etransitivity; [apply filter_length_le|].
    unfold calculateMovingAverages. cbn [sma]. rewrite length_map.
    etransitivity; [apply filter_length_le|]. cbn. lia. }
  pose proof (score_bounded comparisons 0 Hones) as Hscore.
  rewrite Z.sub_0_r in Hscore.
  set (score := fold_left Z.add comparisons 0%Z) in *.
  split; [lia|].
  destruct (Nat.ltb 0 (length comparisons)) eqn:Hsome.
  - destruct (Z.ltb 0 score) eqn:Hpositive; [|destruct (Z.ltb score 0) eqn:Hnegative].
    + right. left. apply Z.ltb_lt in Hpositive. cbn [fst snd].
      split; [exact Hpositive|]. split; [reflexivity|].
      apply trend_strength_between; lia.
    + right. right. apply Z.ltb_lt in Hnegative. cbn [fst snd].
      split; [exact Hnegative|]. split; [reflexivity|].
      apply trend_strength_between; lia.
    + left. apply Z.ltb_ge in Hpositive, Hnegative. cbn [fst snd].
      split; [lia|]. split; reflexivity.
  - left. apply Nat.ltb_ge in Hsome. cbn [fst snd].
    split; [lia|]. split; reflexivity.
Qed.

(** *** Signals *)

Definition pushedOk (s : Individual) : Prop :=
  (2 <= individualStrength s <= 4)%Z /\ action s <> HOLD.

Definition confirmedOk (s : Individual) : Prop :=
  (2 <= individualStrength s <= 5)%Z /\ action s <> HOLD.

Lemma pushIf_ok (P : Individual -> Prop) c s : P s -> Forall P (pushIf c s).
Proof. intros H. destruct c; repeat constructor. exact H. Qed.

Lemma confirm_ok s : confirmedOk s -> confirmedOk (confirm s).
Proof.
  intros [Hstrength Haction]. unfold confirm.
  destruct (Z.ltb (individualStrength s) 5) eqn:E; [|split; assumption].
  apply Z.ltb_lt in E. split; cbn; [lia | exact Haction].
Qed.

Lemma confirmSide_ok side signals :
  Forall confirmedOk signals -> Forall confirmedOk (confirmSide side signals).
Proof.
  intros H. apply Forall_map. eapply Forall_impl; [exact H|]. intros s Hs. cbn.
  destruct (Action_eqb (action s) side); [apply confirm_ok|]; exact Hs.
Qed.

Lemma length_pushIf c s : (length (pushIf c s) <= 1)%nat.
Proof. destruct c; cbn; lia. Qed.

Lemma confidence_between (total : Z) :
  (5 <= total)%Z -> (33 <= round (JS.min (ofInt total / 15 * 100) 100) <= 100)%Z.
Proof.
  intros Htotal. unfold ofInt. rewrite Zle_Qle in Htotal.
  change (inject_Z 5) with 5 in Htotal.
  assert (Hlow : 33 <= JS.min (inject_Z total / 15 * 100) 100).
  { apply JSFacts.min_glb; [|lra].
    assert ((1 # 3) <= inject_Z total / 15) by (apply Qle_shift_div_l; lra). lra. }
  pose proof (JSFacts.min_le_r (inject_Z total / 15 * 100) 100) as Hhigh.
  apply round_between.
  - change (inject_Z 33) with 33. lra.
  - change (inject_Z (100 + 1)) with 101. lra.
Qed.

(** X30. In the signals that [generateTradingSignals] of [trading.js]
    derives from the indicators, every individual signal is a BUY or a
    SELL with a strength between 2 and 5, the confirmations by volume and
    by trend included, and there are at most eight of them.  The overall
    confidence is 0 for HOLD and between 33 and 100 for BUY and SELL. *)
Theorem generateTradingSignals_strengths_and_confidence (indicators : Indicators) :
  Forall (fun s => (2 <= individualStrength s <= 5)%Z /\ action s <> HOLD)
         (individual (generateTradingSignals indicators))
  /\ (signalCount (generateTradingSignals indicators) <= 8)%nat
  /\ match overall (generateTradingSignals indicators) with
     | HOLD => confidence (generateTradingSignals indicators) = 0%Z
     | _ => (33 <= confidence (generateTradingSignals indicators) <= 100)%Z
     end.
Proof.
  unfold generateTradingSignals. cbv zeta.
  cbn [individual signalCount overall confidence].
  set (pushed := pushIf _ _ ++ _).
  assert (Hpushed : Forall confirmedOk pushed).
  { unfold pushed. repeat (apply Forall_app; split);
      apply pushIf_ok; split; cbn; (lia || discriminate). }
  assert (Hcount : (length pushed <= 8)%nat).
  { unfold pushed. rewrite !length_app.
    repeat match goal with
           | |- context [length (pushIf ?c ?s)] =>
               let n := fresh "n" in
               pose proof (length_pushIf c s);
               set (n := length (pushIf c s)) in *; clearbody n
           end.
    lia. }
  clearbody pushed.
  set (withVolume := if flag _ then map confirm pushed else pushed).
  assert (Hvolume : Forall confirmedOk withVolume /\ length withVolume = length pushed).
  { unfold withVolume. destruct (flag _); [|split; [exact Hpushed | reflexivity]].
    split; [|apply length_map]. apply Forall_map.
    eapply Forall_impl; [exact Hpushed|]. intros s Hs. apply confirm_ok, Hs. }
  destruct Hvolume as [Hvolume Hlength]. clearbody withVolume.
  set (signals := if String.eqb _ "bullish" then _ else _).
  assert (Hsignals : Forall confirmedOk signals /\ length signals = length withVolume).
  { unfold signals, confirmSide.
    destruct (String.eqb _ "bullish"); [|destruct (String.eqb _ "bearish")];
      (split; [try apply confirmSide_ok; exact Hvolume | rewrite ?length_map; reflexivity]). }
  destruct Hsignals as [Hsignals Hlength']. clearbody signals.
  split; [exact Hsignals|]. split; [lia|].
  destruct (Z.ltb _ _ && Z.leb 5 (strengthOf BUY signals)) eqn:Hbuy.
  - apply andb_true_iff in Hbuy as [_ Hbuy]. apply Z.leb_le in Hbuy.
    cbn [fst snd]. apply confidence_between, Hbuy.
  - destruct (Z.ltb _ _ && Z.leb 5 (strengthOf SELL signals)) eqn:Hsell.
    + apply andb_true_iff in Hsell as [_ Hsell]. apply Z.leb_le in Hsell.
      cbn [fst snd]. apply confidence_between, Hsell.
    + reflexivity.
Qed.

End AnalysisFacts.
